(** * WLED / 3CX presence bridge: a shallow embedding of the status pipeline

    The development follows the repository's modules:

    - [JS]: the JavaScript primitives the code relies on (string methods,
      [parseInt], property reads on object literals, promise outcomes);
    - [Normalizer]: [normalizeStatus] and its [statusMap] (the in-page part of
      [getStatus] in the 3CX web client);
    - [Wled]: [updateWLED] of [wled-controller.js];
    - [Scraper]: [takeScreenshot], [fetchCallStats], [fetchAllAgentStatuses],
      [waitForLogin], [initialize] and the debounce timer of
      [collectAndSendStatusData] (the 3CX web client);
    - [App]: the application state of [app.js] with [handleStatusChange],
      the [/api/status] handler and [updateWLEDWithStatus].

    JavaScript strings are modelled as [string]s of code units below 128;
    JavaScript numbers that hold integers in the safe range are modelled
    as [Z]. *)

From Stdlib Require Import ZArith QArith List Bool Ascii String Lia.
From stdpp Require Import gmap strings.
Import ListNotations.

Local Open Scope Z_scope.

(* ===================================================================== *)
(** * JavaScript primitives *)
(* ===================================================================== *)

Module JS.

(** ** Strings *)

(** [String.prototype.toLowerCase], on code units below 128. *)
Definition lower_ascii (c : ascii) : ascii :=
  let n := nat_of_ascii c in
  if ((65 <=? n)%nat && (n <=? 90)%nat)%bool then ascii_of_nat (n + 32) else c.

Fixpoint toLowerCase (s : string) : string :=
  match s with
  | EmptyString => EmptyString
  | String c s' => String (lower_ascii c) (toLowerCase s')
  end.

Fixpoint trimStart (s : string) : string :=
  match s with
  | EmptyString => EmptyString
  | String c s' => if Ascii.is_space c then trimStart s' else s
  end.

Definition trimEnd (s : string) : string :=
  String.rev (trimStart (String.rev s)).

(** [String.prototype.trim]. *)
Definition trim (s : string) : string := trimEnd (trimStart s).

(** [s.includes(k)]: [k] occurs in [s] as a contiguous substring. *)
Fixpoint includes (s k : string) : bool :=
  String.prefix k s ||
  match s with
  | EmptyString => false
  | String _ s' => includes s' k
  end.

(** [s.split(sep)] for a one-character separator. *)
Fixpoint split_go (sep : ascii) (cur : string) (s : string) : list string :=
  match s with
  | EmptyString => [String.rev cur]
  | String c s' =>
      if Ascii.eqb c sep then String.rev cur :: split_go sep EmptyString s'
      else split_go sep (String c cur) s'
  end.

Definition split (sep : ascii) (s : string) : list string :=
  split_go sep EmptyString s.

(** The strings of the modelled domain. *)
Definition is_ascii (s : string) : bool :=
  forallb (fun c => (nat_of_ascii c <? 128)%nat) (list_ascii_of_string s).

(** A string is truthy unless it is empty. *)
Definition truthy (s : string) : bool := negb (String.eqb s "").

(** ** Numbers read from text *)

Definition digit_value (c : ascii) : option Z :=
  let n := nat_of_ascii c in
  if ((48 <=? n)%nat && (n <=? 57)%nat)%bool then Some (Z.of_nat (n - 48))
  else if ((97 <=? n)%nat && (n <=? 102)%nat)%bool then Some (Z.of_nat (n - 87))
  else if ((65 <=? n)%nat && (n <=? 70)%nat)%bool then Some (Z.of_nat (n - 55))
  else None.

Definition is_digit (c : ascii) : bool :=
  let n := nat_of_ascii c in ((48 <=? n)%nat && (n <=? 57)%nat)%bool.

(** The longest prefix of radix-[r] digits, read as a number; [None] when
    the prefix is empty. *)
Fixpoint digits_go (r : Z) (acc : option Z) (s : string) : option Z :=
  match s with
  | EmptyString => acc
  | String c s' =>
      match digit_value c with
      | Some d =>
          if d <? r then digits_go r (Some (from_option id 0 acc * r + d)) s'
          else acc
      | None => acc
      end
  end.

Definition strip_sign (s : string) : Z * string :=
  match s with
  | String "-"%char s' => (-1, s')
  | String "+"%char s' => (1, s')
  | _ => (1, s)
  end.

(** [parseInt(s, 10)]; [None] stands for [NaN]. *)
Definition parseInt10 (s : string) : option Z :=
  let '(sign, body) := strip_sign (trimStart s) in
  (fun n => sign * n) <$> digits_go 10 None body.

(** [parseInt(s)] without a radix: a [0x] prefix selects radix 16. *)
Definition parseInt (s : string) : option Z :=
  let '(sign, body) := strip_sign (trimStart s) in
  match body with
  | String "0"%char (String x rest) =>
      if (Ascii.eqb x "x"%char || Ascii.eqb x "X"%char)%bool
      then (fun n => sign * n) <$> digits_go 16 None rest
      else (fun n => sign * n) <$> digits_go 10 None body
  | _ => (fun n => sign * n) <$> digits_go 10 None body
  end.

(** [x || 0] for a number [x]: [NaN] and [0] are falsy. *)
Definition orZero (x : option Z) : Z := from_option id 0 x.

(** ** Property reads on an object literal

    An object literal inherits from [Object.prototype]: [obj[k]] finds the
    own property [k] when there is one, and otherwise the inherited member
    of that name.  Every inherited member is truthy: [__proto__] reads the
    prototype object, the others are functions. *)

Definition objectPrototypeNames : list string :=
  [ "constructor"; "__defineGetter__"; "__defineSetter__"; "hasOwnProperty";
    "__lookupGetter__"; "__lookupSetter__"; "isPrototypeOf";
    "propertyIsEnumerable"; "toString"; "valueOf"; "__proto__";
    "toLocaleString" ].

Inductive PropRead (A : Type) : Type :=
| Own (a : A)
| InheritedProto                  (* [obj.__proto__]: [Object.prototype] *)
| InheritedFunction (name : string)
| Missing.                        (* [undefined] *)

Arguments Own {A} a.
Arguments InheritedProto {A}.
Arguments InheritedFunction {A} name.
Arguments Missing {A}.

Fixpoint assoc {A : Type} (k : string) (own : list (string * A)) : option A :=
  match own with
  | [] => None
  | (k', a) :: rest => if String.eqb k k' then Some a else assoc k rest
  end.

Definition inherited (k : string) : bool :=
  existsb (String.eqb k) objectPrototypeNames.

Definition get {A : Type} (own : list (string * A)) (k : string) : PropRead A :=
  match assoc k own with
  | Some a => Own a
  | None =>
      if String.eqb k "__proto__" then InheritedProto
      else if inherited k then InheritedFunction k
      else Missing
  end.

(** ** Completions

    A call either returns or throws; an [async] function's promise either
    resolves or rejects. *)

Inductive Completion (A : Type) : Type :=
| Normal (a : A)
| Throw (message : string).

Arguments Normal {A} a.
Arguments Throw {A} message.

Inductive Promise (A : Type) : Type :=
| Resolved (a : A)
| Rejected (message : string).

Arguments Resolved {A} a.
Arguments Rejected {A} message.

(** [try { body } catch (error) { handler(error) }] around the body of an
    [async] function whose handler returns a value. *)
Definition tryCatch {A : Type} (body : Completion A) (handler : string -> A)
  : Promise A :=
  match body with
  | Normal a => Resolved a
  | Throw e => Resolved (handler e)
  end.

End JS.

(* ===================================================================== *)
(** * Status normalizer (in-page part of [getStatus]) *)
(* ===================================================================== *)

Module Normalizer.
Import JS.

(** The closed status vocabulary of the specification. *)
Inductive Status : Type :=
| available | ringing | onCall | dnd | away | offline.

Definition status_name (s : Status) : string :=
  match s with
  | available => "available"
  | ringing => "ringing"
  | onCall => "onCall"
  | dnd => "dnd"
  | away => "away"
  | offline => "offline"
  end.

(** [statusMap], in the order of the object literal (the order in which
    [Object.entries] lists it). *)
Definition statusMap : list (string * string) :=
  [ ("available", "available"); ("online", "available");
    ("ready", "available"); ("free", "available"); ("active", "available");
    ("away", "away"); ("idle", "away"); ("break", "away"); ("lunch", "away");
    ("brb", "away"); ("be right back", "away");
    ("dnd", "dnd"); ("busy", "dnd"); ("do not disturb", "dnd");
    ("meeting", "dnd"); ("in a meeting", "dnd"); ("on break", "dnd");
    ("offline", "offline"); ("unavailable", "offline");
    ("logged out", "offline"); ("disconnected", "offline");
    ("on-call", "on-call"); ("in-call", "on-call"); ("talking", "on-call");
    ("on call", "on-call"); ("in call", "on-call");
    ("on the phone", "on-call"); ("on a call", "on-call") ].

(** What [normalizeStatus] returns: [null], a value of the table, or the
    member of [Object.prototype] that the direct lookup found. *)
Inductive Normalized : Type :=
| NNull
| NStatus (s : string)
| NPrototypeObject
| NFunction (name : string).

(** The partial-match loop over [Object.entries(statusMap)]. *)
Fixpoint partialMatch (lowerStatus : string) (entries : list (string * string))
  : Normalized :=
  match entries with
  | [] => NNull
  | (key, value) :: rest =>
      if includes lowerStatus key then NStatus value
      else partialMatch lowerStatus rest
  end.

Definition normalizeStatus (rawStatus : string) : Normalized :=
  if negb (truthy rawStatus) then NNull
  else
    let lowerStatus := trim (toLowerCase rawStatus) in
    match get statusMap lowerStatus with
    | Own value =>
        if truthy value then NStatus value
        else partialMatch lowerStatus statusMap
    | InheritedProto => NPrototypeObject
    | InheritedFunction name => NFunction name
    | Missing => partialMatch lowerStatus statusMap
    end.

(** The keyword table as the specification words it. *)
Definition spec_keyword_table : list (string * Status) :=
  [ ("available", available);
    ("dnd", dnd); ("busy", dnd); ("do not disturb", dnd); ("meeting", dnd);
    ("ringing", ringing);
    ("on call", onCall); ("on the phone", onCall); ("talking", onCall);
    ("away", away); ("idle", away); ("lunch", away);
    ("offline", offline); ("unavailable", offline); ("logged out", offline) ].

End Normalizer.

(* ===================================================================== *)
(** * LED device adapter ([wled-controller.js]) *)
(* ===================================================================== *)

Module Wled.
Import JS.

(** [config.wled]: the address is [undefined] when the environment does
    not give one; brightness and transition are the integers [parseInt]
    read from the environment (128 and 1000 by default). *)
Record Config : Type := {
  ipAddress : option string;
  brightness : Z;
  transition : Z
}.

(** A colour component as the caller passes it. *)
Inductive Component : Type :=
| CNumber (n : Z)
| CString (s : string)
| CUndefined.

(** The argument of [updateWLED]. *)
Inductive Color : Type :=
| ColorObject (r g b : Component)
| ColorFunction (name : string)     (* [typeof color === 'function'] *)
| ColorNullish                      (* [null] or [undefined] *)
| ColorPrimitive.                   (* a string, a number or a boolean *)

Record Segment : Type := {
  col : list (list Z);
  fx : Z;
  sx : Z;
  ix : Z
}.

Record Payload : Type := {
  on : bool;
  bri : Z;
  transition_s : Q;                 (* the [transition] field, in seconds *)
  seg : list Segment
}.

Record Request : Type := {
  url : string;
  body : Payload
}.

(** What the device (or the network) answers to the POST. *)
Inductive HttpOutcome : Type :=
| HttpOk
| HttpError (message : string).

Definition parseComponent (c : Component) : option Z :=
  match c with
  | CNumber n => Some n
  | CString s => parseInt s
  | CUndefined => None
  end.

(** [Math.min(255, Math.max(0, parseInt(c) || 0))]. *)
Definition channel (c : Component) : Z :=
  Z.min 255 (Z.max 0 (orZero (parseComponent c))).

Definition configured (cfg : Config) : option string :=
  match ipAddress cfg with
  | Some ip => if truthy ip then Some ip else None
  | None => None
  end.

Definition solidColor (cfg : Config) (r g b : Z) : Payload :=
  {| on := true;
     bri := brightness cfg;
     transition_s := Qdiv (inject_Z (transition cfg)) (inject_Z 1000);
     seg := [ {| col := [[r; g; b]]; fx := 0; sx := 128; ix := 128 |} ] |}.

(** The body of [updateWLED] inside its outer [try]: the completion and the
    requests sent. *)
Definition updateWLED_try (cfg : Config) (color : Color) (net : HttpOutcome)
  : Completion bool * list Request :=
  match configured cfg with
  | None => (Throw "WLED IP address is not configured", [])
  | Some ip =>
      match color with
      | ColorObject r g b =>
          let request :=
            {| url := "http://" +:+ ip +:+ "/json";
               body := solidColor cfg (channel r) (channel g) (channel b) |} in
          match net with
          | HttpOk => (Normal true, [request])
          | HttpError message => (Throw message, [request])   (* rethrown *)
          end
      | _ => (Throw "Invalid color object provided", [])
      end
  end.

Definition updateWLED (cfg : Config) (color : Color) (net : HttpOutcome)
  : Promise bool * list Request :=
  let '(completion, requests) := updateWLED_try cfg color net in
  (tryCatch completion (fun _ => false), requests).

End Wled.

(* ===================================================================== *)
(** * Presence scraper (the 3CX web client) *)
(* ===================================================================== *)

Module Scraper.
Import JS.

(** ** The browser session *)

(** The statistics table inside [queue-stat]: the cell texts of the header
    row [.qst-l-td] and of the data row [.qst-d-td], when present. *)
Record QueueStat : Type := {
  headerRow : option (list string);
  dataRow : option (list string)
}.

(** The [div[data-qa="number"]] of an agent item: its text and the class
    name of its status indicator [span], when there is one. *)
Record NumberEl : Type := {
  numberText : string;
  statusIndicator : option string
}.

Record NameEl : Type := {
  nameTitle : option string;        (* [getAttribute('title')] *)
  nameText : string
}.

Record AgentItem : Type := {
  numberEl : option NumberEl;
  nameEl : option NameEl;
  queuesEl : option string
}.

Record Document : Type := {
  queueStat : option QueueStat;                 (* [queue-stat] *)
  agentContainer : option (list AgentItem)      (* [app-all-queue-agents] *)
}.

Record Page : Type := {
  isClosed : bool;
  evaluateRejects : bool;           (* [page.evaluate] rejects *)
  screenshotRejects : bool;         (* [page.screenshot] rejects *)
  document : Document
}.

Inductive MkdirOutcome : Type :=
| MkdirOk
| MkdirExists                       (* [error.code === 'EEXIST'] *)
| MkdirError.

(** The module variables [browser] and [page] and what the environment
    answers during one call. *)
Record Session : Type := {
  browser : bool;                   (* [browser] is not [null] *)
  page : option Page;
  now : Z;                          (* [Date.now()] *)
  timestamp : string;               (* [new Date().toISOString()] *)
  mkdir : MkdirOutcome
}.

Definition pageAvailable (s : Session) : option Page :=
  if browser s then
    match page s with
    | Some p => if isClosed p then None else Some p
    | None => None
    end
  else None.

(** ** Screenshots *)

Record ScreenshotConfig : Type := {
  enabled : bool;
  minInterval : Z;
  maxPerSession : Z
}.

(** [config.screenshots] when the environment sets only the enable flag. *)
Definition defaultScreenshots (enable : bool) : ScreenshotConfig :=
  {| enabled := enable; minInterval := 60000; maxPerSession := 20 |}.

Record ScreenshotState : Type := {
  lastScreenshotTime : Z;
  screenshotCount : Z
}.

Definition initialScreenshots : ScreenshotState :=
  {| lastScreenshotTime := 0; screenshotCount := 0 |}.

(** [iso.replace(/:/g, '-')]. *)
Fixpoint fileStamp (iso : string) : string :=
  match iso with
  | EmptyString => EmptyString
  | String c rest =>
      String (if Ascii.eqb c ":"%char then "-"%char else c) (fileStamp rest)
  end.

Definition screenshotPath (pre stamp : string) : string :=
  "public/screenshots/" +:+ pre +:+ "-screenshot-" +:+ stamp +:+ ".png".

(** [takeScreenshot(prefix, force)]: the path of the saved file or [null],
    and the updated counters. *)
Definition takeScreenshot (cfg : ScreenshotConfig) (s : Session)
    (st : ScreenshotState) (pre : string) (force : bool)
  : option string * ScreenshotState :=
  if (negb (enabled cfg) && negb force)%bool then (None, st)
  else if ((maxPerSession cfg <=? screenshotCount st) && negb force)%bool
  then (None, st)
  else if ((now s - lastScreenshotTime st <? minInterval cfg)
           && negb force)%bool
  then (None, st)
  else
    let st' := {| lastScreenshotTime := now s;
                  screenshotCount := screenshotCount st + 1 |} in
    match page s with
    | None => (None, st')
    | Some p =>
        match mkdir s with
        | MkdirError => (None, st')
        | _ =>
            if screenshotRejects p then (None, st')
            else (Some (screenshotPath pre (fileStamp (timestamp s))), st')
        end
    end.

(** The file is written when the page is there, the directory can be used
    and [page.screenshot] goes through. *)
Definition canCapture (s : Session) : bool :=
  match page s with
  | Some p =>
      match mkdir s with
      | MkdirError => false
      | _ => negb (screenshotRejects p)
      end
  | None => false
  end.

(** ** Call statistics *)

Record CallStats : Type := {
  waitingCalls : Z;
  activeCalls : Z;
  totalCalls : Z;
  servicedCalls : Z;
  abandonedCalls : Z;
  longestWaiting : option string;
  averageWaiting : option string;
  averageTalking : option string;
  lastUpdated : option string;
  source : string;
  error : option string
}.

Definition zeroStats (stamp : option string) (src : string)
    (err : option string) : CallStats :=
  {| waitingCalls := 0; activeCalls := 0; totalCalls := 0;
     servicedCalls := 0; abandonedCalls := 0;
     longestWaiting := None; averageWaiting := None; averageTalking := None;
     lastUpdated := stamp; source := src; error := err |}.

(** The loop that fills [statsMap]: header text to data value, up to the
    shorter of the two rows. *)
Fixpoint buildStatsMap (headers data : list string) (m : gmap string string)
  : gmap string string :=
  match headers, data with
  | h :: headers', d :: data' =>
      buildStatsMap headers' data' (<[ toLowerCase (trim h) := trim d ]> m)
  | _, _ => m
  end.

(** The counter read for one header. *)
Definition counter (m : gmap string string) (header : string) : Z :=
  match m !! header with
  | Some text => orZero (parseInt10 text)
  | None => 0
  end.

(** The function evaluated in the page: the statistics found in the
    [queue-stat] table, if any. *)
Definition scrapeQueueStat (d : Document) : option CallStats :=
  match queueStat d with
  | Some q =>
      match headerRow q, dataRow q with
      | Some headers, Some data =>
          let statsMap := buildStatsMap headers data ∅ in
          let foundStats :=
            (bool_decide (is_Some (statsMap !! "waiting calls"))
             || bool_decide (is_Some (statsMap !! "serviced calls"))
             || bool_decide (is_Some (statsMap !! "abandoned calls")))%bool in
          if foundStats then
            let waiting := counter statsMap "waiting calls" in
            let serviced := counter statsMap "serviced calls" in
            let abandoned := counter statsMap "abandoned calls" in
            Some {| waitingCalls := waiting;
                    activeCalls := 0;
                    totalCalls := serviced + abandoned + waiting;
                    servicedCalls := serviced;
                    abandonedCalls := abandoned;
                    longestWaiting := statsMap !! "longest waiting";
                    averageWaiting := statsMap !! "average waiting";
                    averageTalking := statsMap !! "average talking";
                    lastUpdated := None;
                    source := "queue-stat-element";
                    error := None |}
          else None
      | _, _ => None
      end
  | None => None
  end.

Definition stamped (stamp : string) (c : CallStats) : CallStats :=
  {| waitingCalls := waitingCalls c; activeCalls := activeCalls c;
     totalCalls := totalCalls c; servicedCalls := servicedCalls c;
     abandonedCalls := abandonedCalls c;
     longestWaiting := longestWaiting c; averageWaiting := averageWaiting c;
     averageTalking := averageTalking c;
     lastUpdated := Some stamp; source := source c; error := error c |}.

(** [fetchCallStats()]: the statistics, or [null] when the extraction
    itself failed. *)
Definition fetchCallStats (cfg : ScreenshotConfig) (s : Session)
    (st : ScreenshotState) : option CallStats * ScreenshotState :=
  match pageAvailable s with
  | None => (Some (zeroStats (Some (timestamp s)) "default" None), st)
  | Some p =>
      let st1 := snd (takeScreenshot cfg s st "call-stats-detection" false) in
      if evaluateRejects p then
        (None, snd (takeScreenshot cfg s st1 "call-stats-error" false))
      else
        match scrapeQueueStat (document p) with
        | Some found => (Some (stamped (timestamp s) found), st1)
        | None => (Some (zeroStats (Some (timestamp s)) "web" None), st1)
        end
  end.

(** ** Agent roster *)

Record Agent : Type := {
  id : string;
  extension : string;
  name : string;
  status : string;
  queues : string;
  color : string
}.

Definition knownStatuses : list string :=
  [ "available"; "away"; "dnd"; "lunch"; "business-trip"; "oncall";
    "on-call"; "onCall"; "ringing"; "off" ].

Fixpoint takeDigits (s : string) : string :=
  match s with
  | EmptyString => EmptyString
  | String c s' => if is_digit c then String c (takeDigits s') else EmptyString
  end.

(** [text.match(/\d+/)]: the first run of digits. *)
Fixpoint firstDigits (s : string) : option string :=
  match s with
  | EmptyString => None
  | String c s' => if is_digit c then Some (takeDigits s) else firstDigits s'
  end.

Definition mapStatus (matchedStatus : string) : string :=
  if String.eqb matchedStatus "off" then "offline"
  else if (String.eqb matchedStatus "on-call"
           || String.eqb matchedStatus "oncall")%bool then "onCall"
  else matchedStatus.

(** The loop over the indicator's classes: the first class that is a known
    status decides; ["offline"] when none is. *)
Fixpoint classStatus (statusClasses : list string) : string :=
  match statusClasses with
  | [] => "offline"
  | className :: rest =>
      match find (fun s => String.eqb (toLowerCase className) (toLowerCase s))
                 knownStatuses with
      | Some matchedStatus => mapStatus matchedStatus
      | None => classStatus rest
      end
  end.

Definition rosterColor (st : string) : string :=
  if String.eqb st "available" then "green"
  else if String.eqb st "onCall" then "red"
  else if String.eqb st "ringing" then "yellow"
  else if String.eqb st "dnd" then "purple"
  else if String.eqb st "away" then "orange"
  else "gray".

Definition orElse (a : option string) (b : string) : string :=
  match a with
  | Some x => if truthy x then x else b
  | None => b
  end.

(** The body of [agentItems.forEach]: the entry pushed for one item, if
    any. *)
Definition agentOf (item : AgentItem) : option Agent :=
  match numberEl item, nameEl item with
  | Some number, Some nameElement =>
      let ext := firstDigits (trim (numberText number)) in
      let nm := orElse (nameTitle nameElement) (trim (nameText nameElement)) in
      let qs := from_option trim "" (queuesEl item) in
      let st :=
        match statusIndicator number with
        | Some className => classStatus (split " "%char className)
        | None => "offline"
        end in
      match ext with
      | Some e =>
          if (truthy e && truthy nm)%bool
          then Some {| id := e; extension := e; name := nm; status := st;
                       queues := qs; color := rosterColor st |}
          else None
      | None => None
      end
  | _, _ => None
  end.

(** The function evaluated in the page: [null] without the container. *)
Definition scrapeAgents (d : Document) : option (list Agent) :=
  match agentContainer d with
  | None => None
  | Some agentItems => Some (omap agentOf agentItems)
  end.

(** [fetchAllAgentStatuses()]: the roster or [null]. *)
Definition fetchAllAgentStatuses (cfg : ScreenshotConfig) (s : Session)
    (st : ScreenshotState) : option (list Agent) * ScreenshotState :=
  match pageAvailable s with
  | None => (None, st)
  | Some p =>
      let st1 :=
        snd (takeScreenshot cfg s st "all-agents-status-detection" false) in
      if evaluateRejects p then
        (None, snd (takeScreenshot cfg s st1 "all-agents-status-error" false))
      else (scrapeAgents (document p), st1)
  end.

(** ** Manual login *)

(** What one poll of the page reports. *)
Record PageInfo : Type := {
  is3CXUrl : bool;                  (* the address contains [3cx] *)
  loginFormPresent : bool;
  userMenu : bool;
  switchboard : bool;
  presenceIndicator : bool;
  hasAuthToken : bool
}.

(** A poll either rejects or reports; after a detected login, [persisted]
    tells whether saving the cookies and the local storage went through. *)
Inductive Poll : Type :=
| PollRejects
| PollInfo (info : PageInfo) (persisted : bool).

Definition loginFormVisibleOn3CX (i : PageInfo) : bool :=
  (is3CXUrl i && loginFormPresent i)%bool.

(** The login-success markers. *)
Definition is3CXLoggedIn (i : PageInfo) : bool :=
  (is3CXUrl i && negb (loginFormVisibleOn3CX i)
   && (userMenu i || switchboard i || presenceIndicator i
       || hasAuthToken i))%bool.

Definition loginDetected (p : Poll) : bool :=
  match p with
  | PollRejects => false
  | PollInfo i persisted => (is3CXLoggedIn i && persisted)%bool
  end.

Definition maxWaitTime : Z := 10 * 60 * 1000.

(** The [while] loop of [waitForLogin]: [elapsed] is [Date.now() -
    startTime] at the test, [i] counts the polls; an unsuccessful iteration
    takes the time of its poll and then sleeps 5000 ms.  [None] when the
    recursion bound is reached. *)
Fixpoint waitLoop (polls : nat -> Poll) (latency : nat -> nat)
    (fuel : nat) (elapsed : Z) (i : nat) : option bool :=
  match fuel with
  | O => None
  | S fuel' =>
      if elapsed <? maxWaitTime then
        if loginDetected (polls i) then Some true
        else waitLoop polls latency fuel'
               (elapsed + Z.of_nat (latency i) + 5000) (S i)
      else Some false
  end.

(** [waitForLogin()]: [true] on a detected login, [false] on timeout. *)
Definition waitForLogin (polls : nat -> Poll) (latency : nat -> nat)
  : option bool :=
  waitLoop polls latency 121 0 0.

(** ** Initialization *)

Record Cookie : Type := {
  cookieName : string;
  expires : Z                       (* seconds; [0] when absent *)
}.

Record InitEnv : Type := {
  cookieFile : option (list Cookie);   (* [None]: unreadable or not JSON *)
  configHeadless : bool;
  clock : Z;                           (* [Date.now()], in ms *)
  launchOk : bool;                     (* launch, new page, viewport *)
  gotoOk : bool;
  loginFormExists : bool;
  threeCxElementsExist : bool;
  loginCheckRejects : bool;
  relaunchOk : bool;
  polls : nat -> Poll;
  latency : nat -> nat;
  pageCookies : option (list Cookie);  (* [None]: [page.cookies()] rejects *)
  writeCookiesOk : bool
}.

(** What [initialize] itself leaves behind: the filtered cookies it writes
    after the login wait, and whether it started the refresh interval. *)
Record InitEffects : Type := {
  cookiesSaved : option (list Cookie);
  refreshIntervalStarted : bool
}.

Definition noEffects : InitEffects :=
  {| cookiesSaved := None; refreshIntervalStarted := false |}.

(** [checkIfLoginRequired()]. *)
Definition checkIfLoginRequired (e : InitEnv) : bool :=
  if loginCheckRejects e then true
  else negb (threeCxElementsExist e && negb (loginFormExists e)).

(** Cookies kept when saving: no expiry, or expiring more than a day from
    now. *)
Definition keepsForADay (nowMs : Z) (c : Cookie) : bool :=
  ((expires c =? 0) || (nowMs + 24 * 60 * 60 * 1000 <? expires c * 1000))%bool.

(** The body of [initialize] inside its [try]; [None] only if the login
    wait does not come back.  The block that loads the saved cookies into
    the page catches its own errors and only writes [hasSavedCookies],
    which is not read afterwards, and [navigateToSwitchboard] never throws
    and its result only decides a warning: neither appears here. *)
Definition initialize_try (e : InitEnv)
  : option (Completion bool * InitEffects) :=
  let hasSavedCookies :=
    match cookieFile e with
    | Some cookies => (0 <? Z.of_nat (length cookies))
    | None => false
    end in
  let headlessMode := if hasSavedCookies then configHeadless e else false in
  if negb (launchOk e) then Some (Throw "launch failed", noEffects)
  else if negb (gotoOk e) then Some (Throw "navigation failed", noEffects)
  else
    let loginRequired := checkIfLoginRequired e in
    if (loginRequired && headlessMode && negb (relaunchOk e))%bool
    then Some (Throw "launch failed", noEffects)
    else
      let finish (saved : option (list Cookie)) :=
        (* navigateToSwitchboard(); startRefreshInterval(); return true *)
        (Normal true,
         {| cookiesSaved := saved; refreshIntervalStarted := true |}) in
      if loginRequired then
        match waitForLogin (polls e) (latency e) with
        | None => None
        | Some _ =>                    (* the result is not looked at *)
            match pageCookies e with
            | None => Some (Throw "cookies unavailable", noEffects)
            | Some cookies =>
                let validCookies :=
                  List.filter (keepsForADay (clock e)) cookies in
                match validCookies with
                | [] => Some (finish None)
                | _ :: _ =>
                    if writeCookiesOk e then Some (finish (Some validCookies))
                    else Some (Throw "write failed", noEffects)
                end
            end
        end
      else Some (finish None).

(** [initialize(callback)]: resolves to [true], or to [false] from the
    [catch]. *)
Definition initialize (e : InitEnv) : option (Promise bool * InitEffects) :=
  match initialize_try e with
  | Some (completion, effects) =>
      Some (tryCatch completion (fun _ => false), effects)
  | None => None
  end.

(** ** Debounced collection *)

Inductive Source : Type :=
| SInitial | SInterval | SObserver.

(** The delay of the timeout armed by [collectAndSendStatusData(source)]. *)
Definition debounceDelay (src : Source) : Z :=
  match src with
  | SObserver => 500
  | _ => 0
  end.

(** The pending timeout (its due time and source) and the collection
    cycles started so far, most recent first. *)
Record Timers : Type := {
  debounceTimer : option (Z * Source);
  cycles : list (Z * Source)
}.

Definition idle : Timers := {| debounceTimer := None; cycles := [] |}.

(** The event loop up to time [t]: a timeout due before [t] has run its
    collection cycle. *)
Definition elapse (t : Z) (tm : Timers) : Timers :=
  match debounceTimer tm with
  | Some (due, src) =>
      if due <? t
      then {| debounceTimer := None; cycles := (due, src) :: cycles tm |}
      else tm
  | None => tm
  end.

(** Every pending timeout runs. *)
Definition settle (tm : Timers) : Timers :=
  match debounceTimer tm with
  | Some (due, src) =>
      {| debounceTimer := None; cycles := (due, src) :: cycles tm |}
  | None => tm
  end.

(** [collectAndSendStatusData(source)] called at time [t]: the pending
    timeout is cleared and a new one armed. *)
Definition collectAndSendStatusData (t : Z) (src : Source) (tm : Timers)
  : Timers :=
  {| debounceTimer := Some (t + debounceDelay src, src);
     cycles := cycles tm |}.

(** A chronological list of calls, then quiescence. *)
Fixpoint runCalls (calls : list (Z * Source)) (tm : Timers) : Timers :=
  match calls with
  | [] => settle tm
  | (t, src) :: rest =>
      runCalls rest (collectAndSendStatusData t src (elapse t tm))
  end.

End Scraper.

(* ===================================================================== *)
(** * Reconciliation and broadcast core ([app.js]) *)
(* ===================================================================== *)

Module App.
Import JS.

(** [config.wled.statusColors]. *)
Definition statusColors : list (string * (Z * Z * Z)) :=
  [ ("available", (0, 255, 0));
    ("ringing", (255, 255, 0));
    ("onCall", (255, 0, 0));
    ("dnd", (128, 0, 128));
    ("away", (255, 165, 0));
    ("offline", (0, 0, 255)) ].

(** [getColorForStatus]. *)
Definition getColorForStatus (st : string) : string :=
  if String.eqb st "available" then "green"
  else if String.eqb st "ringing" then "yellow"
  else if String.eqb st "onCall" then "red"
  else if String.eqb st "dnd" then "purple"
  else if String.eqb st "away" then "orange"
  else if String.eqb st "offline" then "blue"
  else "gray".

(** A dashboard connection; [isOpen] is [readyState === WebSocket.OPEN]. *)
Record Client : Type := {
  clientId : nat;
  isOpen : bool
}.

(** A value that may be [undefined] or [null]. *)
Inductive Fetched (A : Type) : Type :=
| Undefined
| Null
| Value (a : A).

Arguments Undefined {A}.
Arguments Null {A}.
Arguments Value {A} a.

(** The module variables of [app.js]. *)
Record State : Type := {
  currentStatus : string;
  isMonitoring : bool;
  latestCallStats : Scraper.CallStats;
  teamStatus : list Scraper.Agent;
  latestAgentStatuses : list Scraper.Agent;
  lastTeamStatusUpdate : option Z;
  latestDebugInfo : option string;
  manualStatusOverride : bool;
  manualStatusTimestamp : Z;
  clients : list Client
}.

Definition MANUAL_OVERRIDE_TIMEOUT : Z := 15 * 60 * 1000.

(** The state at process start, for a given set of connections. *)
Definition initialState (cs : list Client) : State :=
  {| currentStatus := "offline";
     isMonitoring := true;
     latestCallStats := Scraper.zeroStats None "initial" None;
     teamStatus := [];
     latestAgentStatuses := [];
     lastTeamStatusUpdate := None;
     latestDebugInfo := None;
     manualStatusOverride := false;
     manualStatusTimestamp := 0;
     clients := cs |}.

Definition setCurrentStatus (v : string) (s : State) : State :=
  {| currentStatus := v; isMonitoring := isMonitoring s;
     latestCallStats := latestCallStats s; teamStatus := teamStatus s;
     latestAgentStatuses := latestAgentStatuses s;
     lastTeamStatusUpdate := lastTeamStatusUpdate s;
     latestDebugInfo := latestDebugInfo s;
     manualStatusOverride := manualStatusOverride s;
     manualStatusTimestamp := manualStatusTimestamp s; clients := clients s |}.

Definition setIsMonitoring (v : bool) (s : State) : State :=
  {| currentStatus := currentStatus s; isMonitoring := v;
     latestCallStats := latestCallStats s; teamStatus := teamStatus s;
     latestAgentStatuses := latestAgentStatuses s;
     lastTeamStatusUpdate := lastTeamStatusUpdate s;
     latestDebugInfo := latestDebugInfo s;
     manualStatusOverride := manualStatusOverride s;
     manualStatusTimestamp := manualStatusTimestamp s; clients := clients s |}.

Definition setLatestCallStats (v : Scraper.CallStats) (s : State) : State :=
  {| currentStatus := currentStatus s; isMonitoring := isMonitoring s;
     latestCallStats := v; teamStatus := teamStatus s;
     latestAgentStatuses := latestAgentStatuses s;
     lastTeamStatusUpdate := lastTeamStatusUpdate s;
     latestDebugInfo := latestDebugInfo s;
     manualStatusOverride := manualStatusOverride s;
     manualStatusTimestamp := manualStatusTimestamp s; clients := clients s |}.

Definition setRoster (v : list Scraper.Agent) (updated : Z) (s : State)
  : State :=
  {| currentStatus := currentStatus s; isMonitoring := isMonitoring s;
     latestCallStats := latestCallStats s; teamStatus := v;
     latestAgentStatuses := v;
     lastTeamStatusUpdate := Some updated;
     latestDebugInfo := latestDebugInfo s;
     manualStatusOverride := manualStatusOverride s;
     manualStatusTimestamp := manualStatusTimestamp s; clients := clients s |}.

Definition setLatestDebugInfo (v : string) (s : State) : State :=
  {| currentStatus := currentStatus s; isMonitoring := isMonitoring s;
     latestCallStats := latestCallStats s; teamStatus := teamStatus s;
     latestAgentStatuses := latestAgentStatuses s;
     lastTeamStatusUpdate := lastTeamStatusUpdate s;
     latestDebugInfo := Some v;
     manualStatusOverride := manualStatusOverride s;
     manualStatusTimestamp := manualStatusTimestamp s; clients := clients s |}.

(** ** Messages and effects *)

Inductive Message : Type :=
| StatusUpdate (status : string) (monitoring : bool)
    (callStats : Scraper.CallStats)
    (agentStatuses teamStatus : list Scraper.Agent)
| CallStatsMessage (callStats : Scraper.CallStats)
| TeamStatusMessage (teamStatus : list Scraper.Agent) (lastUpdated : option Z)
| DebugMessage (debugInfo : string)
| WledMessage (success : bool) (error : option string).

Inductive Effect : Type :=
| Send (client : nat) (m : Message)       (* [client.send(message)] *)
| Post (request : Wled.Request).          (* [axios.post(url, payload)] *)

(** [clients.forEach]: the message goes to every open connection. *)
Definition broadcast (m : Message) (s : State) : list Effect :=
  map (fun c => Send (clientId c) m) (List.filter isOpen (clients s)).

Definition recolor (a : Scraper.Agent) : Scraper.Agent :=
  {| Scraper.id := Scraper.id a; Scraper.extension := Scraper.extension a;
     Scraper.name := Scraper.name a; Scraper.status := Scraper.status a;
     Scraper.queues := Scraper.queues a;
     Scraper.color := getColorForStatus (Scraper.status a) |}.

Definition statusSnapshot (s : State) : Message :=
  StatusUpdate (currentStatus s) (isMonitoring s) (latestCallStats s)
    (latestAgentStatuses s) (map recolor (teamStatus s)).

Definition broadcastStatus (s : State) : list Effect :=
  broadcast (statusSnapshot s) s.

Definition broadcastCallStats (c : Scraper.CallStats) (s : State)
  : State * list Effect :=
  let s' := setLatestCallStats c s in
  (s', broadcast (CallStatsMessage c) s').

Definition broadcastDebugInfo (d : string) (s : State) : State * list Effect :=
  let s' := setLatestDebugInfo d s in
  (s', broadcast (DebugMessage d) s').

Definition broadcastWLEDStatus (success : bool) (err : option string)
    (s : State) : list Effect :=
  broadcast (WledMessage success err) s.

Definition broadcastTeamStatus (s : State) : list Effect :=
  match clients s with
  | [] => []
  | _ :: _ =>
      match teamStatus s with
      | [] => []
      | _ :: _ =>
          broadcast
            (TeamStatusMessage (teamStatus s) (lastTeamStatusUpdate s)) s
      end
  end.

(** ** LED update *)

(** The LED controller's configuration and what the device answers, and
    the time of the call. *)
Record World : Type := {
  wled : Wled.Config;
  device : Wled.HttpOutcome;
  time : Z
}.

(** The value [config.wled.statusColors[status]] as an argument of
    [updateWLED]; [None] when it is [undefined]. *)
Definition colorArgument (r : PropRead (Z * Z * Z)) : option Wled.Color :=
  match r with
  | Own (r, g, b) =>
      Some (Wled.ColorObject (Wled.CNumber r) (Wled.CNumber g) (Wled.CNumber b))
  | InheritedProto =>
      Some (Wled.ColorObject Wled.CUndefined Wled.CUndefined Wled.CUndefined)
  | InheritedFunction f => Some (Wled.ColorFunction f)
  | Missing => None
  end.

(** The outcome of [updateWLEDWithStatus(status)]: how its promise
    settles ([None] for [undefined]), the requests issued during the call
    and the broadcasts made once the device has answered. *)
Record LedUpdate : Type := {
  settled : Promise (option bool);
  issued : list Effect;
  afterwards : list Effect
}.

Definition updateWLEDWithStatus (w : World) (s : State) (st : string)
  : LedUpdate :=
  match colorArgument (get statusColors st) with
  | None => {| settled := Resolved None; issued := []; afterwards := [] |}
  | Some color =>
      let '(promise, requests) := Wled.updateWLED (wled w) color (device w) in
      match promise with
      | Resolved success =>
          {| settled := Resolved (Some success);
             issued := map Post requests;
             afterwards := broadcastWLEDStatus success None s |}
      | Rejected message =>
          {| settled := Rejected message;
             issued := map Post requests;
             afterwards := broadcastWLEDStatus false (Some message) s |}
      end
  end.

(** ** Scraper results *)

Record StatusResult : Type := {
  status : string;
  source : string
}.

(** The [result] argument of [handleStatusChange]. *)
Record Result : Type := {
  statusResult : option StatusResult;
  callStatsResult : option Scraper.CallStats;
  agentStatusesResult : Fetched (list Scraper.Agent);
  debugInfo : option string
}.

(** The destructuring of [result || {}]. *)
Definition emptyResult : Result :=
  {| statusResult := None; callStatsResult := None;
     agentStatusesResult := Undefined; debugInfo := None |}.

(** The three steps of [handleStatusChange] that do not depend on the
    monitoring flag. *)
Definition recordDebugInfo (r : Result) (s : State) : State * list Effect :=
  match debugInfo r with
  | Some d => broadcastDebugInfo d s
  | None => (s, [])
  end.

Definition recordCallStats (r : Result) (s : State) : State * list Effect :=
  match callStatsResult r with
  | Some c => broadcastCallStats c s
  | None => (s, [])
  end.

Definition recordAgentStatuses (w : World) (r : Result) (s : State)
  : State * list Effect :=
  match agentStatusesResult r with
  | Value agents =>
      let s' := setRoster agents (time w) s in
      (s', broadcastTeamStatus s')
  | Null => (s, [])
  | Undefined => (s, [])
  end.

(** [handleStatusChange(error, result)]: the new state and the effects in
    the order they happen. *)
Definition handleStatusChange (w : World) (error : option string)
    (result : option Result) (s : State) : State * list Effect :=
  match error with
  | Some _ => (s, [])
  | None =>
      let r := match result with Some r => r | None => emptyResult end in
      let '(s1, e1) := recordDebugInfo r s in
      let '(s2, e2) := recordCallStats r s1 in
      let '(s3, e3) := recordAgentStatuses w r s2 in
      match statusResult r with
      | Some detected =>
          if (isMonitoring s3
              && negb (String.eqb (status detected) (currentStatus s3)))%bool
          then
            let s4 := setCurrentStatus (status detected) s3 in
            let led := updateWLEDWithStatus w s4 (status detected) in
            (s4, e1 ++ e2 ++ e3 ++ broadcastStatus s4
                 ++ issued led ++ afterwards led)
          else (s3, e1 ++ e2 ++ e3)
      | None => (s3, e1 ++ e2 ++ e3)
      end
  end.

(** ** Manual submissions *)

(** The body of a status-set command: [status] and [monitoring], each of
    which may be absent. *)
Record StatusRequest : Type := {
  reqStatus : option string;
  reqMonitoring : option bool
}.

Definition submitted (r : StatusRequest) : option string :=
  match reqStatus r with
  | Some st => if truthy st then Some st else None
  | None => None
  end.

(** [app.post('/api/status')]. *)
Definition postStatus (w : World) (r : StatusRequest) (s : State)
  : State * list Effect :=
  let '(s1, e1, later) :=
    match submitted r with
    | Some st =>
        let s' := setCurrentStatus st s in
        let led := updateWLEDWithStatus w s' st in
        (s', broadcastStatus s' ++ issued led, afterwards led)
    | None => (s, [], [])
    end in
  let '(s2, e2) :=
    match reqMonitoring r with
    | Some m =>
        let s' := setIsMonitoring m s1 in
        (s', broadcastStatus s')
    | None => (s1, [])
    end in
  (s2, e1 ++ e2 ++ later).

(** The ['status'] message of a dashboard connection. *)
Definition wsStatus (w : World) (r : StatusRequest) (s : State)
  : State * list Effect :=
  let s1 := from_option (fun st => setCurrentStatus st s) s (submitted r) in
  let s2 := from_option (fun m => setIsMonitoring m s1) s1 (reqMonitoring r) in
  match submitted r with
  | Some st =>
      let led := updateWLEDWithStatus w s2 st in
      (s2, broadcastStatus s2 ++ issued led ++ afterwards led)
  | None => (s2, broadcastStatus s2)
  end.

(** The ['clearManualOverride'] message: the only write to
    [manualStatusOverride]. *)
Definition clearManualOverride (s : State) : State :=
  {| currentStatus := currentStatus s; isMonitoring := isMonitoring s;
     latestCallStats := latestCallStats s; teamStatus := teamStatus s;
     latestAgentStatuses := latestAgentStatuses s;
     lastTeamStatusUpdate := lastTeamStatusUpdate s;
     latestDebugInfo := latestDebugInfo s;
     manualStatusOverride := false;
     manualStatusTimestamp := manualStatusTimestamp s; clients := clients s |}.

(** [manualOverrideRemaining] of [sendDebugInfo], in seconds:
    [Math.max(0, Math.round((MANUAL_OVERRIDE_TIMEOUT - (Date.now() -
    manualStatusTimestamp)) / 1000))] while the override is active, [0]
    otherwise. *)
Definition manualOverrideRemaining (nowMs : Z) (s : State) : Z :=
  if manualStatusOverride s then
    Z.max 0
      ((MANUAL_OVERRIDE_TIMEOUT - (nowMs - manualStatusTimestamp s) + 500)
       / 1000)
  else 0.

(** The LED commands and the status snapshots among some effects. *)
Definition isPost (e : Effect) : bool :=
  match e with
  | Post _ => true
  | Send _ _ => false
  end.

Definition isStatusUpdate (e : Effect) : bool :=
  match e with
  | Send _ (StatusUpdate _ _ _ _ _) => true
  | _ => false
  end.

End App.

(* ===================================================================== *)
(** * LED device adapter: the other operations ([wled-controller.js]) *)
(* ===================================================================== *)

Module WledOps.
Import JS Wled.

(** The bodies of the partial updates. *)
Inductive Body : Type :=
| BodyOff                           (* [{ on: false }] *)
| BodyBrightness (bri : Z)          (* [{ bri }] *)
| BodyTransition (seconds : Q)      (* [{ transition }] *)
| BodyEffect (fx : Z).              (* [{ seg: [{ fx }] }] *)

Record Call : Type := {
  callUrl : string;
  callBody : Body
}.

(** How an operation settles, the requests it sent and the local
    configuration it leaves. *)
Record Outcome : Type := {
  result : Promise bool;
  sent : list Call;
  after : Config
}.

Definition jsonUrl (ip : string) : string := "http://" +:+ ip +:+ "/json".

Definition withBrightness (v : Z) (cfg : Config) : Config :=
  {| ipAddress := ipAddress cfg; brightness := v;
     transition := transition cfg |}.

Definition withTransition (v : Z) (cfg : Config) : Config :=
  {| ipAddress := ipAddress cfg; brightness := brightness cfg;
     transition := v |}.

(** [await axios.post(url, payload)] followed by the statements that run
    only when it went through. *)
Definition posted (net : HttpOutcome) : Completion bool :=
  match net with
  | HttpOk => Normal true
  | HttpError message => Throw message
  end.

(** [turnOffWLED()]. *)
Definition turnOffWLED (cfg : Config) (net : HttpOutcome) : Outcome :=
  match configured cfg with
  | None =>
      {| result := tryCatch (Throw "WLED IP address is not configured")
                     (fun _ => false);
         sent := []; after := cfg |}
  | Some ip =>
      {| result := tryCatch (posted net) (fun _ => false);
         sent := [ {| callUrl := jsonUrl ip; callBody := BodyOff |} ];
         after := cfg |}
  end.

(** [setWLEDBrightness(brightness)]: the local configuration is updated
    after the POST, so only when it went through. *)
Definition setWLEDBrightness (cfg : Config) (brightnessArg : Z)
    (net : HttpOutcome) : Outcome :=
  match configured cfg with
  | None =>
      {| result := tryCatch (Throw "WLED IP address is not configured")
                     (fun _ => false);
         sent := []; after := cfg |}
  | Some ip =>
      let validBrightness := Z.max 0 (Z.min 255 brightnessArg) in
      {| result := tryCatch (posted net) (fun _ => false);
         sent := [ {| callUrl := jsonUrl ip;
                      callBody := BodyBrightness validBrightness |} ];
         after := match net with
                  | HttpOk => withBrightness validBrightness cfg
                  | HttpError _ => cfg
                  end |}
  end.

(** [setWLEDTransition(transitionMs)]. *)
Definition setWLEDTransition (cfg : Config) (transitionMs : Z)
    (net : HttpOutcome) : Outcome :=
  match configured cfg with
  | None =>
      {| result := tryCatch (Throw "WLED IP address is not configured")
                     (fun _ => false);
         sent := []; after := cfg |}
  | Some ip =>
      let validTransition := Z.max 0 (Z.min 65535 transitionMs) in
      {| result := tryCatch (posted net) (fun _ => false);
         sent := [ {| callUrl := jsonUrl ip;
                      callBody :=
                        BodyTransition
                          (Qdiv (inject_Z validTransition) (inject_Z 1000)) |} ];
         after := match net with
                  | HttpOk => withTransition validTransition cfg
                  | HttpError _ => cfg
                  end |}
  end.

(** [setWLEDEffect(effectId)]. *)
Definition setWLEDEffect (cfg : Config) (effectId : Z) (net : HttpOutcome)
  : Outcome :=
  match configured cfg with
  | None =>
      {| result := tryCatch (Throw "WLED IP address is not configured")
                     (fun _ => false);
         sent := []; after := cfg |}
  | Some ip =>
      {| result := tryCatch (posted net) (fun _ => false);
         sent := [ {| callUrl := jsonUrl ip; callBody := BodyEffect effectId |} ];
         after := cfg |}
  end.

(** What the device reports to a GET. *)
Record DeviceState : Type := {
  deviceOn : bool;
  deviceBri : Z;
  deviceCol : list Z
}.

Inductive GetOutcome : Type :=
| GetOk (data : DeviceState)
| GetError (message : string).

(** [getWLEDStatus()]: the device state or [null], and the addresses
    asked. *)
Definition getWLEDStatus (cfg : Config) (net : GetOutcome)
  : option DeviceState * list string :=
  match configured cfg with
  | None => (None, [])
  | Some ip =>
      match net with
      | GetOk data => (Some data, [jsonUrl ip])
      | GetError _ => (None, [jsonUrl ip])
      end
  end.

End WledOps.

(* ===================================================================== *)
(** * The first integration script (WebSocket feed, [index.js]) *)
(* ===================================================================== *)

Module Legacy.
Import JS.

(** The [switch] of [handleStatusChange]: the colour shown for a status of
    the phone system. *)
Definition colorFor (st : string) : Z * Z * Z :=
  if String.eqb st "available" then (0, 255, 0)
  else if String.eqb st "ringing" then (255, 255, 0)
  else if (String.eqb st "busy" || String.eqb st "on-call")%bool
  then (255, 0, 0)
  else if String.eqb st "dnd" then (128, 0, 128)
  else if String.eqb st "away" then (255, 165, 0)
  else if String.eqb st "offline" then (0, 0, 255)
  else (0, 255, 0).

(** [updateWLED(color)]: the request made; every error is caught and
    logged, and nothing is returned. *)
Definition updateWLED (cfg : Wled.Config) (c : Z * Z * Z)
  : list Wled.Request :=
  match Wled.configured cfg with
  | None => []
  | Some ip =>
      let '(r, g, b) := c in
      [ {| Wled.url := "http://" +:+ ip +:+ "/json";
           Wled.body := Wled.solidColor cfg r g b |} ]
  end.

(** [handleStatusChange(status)] on the module variable [lastStatus]. *)
Definition handleStatusChange (cfg : Wled.Config) (st : string)
    (lastStatus : option string) : option string * list Wled.Request :=
  match lastStatus with
  | Some previous =>
      if String.eqb st previous then (lastStatus, [])
      else (Some st, updateWLED cfg (colorFor st))
  | None => (Some st, updateWLED cfg (colorFor st))
  end.

(** A feed of status messages, handled one after the other. *)
Fixpoint handleAll (cfg : Wled.Config) (feed : list string)
    (lastStatus : option string) : option string * list Wled.Request :=
  match feed with
  | [] => (lastStatus, [])
  | st :: rest =>
      let '(last1, sent1) := handleStatusChange cfg st lastStatus in
      let '(last2, sent2) := handleAll cfg rest last1 in
      (last2, sent1 ++ sent2)
  end.

End Legacy.

(* ===================================================================== *)
(** * Presence scraper: status scan, navigation, collection cycle *)
(* ===================================================================== *)

Module Client.
Import JS Normalizer Scraper.

(** ** The status scan of [getStatus] *)

(** An element as the scan reads it. *)
Record Element : Type := {
  textContent : string;
  classList : list string;
  attributes : list (string * string)
}.

(** A word between double quotes. *)
Definition quoted (word : string) : string :=
  String (ascii_of_nat 34) (word +:+ String (ascii_of_nat 34) EmptyString).

Definition statusSelectors : list string :=
  [ ".status-indicator"; ".user-status"; ".status-icon"; "[data-status]";
    ".presence-status"; ".agent-status"; ".user-presence"; ".status-display";
    ".status"; ".presence"; ".availability"; ".user-availability";
    ".status-available"; ".status-away"; ".status-busy"; ".status-offline";
    ".status-dnd";
    "[class*=" +:+ quoted "status" +:+ "]";
    "[class*=" +:+ quoted "presence" +:+ "]";
    "[id*=" +:+ quoted "status" +:+ "]";
    "[id*=" +:+ quoted "presence" +:+ "]";
    "[data-presence]"; "[data-availability]"; "[data-user-status]" ].

Definition dataAttributes : list string :=
  [ "data-status"; "data-presence"; "data-availability"; "data-user-status" ].

(** What the scan returns, without its debugging fields. *)
Record Scan : Type := {
  scanStatus : Normalized;
  scanSource : string
}.

(** [if (normalizedStatus)]. *)
Definition found (n : Normalized) : bool :=
  match n with
  | NNull => false
  | NStatus v => truthy v
  | NPrototypeObject => true
  | NFunction _ => true
  end.

Fixpoint scanClasses (selector : string) (classes : list string)
  : option Scan :=
  match classes with
  | [] => None
  | className :: rest =>
      let normalizedStatus := normalizeStatus className in
      if found normalizedStatus
      then Some {| scanStatus := normalizedStatus;
                   scanSource := "indicator-class:" +:+ selector |}
      else scanClasses selector rest
  end.

Fixpoint scanAttributes (element : Element) (names : list string)
  : option Scan :=
  match names with
  | [] => None
  | attr :: rest =>
      let continue := scanAttributes element rest in
      match assoc attr (attributes element) with
      | Some attrValue =>
          if truthy attrValue then
            let normalizedStatus := normalizeStatus attrValue in
            if found normalizedStatus
            then Some {| scanStatus := normalizedStatus;
                         scanSource := "indicator-attr:" +:+ attr |}
            else continue
          else continue
      | None => continue
      end
  end.

Definition scanText (selector : string) (element : Element) : option Scan :=
  let text := trim (textContent element) in
  if truthy text then
    let normalizedStatus := normalizeStatus text in
    if found normalizedStatus
    then Some {| scanStatus := normalizedStatus;
                 scanSource := "indicator-text:" +:+ selector |}
    else None
  else None.

(** The body of the loop over the elements of one selector: classes, then
    data attributes, then text. *)
Definition scanElement (selector : string) (element : Element)
  : option Scan :=
  match scanClasses selector (classList element) with
  | Some s => Some s
  | None =>
      match scanAttributes element dataAttributes with
      | Some s => Some s
      | None => scanText selector element
      end
  end.

Fixpoint scanElements (selector : string) (elements : list Element)
  : option Scan :=
  match elements with
  | [] => None
  | element :: rest =>
      match scanElement selector element with
      | Some s => Some s
      | None => scanElements selector rest
      end
  end.

Fixpoint scanSelectors (querySelectorAll : string -> list Element)
    (selectors : list string) : option Scan :=
  match selectors with
  | [] => None
  | selector :: rest =>
      match scanElements selector (querySelectorAll selector) with
      | Some s => Some s
      | None => scanSelectors querySelectorAll rest
      end
  end.

(** The function [getStatus] evaluates in the page, on a document given by
    what [querySelectorAll] answers. *)
Definition scanPage (querySelectorAll : string -> list Element) : Scan :=
  match scanSelectors querySelectorAll statusSelectors with
  | Some s => s
  | None => {| scanStatus := NNull; scanSource := "none" |}
  end.

(** The strings of an element the scan looks at: its classes, its four
    data attributes and its trimmed text. *)
Definition carries (element : Element) (candidate : string) : Prop :=
  In candidate (classList element)
  \/ (exists attr, In attr dataAttributes
                   /\ assoc attr (attributes element) = Some candidate)
  \/ candidate = trim (textContent element).

(** ** Navigation to the switchboard *)

Inductive NavTarget : Type :=
| AngularComponent
| StandardLink
| MenuItem.

(** What the page shows to [navigateToSwitchboard]; [evaluateRejects] of
    the page stands for an evaluation that fails on the side of the
    session. *)
Record NavPage : Type := {
  alreadyOnSwitchboard : bool;      (* [queue-stat] shows up, or the
                                       address or title matches *)
  navTarget : option NavTarget;     (* the first candidate to click *)
  pageLogger : bool;                (* [logger.info] can be called in the
                                       page *)
  verifyRejects : bool              (* the check after the click rejects *)
}.

Record Navigation : Type := {
  navigated : bool;                 (* the value returned *)
  clicked : option NavTarget;
  shots : ScreenshotState
}.

(** [navigateToSwitchboard()].  In each of the three searches the page
    function calls [logger.info] before [click()]; where the page has no
    such [logger] the call throws, the evaluation rejects and the [catch]
    returns [false]. *)
Definition navigateToSwitchboard (cfg : ScreenshotConfig) (s : Session)
    (nav : NavPage) (st : ScreenshotState) : Navigation :=
  match pageAvailable s with
  | None => {| navigated := false; clicked := None; shots := st |}
  | Some p =>
      let st1 := snd (takeScreenshot cfg s st "pre-navigation" false) in
      if evaluateRejects p
      then {| navigated := false; clicked := None; shots := st1 |}
      else if alreadyOnSwitchboard nav
      then {| navigated := true; clicked := None; shots := st1 |}
      else
        match navTarget nav with
        | None => {| navigated := true; clicked := None; shots := st1 |}
        | Some target =>
            if pageLogger nav then
              let st2 :=
                snd (takeScreenshot cfg s st1 "post-click-navigation" true) in
              {| navigated := negb (verifyRejects nav);
                 clicked := Some target; shots := st2 |}
            else {| navigated := false; clicked := None; shots := st1 |}
        end
  end.

(** ** Screenshot requests in sequence *)

(** Requests made one after the other, each at its own moment. *)
Fixpoint takeAll (cfg : ScreenshotConfig)
    (requests : list (Session * string * bool)) (st : ScreenshotState)
  : list (option string) * ScreenshotState :=
  match requests with
  | [] => ([], st)
  | (s, pre, force) :: rest =>
      let '(path, st1) := takeScreenshot cfg s st pre force in
      let '(paths, st2) := takeAll cfg rest st1 in
      (path :: paths, st2)
  end.

Definition taken (paths : list (option string)) : nat :=
  length (List.filter (fun p => match p with Some _ => true | None => false end)
            paths).

(** ** Roster entries *)

Definition allDigits (s : string) : bool :=
  forallb is_digit (list_ascii_of_string s).

(** The statuses a roster entry can carry. *)
Definition rosterStatuses : list string :=
  [ "available"; "away"; "dnd"; "lunch"; "business-trip"; "onCall";
    "ringing"; "offline" ].

(** ** Calls that follow each other closely *)

(** Each call comes less than 500 ms after the one before. *)
Fixpoint closelySpaced (previous : Z) (times : list Z) : Prop :=
  match times with
  | [] => True
  | t :: rest => previous <= t < previous + 500 /\ closelySpaced t rest
  end.

(** ** The login wait *)

(** [Date.now() - startTime] at the test before poll [i], when none of the
    earlier polls detected the login. *)
Fixpoint elapsedBefore (latency : nat -> nat) (i : nat) : Z :=
  match i with
  | O => 0
  | S j => elapsedBefore latency j + Z.of_nat (latency j) + 5000
  end.

(** ** The collection cycle *)

#[global] Instance CallStats_eq_dec : EqDecision CallStats.
Proof. solve_decision. Defined.

#[global] Instance Agent_eq_dec : EqDecision Agent.
Proof. solve_decision. Defined.

Section Cycle.

(** What [getStatus] resolves to. *)
Context {Reading : Type} `{EqDecision Reading}.

(** [statusData]. *)
Record StatusData : Type := {
  reading : Reading;
  stats : option CallStats;
  agents : option (list Agent)
}.

#[global] Instance StatusData_eq_dec : EqDecision StatusData.
Proof. solve_decision. Defined.

(** The module variables the cycle reads and writes. *)
Record CycleState : Type := {
  lastStatusData : option StatusData;
  observerActive : bool
}.

(** [JSON.stringify(statusData) !== JSON.stringify(lastStatusData)], or no
    previous snapshot: two snapshots serialize alike exactly when they are
    equal. *)
Definition hasChanged (data : StatusData) (st : CycleState) : bool :=
  match lastStatusData st with
  | None => true
  | Some previous => negb (bool_decide (data = previous))
  end.

(** The timeout callback of [collectAndSendStatusData(source)] once the
    three queries have produced [data]: the new module variables and the
    snapshot handed to the callback, if any.  [observerReady] tells whether
    setting up the mutation observer goes through. *)
Definition collectCycle (src : Source) (data : StatusData)
    (observerReady : bool) (st : CycleState)
  : CycleState * option StatusData :=
  let forward :=
    (hasChanged data st
     || match src with SInterval => true | _ => false end)%bool in
  let observer :=
    if observerActive st then true else observerReady in
  if forward
  then ({| lastStatusData := Some data; observerActive := observer |},
        Some data)
  else ({| lastStatusData := lastStatusData st; observerActive := observer |},
        None).

End Cycle.

(** ** The refresh interval *)

(** The module variable [refreshIntervalId], the intervals that are
    actually running, and the next handle [setInterval] will return. *)
Record Intervals : Type := {
  refreshIntervalId : option nat;
  running : list nat;
  nextHandle : nat
}.

Definition noIntervals : Intervals :=
  {| refreshIntervalId := None; running := []; nextHandle := 0 |}.

(** [if (refreshIntervalId) { clearInterval(refreshIntervalId);
    refreshIntervalId = null; }], as in [startRefreshInterval],
    [stopMonitoring] and [close]. *)
Definition clearRefreshInterval (m : Intervals) : Intervals :=
  match refreshIntervalId m with
  | Some handle =>
      {| refreshIntervalId := None;
         running := List.filter (fun h => negb (Nat.eqb h handle)) (running m);
         nextHandle := nextHandle m |}
  | None => m
  end.

(** [startRefreshInterval()], also reached through [startMonitoring],
    [initialize] and [resetAuthentication]. *)
Definition startRefreshInterval (m : Intervals) : Intervals :=
  let m1 := clearRefreshInterval m in
  {| refreshIntervalId := Some (nextHandle m1);
     running := nextHandle m1 :: running m1;
     nextHandle := S (nextHandle m1) |}.

Inductive MonitorCall : Type :=
| StartMonitoring
| StopMonitoring
| Close.

Definition monitorCall (c : MonitorCall) (m : Intervals) : Intervals :=
  match c with
  | StartMonitoring => startRefreshInterval m
  | StopMonitoring => clearRefreshInterval m
  | Close => clearRefreshInterval m
  end.

Definition monitorCalls (cs : list MonitorCall) (m : Intervals) : Intervals :=
  fold_left (fun acc c => monitorCall c acc) cs m.

End Client.

(* ===================================================================== *)
(** * Reconciliation core: the other handlers of [app.js] *)
(* ===================================================================== *)

Module Core.
Import JS App.

(** ** Connection liveness *)

(** The fields the ping interval of a connection works on. *)
Record Heartbeat : Type := {
  isAlive : bool;
  terminated : bool;
  pingsSent : nat
}.

(** A connection as the ['connection'] handler sets it up. *)
Definition connected : Heartbeat :=
  {| isAlive := true; terminated := false; pingsSent := 0 |}.

Inductive Beat : Type :=
| Tick (sendOk : bool)              (* the 30 s interval fires *)
| Pong.                             (* a ['pong'] message arrives *)

(** One event on a connection; a terminated connection has its interval
    cleared and receives nothing. *)
Definition beat (b : Beat) (h : Heartbeat) : Heartbeat :=
  if terminated h then h
  else
    match b with
    | Pong =>
        {| isAlive := true; terminated := false; pingsSent := pingsSent h |}
    | Tick sendOk =>
        if isAlive h then
          if sendOk
          then {| isAlive := false; terminated := false;
                  pingsSent := S (pingsSent h) |}
          else {| isAlive := false; terminated := true;
                  pingsSent := pingsSent h |}
        else {| isAlive := false; terminated := true;
                pingsSent := pingsSent h |}
    end.

Definition beats (bs : list Beat) (h : Heartbeat) : Heartbeat :=
  fold_left (fun acc b => beat b acc) bs h.

(** ** Manual call statistics *)

(** The fields a manual update may carry; the spread keeps every field the
    update does not mention. *)
Record CallStatsUpdate : Type := {
  newWaitingCalls : option Z;
  newActiveCalls : option Z;
  newTotalCalls : option Z;
  newServicedCalls : option Z;
  newAbandonedCalls : option Z
}.

(** [{ ...latestCallStats, ...newCallStats, lastUpdated, source: 'manual' }]. *)
Definition overlay (stamp : string) (u : CallStatsUpdate)
    (c : Scraper.CallStats) : Scraper.CallStats :=
  {| Scraper.waitingCalls :=
       from_option id (Scraper.waitingCalls c) (newWaitingCalls u);
     Scraper.activeCalls :=
       from_option id (Scraper.activeCalls c) (newActiveCalls u);
     Scraper.totalCalls :=
       from_option id (Scraper.totalCalls c) (newTotalCalls u);
     Scraper.servicedCalls :=
       from_option id (Scraper.servicedCalls c) (newServicedCalls u);
     Scraper.abandonedCalls :=
       from_option id (Scraper.abandonedCalls c) (newAbandonedCalls u);
     Scraper.longestWaiting := Scraper.longestWaiting c;
     Scraper.averageWaiting := Scraper.averageWaiting c;
     Scraper.averageTalking := Scraper.averageTalking c;
     Scraper.lastUpdated := Some stamp;
     Scraper.source := "manual";
     Scraper.error := Scraper.error c |}.

(** [app.post('/api/call-stats')] and the ['callStats'] message. *)
Definition postCallStats (stamp : string) (u : CallStatsUpdate) (s : State)
  : State * list Effect :=
  broadcastCallStats (overlay stamp u (latestCallStats s)) s.

(** ** Manual status of one team member *)

Definition withStatus (st : string) (a : Scraper.Agent) : Scraper.Agent :=
  {| Scraper.id := Scraper.id a; Scraper.extension := Scraper.extension a;
     Scraper.name := Scraper.name a; Scraper.status := st;
     Scraper.queues := Scraper.queues a;
     Scraper.color := getColorForStatus st |}.

(** [teamStatus.find((member) => member.id === id)] followed by the two
    assignments to the member found: the roster with that member changed,
    or [None] when no member has the id. *)
Fixpoint updateMember (memberId st : string) (team : list Scraper.Agent)
  : option (list Scraper.Agent) :=
  match team with
  | [] => None
  | member :: rest =>
      if String.eqb (Scraper.id member) memberId
      then Some (withStatus st member :: rest)
      else cons member <$> updateMember memberId st rest
  end.

Definition setTeam (team agentStatuses : list Scraper.Agent) (s : State)
  : State :=
  {| currentStatus := currentStatus s; isMonitoring := isMonitoring s;
     latestCallStats := latestCallStats s; teamStatus := team;
     latestAgentStatuses := agentStatuses;
     lastTeamStatusUpdate := lastTeamStatusUpdate s;
     latestDebugInfo := latestDebugInfo s;
     manualStatusOverride := manualStatusOverride s;
     manualStatusTimestamp := manualStatusTimestamp s; clients := clients s |}.

(** [app.post('/api/teamStatus/:id')]: whether the member was found (the
    answer is 404 otherwise), the new state and the broadcast.  The member
    object is changed in place; [handleStatusChange] stores one and the same
    array in [teamStatus] and in [latestAgentStatuses], so the change shows
    in both. *)
Definition postTeamStatus (memberId st : string) (s : State)
  : bool * State * list Effect :=
  match updateMember memberId st (teamStatus s) with
  | Some team =>
      let s' :=
        setTeam team
          (from_option id (latestAgentStatuses s)
             (updateMember memberId st (latestAgentStatuses s))) s in
      (true, s', broadcastTeamStatus s')
  | None => (false, s, [])
  end.

(** ** Commands in sequence

    The effects of a command are its broadcasts and its requests to the LED
    device; what is answered to the requester alone (the HTTP response, the
    confirmation of a cleared override) is not among them. *)

Inductive Command : Type :=
| ScraperUpdate (error : option string) (result : option Result)
| PostStatus (r : StatusRequest)
| WsStatus (r : StatusRequest)
| ClearManualOverride
| PostCallStats (stamp : string) (u : CallStatsUpdate)
| PostTeamStatus (memberId st : string).

Definition command (w : World) (c : Command) (s : State)
  : State * list Effect :=
  match c with
  | ScraperUpdate error result => handleStatusChange w error result s
  | PostStatus r => postStatus w r s
  | WsStatus r => wsStatus w r s
  | ClearManualOverride => (clearManualOverride s, [])
  | PostCallStats stamp u => postCallStats stamp u s
  | PostTeamStatus memberId st =>
      let '(_, s', effects) := postTeamStatus memberId st s in (s', effects)
  end.

(** The commands of a run, each with the world it meets. *)
Fixpoint commands (cs : list (World * Command)) (s : State)
  : State * list Effect :=
  match cs with
  | [] => (s, [])
  | (w, c) :: rest =>
      let '(s1, e1) := command w c s in
      let '(s2, e2) := commands rest s1 in
      (s2, e1 ++ e2)
  end.

(** A message addressed to an open connection of the state (requests to
    the LED device are not messages). *)
Definition toOpenConnection (s : State) (e : Effect) : Prop :=
  match e with
  | Send target _ =>
      exists c, In c (clients s) /\ clientId c = target /\ isOpen c = true
  | Post _ => True
  end.

(** A command that can change the status shown: a manual submission. *)
Definition isManualStatus (c : Command) : bool :=
  match c with
  | PostStatus _ => true
  | WsStatus _ => true
  | _ => false
  end.

End Core.


(* ===================================================================== *)
(** * Properties *)
(* ===================================================================== *)

Import JS.

(** ** Strings and property reads *)

Lemma prefix_refl (s : string) : String.prefix s s = true.
Proof.
  induction s as [|c s IH]; simpl; [reflexivity|].
  destruct (ascii_dec c c) as [_|Hne]; [exact IH | contradiction].
Qed.

Lemma includes_refl (s : string) : includes s s = true.
Proof.
  destruct s as [|c s]; [reflexivity|].
  change (includes (String c s) (String c s))
    with (String.prefix (String c s) (String c s) || includes s (String c s)).
  rewrite prefix_refl. reflexivity.
Qed.

Lemma assoc_Some_In {A : Type} (k : string) (own : list (string * A)) (a : A) :
  assoc k own = Some a -> In (k, a) own.
Proof.
  induction own as [|[k' a'] own IH]; simpl; [discriminate|].
  destruct (String.eqb k k') eqn:E.
  - apply String.eqb_eq in E. intros [= ->]. left. congruence.
  - intros H. right. exact (IH H).
Qed.

Lemma assoc_None_not_key {A : Type} (k : string) (own : list (string * A)) :
  assoc k own = None -> forall a, ~ In (k, a) own.
Proof.
  induction own as [|[k' a'] own IH]; simpl; intros H a; [tauto|].
  destruct (String.eqb k k') eqn:E; [discriminate|].
  intros [[= -> ->]|Hin].
  - rewrite String.eqb_refl in E. discriminate.
  - exact (IH H a Hin).
Qed.

(** A key that is neither an own property nor inherited reads [undefined]. *)
Lemma get_Missing {A : Type} (own : list (string * A)) (k : string) :
  assoc k own = None -> inherited k = false -> get own k = Missing.
Proof.
  intros Hown Hinh. unfold get. rewrite Hown.
  destruct (String.eqb k "__proto__") eqn:E.
  - apply String.eqb_eq in E. subst k. discriminate Hinh.
  - rewrite Hinh. reflexivity.
Qed.

(** ** Status normalizer *)

Import Normalizer.

Lemma partialMatch_none (lowerStatus : string)
    (entries : list (string * string)) :
  (forall key value,
      In (key, value) entries -> includes lowerStatus key = false) ->
  partialMatch lowerStatus entries = NNull.
Proof.
  induction entries as [|[key value] rest IH]; intros Hnone; simpl.
  - reflexivity.
  - rewrite (Hnone key value) by (left; reflexivity).
    apply IH. intros k v Hin. apply (Hnone k v). right. exact Hin.
Qed.

(** Every key of the table normalizes to the table's value for it. *)
Lemma normalizeStatus_keys :
  forallb (fun '(key, value) =>
             match normalizeStatus key with
             | NStatus v => String.eqb v value
             | _ => false
             end) statusMap = true.
Proof. vm_compute. reflexivity. Qed.

(** The direct lookup reaches the members of [Object.prototype]. *)
Lemma normalizeStatus_inherited_member :
  normalizeStatus "Constructor" = NFunction "constructor"
  /\ normalizeStatus "__proto__" = NPrototypeObject.
Proof. split; vm_compute; reflexivity. Qed.

(** C1, as stated, fails: ["ringing"] is in the specification's keyword
    table, but [normalizeStatus] does not return the status [ringing] for
    it (it returns [null]). *)
Lemma normalizeStatus_ringing_unmatched :
  In ("ringing", ringing) spec_keyword_table
  /\ normalizeStatus "ringing" = NNull
  /\ normalizeStatus "ringing" <> NStatus (status_name ringing).
Proof.
  split; [|split].
  - unfold spec_keyword_table. simpl. tauto.
  - vm_compute. reflexivity.
  - vm_compute. discriminate.
Qed.

(** C1 (amended): for the strings of the specification's keyword table that
    stand for available, dnd, away and offline, [normalizeStatus] returns
    that status; for "on call", "on the phone" and "talking" it returns the
    table's token ["on-call"]; "ringing" is not a key of [statusMap] and
    yields [null]; and a string in which no key of [statusMap] occurs, and
    which is not the name of a member of [Object.prototype], yields
    [null]. *)
Theorem normalizeStatus_keyword_table :
  (forall raw st,
      In (raw, st) spec_keyword_table -> st <> ringing -> st <> onCall ->
      normalizeStatus raw = NStatus (status_name st))
  /\ (forall raw,
      In (raw, onCall) spec_keyword_table ->
      normalizeStatus raw = NStatus "on-call")
  /\ normalizeStatus "ringing" = NNull
  /\ (forall raw,
      is_ascii raw = true ->
      (forall key value,
          In (key, value) statusMap ->
          includes (trim (toLowerCase raw)) key = false) ->
      inherited (trim (toLowerCase raw)) = false ->
      normalizeStatus raw = NNull).
Proof.
  split; [|split; [|split]].
  - intros raw st Hin Hr Hc. unfold spec_keyword_table in Hin. simpl in Hin.
    repeat (destruct Hin as [Heq|Hin];
            [injection Heq as <- <-;
             first [reflexivity | contradiction Hr; reflexivity
                   | contradiction Hc; reflexivity]|]).
    contradiction.
  - intros raw Hin. unfold spec_keyword_table in Hin. simpl in Hin.
    repeat (destruct Hin as [Heq|Hin];
            [first [discriminate Heq | injection Heq as <-; reflexivity]|]).
    contradiction.
  - vm_compute. reflexivity.
  - intros raw _ Hnone Hinh. unfold normalizeStatus.
    destruct (negb (truthy raw)); [reflexivity|].
    destruct (assoc (trim (toLowerCase raw)) statusMap) as [v|] eqn:Hown.
    + apply assoc_Some_In in Hown. apply Hnone in Hown.
      rewrite includes_refl in Hown. discriminate.
    + rewrite (get_Missing _ _ Hown Hinh). apply partialMatch_none. exact Hnone.
Qed.

(** The amended C1 at the class name ["status-indicator"]. *)
Lemma normalizeStatus_keyword_table_witness :
  normalizeStatus "status-indicator" = NNull.
Proof.
  destruct normalizeStatus_keyword_table as (_ & _ & _ & Hnull).
  apply Hnull.
  - vm_compute. reflexivity.
  - intros key value Hin. unfold statusMap in Hin. simpl in Hin.
    repeat (destruct Hin as [Heq|Hin];
            [injection Heq as <- <-; vm_compute; reflexivity|]).
    contradiction.
  - vm_compute. reflexivity.
Defined.

(** ** LED device adapter *)

Import Wled.

Lemma channel_in_range (n : Z) : 0 <= n <= 255 -> channel (CNumber n) = n.
Proof. intros H. unfold channel, orZero. simpl. lia. Qed.

Lemma channel_bounds (c : Component) : 0 <= channel c <= 255.
Proof. unfold channel. lia. Qed.

(** C6: [updateWLED] always resolves and never rejects; whenever the POST
    fails it resolves to [false]; and when it resolves to [true] exactly one
    request was sent, whose body has [on: true], the configured brightness,
    the configured transition divided by 1000, and one segment with
    [fx: 0], [sx: 128], [ix: 128] and the RGB triple as [col] (each channel
    is the given component when that is a number between 0 and 255). *)
Theorem updateWLED_never_throws (cfg : Config) (color : Color)
    (net : HttpOutcome) :
  (exists success, fst (updateWLED cfg color net) = Resolved success)
  /\ (forall message,
        net = HttpError message ->
        fst (updateWLED cfg color net) = Resolved false)
  /\ (fst (updateWLED cfg color net) = Resolved true ->
      exists ip r g b,
        ipAddress cfg = Some ip
        /\ color = ColorObject r g b
        /\ snd (updateWLED cfg color net) =
           [ {| url := "http://" +:+ ip +:+ "/json";
                body :=
                  {| on := true;
                     bri := brightness cfg;
                     transition_s :=
                       Qdiv (inject_Z (transition cfg)) (inject_Z 1000);
                     seg := [ {| col := [[channel r; channel g; channel b]];
                                 fx := 0; sx := 128; ix := 128 |} ] |} |} ]
        /\ (forall n, r = CNumber n -> 0 <= n <= 255 -> channel r = n)
        /\ (forall n, g = CNumber n -> 0 <= n <= 255 -> channel g = n)
        /\ (forall n, b = CNumber n -> 0 <= n <= 255 -> channel b = n)).
Proof.
  unfold updateWLED, updateWLED_try, configured.
  destruct (ipAddress cfg) as [ip|] eqn:Hip; simpl.
  2: { split; [eexists; reflexivity|]. split; [reflexivity|discriminate]. }
  destruct (truthy ip) eqn:Htruthy; simpl.
  2: { split; [eexists; reflexivity|]. split; [reflexivity|discriminate]. }
  destruct color as [r g b|f| |]; simpl;
    try (split; [eexists; reflexivity|]; split; [reflexivity|discriminate]).
  destruct net as [|m]; simpl.
  - split; [eexists; reflexivity|]. split; [discriminate|].
    intros _. exists ip, r, g, b.
    repeat split; try reflexivity;
      intros n -> Hn; apply channel_in_range; exact Hn.
  - split; [eexists; reflexivity|]. split; [reflexivity|discriminate].
Qed.

(** C6 at the colour for [dnd], once with an unreachable device and once
    with a device that answers. *)
Lemma updateWLED_never_throws_witness :
  let cfg := {| ipAddress := Some "192.168.111.50";
                brightness := 128; transition := 1000 |} in
  let purple := ColorObject (CNumber 128) (CNumber 0) (CNumber 128) in
  fst (updateWLED cfg purple (HttpError "ECONNREFUSED")) = Resolved false
  /\ exists ip r g b,
       ipAddress cfg = Some ip
       /\ purple = ColorObject r g b
       /\ snd (updateWLED cfg purple HttpOk) =
          [ {| url := "http://" +:+ ip +:+ "/json";
               body :=
                 {| on := true;
                    bri := 128;
                    transition_s := Qdiv (inject_Z 1000) (inject_Z 1000);
                    seg := [ {| col := [[channel r; channel g; channel b]];
                                fx := 0; sx := 128; ix := 128 |} ] |} |} ].
Proof.
  intros cfg purple. split.
  - destruct (updateWLED_never_throws cfg purple (HttpError "ECONNREFUSED"))
      as (_ & Hfail & _).
    apply (Hfail "ECONNREFUSED"). reflexivity.
  - destruct (updateWLED_never_throws cfg purple HttpOk) as (_ & _ & Hok).
    destruct (Hok eq_refl) as (ip & r & g & b & Hip & Hcolor & Hsent & _).
    exists ip, r, g, b. repeat split; assumption.
Defined.

(** ** Call statistics *)

Import Scraper.

Lemma scrapeQueueStat_total (d : Document) (found : CallStats) :
  scrapeQueueStat d = Some found ->
  totalCalls found
  = waitingCalls found + servicedCalls found + abandonedCalls found.
Proof.
  unfold scrapeQueueStat.
  destruct (queueStat d) as [q|]; [|discriminate].
  destruct (headerRow q) as [headers|]; [|discriminate].
  destruct (dataRow q) as [data|]; [|discriminate].
  match goal with |- context [if ?c then _ else _] => destruct c end;
    [|discriminate].
  intros [= <-]. simpl. lia.
Qed.

(** C7: whatever statistics [fetchCallStats] returns, their [totalCalls] is
    [waitingCalls + servicedCalls + abandonedCalls]; it does return
    statistics whenever the page can be evaluated, and they are the zeroed
    defaults when the page has no [queue-stat] table. *)
Theorem fetchCallStats_total (cfg : ScreenshotConfig) (s : Session)
    (st : ScreenshotState) :
  (forall stats,
      fst (fetchCallStats cfg s st) = Some stats ->
      totalCalls stats
      = waitingCalls stats + servicedCalls stats + abandonedCalls stats)
  /\ (forall p,
        pageAvailable s = Some p -> evaluateRejects p = false ->
        exists stats, fst (fetchCallStats cfg s st) = Some stats)
  /\ (forall p,
        pageAvailable s = Some p -> evaluateRejects p = false ->
        scrapeQueueStat (document p) = None ->
        fst (fetchCallStats cfg s st)
        = Some (zeroStats (Some (timestamp s)) "web" None)).
Proof.
  unfold fetchCallStats. split; [|split].
  - intros stats. destruct (pageAvailable s) as [p|]; simpl.
    + destruct (evaluateRejects p); simpl; [discriminate|].
      destruct (scrapeQueueStat (document p)) as [found|] eqn:Hfound; simpl.
      * intros [= <-]. simpl. exact (scrapeQueueStat_total _ _ Hfound).
      * intros [= <-]. reflexivity.
    + intros [= <-]. reflexivity.
  - intros p -> ->.
    destruct (scrapeQueueStat (document p)); eexists; reflexivity.
  - intros p -> -> ->. reflexivity.
Qed.

(** C7 on a table that carries its own "Total Calls" column: the column is
    ignored and the total is the sum 3 + 12 + 2. *)
Lemma fetchCallStats_total_witness :
  let table :=
    {| headerRow := Some [ "Waiting Calls"; "Serviced Calls";
                           "Abandoned Calls"; "Total Calls" ];
       dataRow := Some [ "3"; "12"; "2"; "99" ] |} in
  let p := {| isClosed := false; evaluateRejects := false;
              screenshotRejects := false;
              document := {| queueStat := Some table;
                             agentContainer := None |} |} in
  let s := {| browser := true; page := Some p; now := 0;
              timestamp := "2024-01-01T00:00:00.000Z"; mkdir := MkdirOk |} in
  exists stats,
    fst (fetchCallStats (defaultScreenshots false) s initialScreenshots)
    = Some stats
    /\ totalCalls stats = 17
    /\ totalCalls stats
       = waitingCalls stats + servicedCalls stats + abandonedCalls stats.
Proof.
  intros table p s.
  destruct (fetchCallStats_total (defaultScreenshots false) s
              initialScreenshots) as (Hsum & Hsome & _).
  destruct (Hsome p eq_refl eq_refl) as (stats & Hstats).
  exists stats. split; [exact Hstats|]. split; [|exact (Hsum stats Hstats)].
  vm_compute in Hstats. injection Hstats as <-. reflexivity.
Defined.

(** ** Agent roster *)

(** When [fetchAllAgentStatuses] returns [null]. *)
Lemma fetchAllAgentStatuses_null (cfg : ScreenshotConfig) (s : Session)
    (st : ScreenshotState) :
  fst (fetchAllAgentStatuses cfg s st) = None <->
  (pageAvailable s = None
   \/ exists p, pageAvailable s = Some p
                /\ (evaluateRejects p = true
                    \/ agentContainer (document p) = None)).
Proof.
  unfold fetchAllAgentStatuses, scrapeAgents.
  destruct (pageAvailable s) as [p|]; simpl.
  - destruct (evaluateRejects p) eqn:He; simpl.
    + split; [|reflexivity]. intros _. right. exists p. tauto.
    + destruct (agentContainer (document p)) as [items|] eqn:Hc; simpl.
      * split; [discriminate|].
        intros [Hn|(p' & [= <-] & [Hr|Ha])]; congruence.
      * split; [|reflexivity]. intros _. right. exists p.
        split; [reflexivity|]. right. exact Hc.
  - split; [|reflexivity]. intros _. left. reflexivity.
Qed.

(** C5, as stated, fails: here the roster container is on the page (with
    one agent item), the page evaluation rejects, and
    [fetchAllAgentStatuses] returns [null]. *)
Lemma fetchAllAgentStatuses_null_with_container :
  let item :=
    {| numberEl :=
         Some {| numberText := "534";
                 statusIndicator := Some "status-indicator available" |};
       nameEl := Some {| nameTitle := Some "Brett Healy"; nameText := "" |};
       queuesEl := None |} in
  let p := {| isClosed := false; evaluateRejects := true;
              screenshotRejects := false;
              document := {| queueStat := None;
                             agentContainer := Some [item] |} |} in
  let s := {| browser := true; page := Some p; now := 0;
              timestamp := "2024-01-01T00:00:00.000Z"; mkdir := MkdirOk |} in
  agentContainer (document p) <> None
  /\ fst (fetchAllAgentStatuses (defaultScreenshots false) s
            initialScreenshots) = None.
Proof. intros item p s. split; [discriminate | reflexivity]. Qed.

(** ** Screenshots *)

(** C9, as stated, fails: with the enable flag off, a forced request still
    takes the screenshot. *)
Lemma takeScreenshot_force_ignores_enable_flag :
  let p := {| isClosed := false; evaluateRejects := false;
              screenshotRejects := false;
              document := {| queueStat := None; agentContainer := None |} |} in
  let s := {| browser := true; page := Some p; now := 1000;
              timestamp := "2024-01-01T00:00:00.000Z"; mkdir := MkdirOk |} in
  enabled (defaultScreenshots false) = false
  /\ takeScreenshot (defaultScreenshots false) s initialScreenshots
       "login-check" true
     = (Some ("public/screenshots/login-check-screenshot-"
              +:+ "2024-01-01T00-00-00.000Z.png"),
        {| lastScreenshotTime := 1000; screenshotCount := 1 |}).
Proof. intros p s. split; reflexivity. Qed.

(** C9 (amended): a request without [force] is taken only if screenshots
    are enabled, the per-session count has not been reached and the
    minimum spacing has elapsed since the previous shot, and under these
    three conditions it is taken whenever the page can be captured; with
    the defaults the spacing is 60000 ms and the count 20; a request with
    [force] passes all three checks, the enable flag included. *)
Theorem takeScreenshot_caps (cfg : ScreenshotConfig) (s : Session)
    (st : ScreenshotState) (pre : string) :
  (forall path,
      fst (takeScreenshot cfg s st pre false) = Some path ->
      enabled cfg = true
      /\ screenshotCount st < maxPerSession cfg
      /\ minInterval cfg <= now s - lastScreenshotTime st)
  /\ (enabled cfg = true ->
      screenshotCount st < maxPerSession cfg ->
      minInterval cfg <= now s - lastScreenshotTime st ->
      canCapture s = true ->
      takeScreenshot cfg s st pre false
      = (Some (screenshotPath pre (fileStamp (timestamp s))),
         {| lastScreenshotTime := now s;
            screenshotCount := screenshotCount st + 1 |}))
  /\ (canCapture s = true ->
      takeScreenshot cfg s st pre true
      = (Some (screenshotPath pre (fileStamp (timestamp s))),
         {| lastScreenshotTime := now s;
            screenshotCount := screenshotCount st + 1 |}))
  /\ minInterval (defaultScreenshots (enabled cfg)) = 60000
  /\ maxPerSession (defaultScreenshots (enabled cfg)) = 20.
Proof.
  unfold takeScreenshot, canCapture.
  split; [|split; [|split; [|split; reflexivity]]].
  - intros path.
    destruct (enabled cfg); simpl; [|discriminate].
    destruct (maxPerSession cfg <=? screenshotCount st) eqn:Hcount; simpl;
      [discriminate|].
    destruct (now s - lastScreenshotTime st <? minInterval cfg) eqn:Hgap;
      simpl; [discriminate|].
    intros _. apply Z.leb_gt in Hcount. apply Z.ltb_ge in Hgap. tauto.
  - intros -> Hcount Hgap Hcap. simpl.
    apply Z.leb_gt in Hcount. rewrite Hcount. simpl.
    apply Z.ltb_ge in Hgap. rewrite Hgap. simpl.
    destruct (page s) as [p|]; [|discriminate].
    destruct (mkdir s); try discriminate;
      destruct (screenshotRejects p); try discriminate; reflexivity.
  - intros Hcap. rewrite !andb_false_r.
    destruct (page s) as [p|]; [|discriminate].
    destruct (mkdir s); try discriminate;
      destruct (screenshotRejects p); try discriminate; reflexivity.
Qed.

(** The amended C9 at a session whose previous shot is 60 s old, without
    and with [force]. *)
Lemma takeScreenshot_caps_witness :
  let p := {| isClosed := false; evaluateRejects := false;
              screenshotRejects := false;
              document := {| queueStat := None; agentContainer := None |} |} in
  let s := {| browser := true; page := Some p; now := 90000;
              timestamp := "2024-01-01T00:01:30.000Z";
              mkdir := MkdirExists |} in
  let st := {| lastScreenshotTime := 30000; screenshotCount := 19 |} in
  let full := {| lastScreenshotTime := 89000; screenshotCount := 20 |} in
  fst (takeScreenshot (defaultScreenshots true) s st "3cx" false)
  = Some (screenshotPath "3cx" "2024-01-01T00-01-30.000Z")
  /\ fst (takeScreenshot (defaultScreenshots false) s full "3cx" true)
     = Some (screenshotPath "3cx" "2024-01-01T00-01-30.000Z")
  /\ fst (takeScreenshot (defaultScreenshots true) s full "3cx" false) = None.
Proof.
  intros p s st full. split; [|split].
  - destruct (takeScreenshot_caps (defaultScreenshots true) s st "3cx")
      as (_ & Htaken & _).
    rewrite Htaken; [reflexivity | reflexivity | simpl; lia | simpl; lia
                    | reflexivity].
  - destruct (takeScreenshot_caps (defaultScreenshots false) s full "3cx")
      as (_ & _ & Hforce & _).
    rewrite Hforce; reflexivity.
  - destruct (fst (takeScreenshot (defaultScreenshots true) s full "3cx" false))
      as [path|] eqn:Hshot; [|reflexivity].
    destruct (takeScreenshot_caps (defaultScreenshots true) s full "3cx")
      as (Honly & _).
    destruct (Honly path Hshot) as (_ & Hcount & _). simpl in Hcount. lia.
Defined.

(** ** Manual login and initialization *)

(** The login wait always comes back: 121 rounds cover the ten minutes,
    since every unsuccessful round takes at least 5000 ms. *)
Lemma waitLoop_settles (polls : nat -> Poll) (latency : nat -> nat)
    (fuel : nat) :
  forall elapsed i,
    (1 <= fuel)%nat ->
    maxWaitTime <= elapsed + 5000 * (Z.of_nat fuel - 1) ->
    exists b, waitLoop polls latency fuel elapsed i = Some b.
Proof.
  induction fuel as [|fuel IH]; intros elapsed i Hfuel Hbound; [lia|].
  simpl. destruct (elapsed <? maxWaitTime) eqn:Hlt; [|eexists; reflexivity].
  destruct (loginDetected (polls i)); [eexists; reflexivity|].
  apply Z.ltb_lt in Hlt. apply IH; lia.
Qed.

(** Without a detected login the wait ends in [false]. *)
Lemma waitLoop_timeout (polls : nat -> Poll) (latency : nat -> nat)
    (fuel : nat) :
  (forall j, loginDetected (polls j) = false) ->
  forall elapsed i,
    (1 <= fuel)%nat ->
    maxWaitTime <= elapsed + 5000 * (Z.of_nat fuel - 1) ->
    waitLoop polls latency fuel elapsed i = Some false.
Proof.
  intros Hnever.
  induction fuel as [|fuel IH]; intros elapsed i Hfuel Hbound; [lia|].
  simpl. destruct (elapsed <? maxWaitTime) eqn:Hlt; [|reflexivity].
  rewrite Hnever. apply Z.ltb_lt in Hlt. apply IH; lia.
Qed.

Lemma waitForLogin_settles (polls : nat -> Poll) (latency : nat -> nat) :
  exists b, waitForLogin polls latency = Some b.
Proof. apply waitLoop_settles; unfold maxWaitTime; lia. Qed.

(** [initialize] always settles, and it never rejects. *)
Lemma initialize_resolves (e : InitEnv) :
  exists success effects, initialize e = Some (Resolved success, effects).
Proof.
  unfold initialize, initialize_try.
  destruct (waitForLogin_settles (polls e) (latency e)) as (b & ->).
  destruct (launchOk e); simpl; [|eauto].
  destruct (gotoOk e); simpl; [|eauto].
  match goal with |- context [if ?c then Some (Throw _, _) else _] =>
    destruct c end; simpl; [eauto|].
  destruct (checkIfLoginRequired e); simpl; [|eauto].
  destruct (pageCookies e) as [cookies|]; simpl; [|eauto].
  destruct (List.filter _ cookies); simpl; [eauto|].
  destruct (writeCookiesOk e); simpl; eauto.
Qed.

(** C2: the code departs from the specification.  When a login is required, the
    browser steps go through and no poll ever shows the login-success
    markers, [waitForLogin] returns [false] after its ten minutes, but
    [initialize] does not look at that result: it goes on, starts the
    refresh interval and resolves to [true]. *)
Theorem initialize_after_login_timeout (e : InitEnv) :
  launchOk e = true ->
  gotoOk e = true ->
  relaunchOk e = true ->
  checkIfLoginRequired e = true ->
  (forall i info persisted,
      polls e i = PollInfo info persisted -> is3CXLoggedIn info = false) ->
  pageCookies e <> None ->
  writeCookiesOk e = true ->
  waitForLogin (polls e) (latency e) = Some false
  /\ exists effects,
       initialize e = Some (Resolved true, effects)
       /\ refreshIntervalStarted effects = true.
Proof.
  intros Hlaunch Hgoto Hrelaunch Hlogin Hnever Hcookies Hwrite.
  assert (Hwait : waitForLogin (polls e) (latency e) = Some false).
  { apply waitLoop_timeout; [|lia|unfold maxWaitTime; lia].
    intros j. unfold loginDetected.
    destruct (polls e j) as [|info persisted] eqn:Hpoll; [reflexivity|].
    rewrite (Hnever j info persisted Hpoll). reflexivity. }
  split; [exact Hwait|].
  unfold initialize, initialize_try.
  rewrite Hlaunch, Hgoto, Hrelaunch, Hlogin, Hwait, Hwrite. simpl.
  rewrite andb_false_r. simpl.
  destruct (pageCookies e) as [cookies|]; [|contradiction].
  destruct (List.filter _ cookies); eexists; split; reflexivity.
Qed.

(** C2 at a session that stays on the login form for the whole wait. *)
Lemma initialize_after_login_timeout_witness :
  let onLoginForm :=
    {| is3CXUrl := true; loginFormPresent := true; userMenu := false;
       switchboard := false; presenceIndicator := false;
       hasAuthToken := false |} in
  let e :=
    {| cookieFile := None; configHeadless := false; clock := 1700000000000;
       launchOk := true; gotoOk := true;
       loginFormExists := true; threeCxElementsExist := true;
       loginCheckRejects := false; relaunchOk := true;
       polls := fun _ => PollInfo onLoginForm true;
       latency := fun _ => 40%nat;
       pageCookies := Some [ {| cookieName := "lang"; expires := 0 |} ];
       writeCookiesOk := true |} in
  waitForLogin (polls e) (latency e) = Some false
  /\ exists effects,
       initialize e = Some (Resolved true, effects)
       /\ refreshIntervalStarted effects = true.
Proof.
  intros onLoginForm e.
  apply (initialize_after_login_timeout e); try reflexivity.
  - intros i info persisted Hpoll. simpl in Hpoll.
    injection Hpoll as <- _. reflexivity.
  - discriminate.
Defined.

(** ** Debounced collection *)

Lemma last_cons {A : Type} (l : list A) :
  forall a d, List.last (a :: l) d = List.last l a.
Proof.
  induction l as [|b l IH]; intros a d; [reflexivity|].
  change (List.last (a :: b :: l) d) with (List.last (b :: l) d).
  rewrite !IH. reflexivity.
Qed.

(** A run of observer calls that all fall inside the 500 ms after the
    first one leaves a single pending timeout, armed by the last call. *)
Lemma runCalls_observer_window (t1 : Z) (later : list Z) :
  forall (current : Z) (done : list (Z * Source)),
    t1 <= current ->
    Forall (fun t => t1 <= t < t1 + 500) later ->
    cycles (runCalls (map (fun t => (t, SObserver)) later)
              {| debounceTimer := Some (current + 500, SObserver);
                 cycles := done |})
    = (List.last later current + 500, SObserver) :: done.
Proof.
  induction later as [|t later IH]; intros current done Hcur Hwin.
  - reflexivity.
  - inversion Hwin as [|? ? Ht Hrest]; subst.
    cbn [map runCalls]. unfold elapse. cbn [debounceTimer].
    replace (current + 500 <? t) with false by (symmetry; apply Z.ltb_ge; lia).
    unfold collectAndSendStatusData. cbn [cycles debounceDelay].
    rewrite (IH t done) by (try assumption; lia).
    rewrite last_cons. reflexivity.
Qed.

(** C8: whatever the timer state, observer-sourced calls that arrive within
    one 500 ms window (the first at [t1], the others before [t1 + 500])
    start exactly one collection cycle, 500 ms after the last of them;
    an interval-sourced call starts its cycle at the time of the call. *)
Theorem debounce_one_cycle_per_window (t1 : Z) (later : list Z)
    (tm : Timers) :
  Forall (fun t => t1 <= t < t1 + 500) later ->
  cycles (runCalls (map (fun t => (t, SObserver)) (t1 :: later)) tm)
  = (List.last later t1 + 500, SObserver) :: cycles (elapse t1 tm)
  /\ cycles (runCalls [(t1, SInterval)] tm)
     = (t1, SInterval) :: cycles (elapse t1 tm).
Proof.
  intros Hwin. split.
  - cbn [map runCalls]. unfold collectAndSendStatusData. cbn [debounceDelay].
    apply (runCalls_observer_window t1); [lia | exact Hwin].
  - cbn [runCalls]. unfold collectAndSendStatusData, settle.
    cbn [debounceTimer cycles debounceDelay]. f_equal. f_equal. lia.
Qed.

(** C8 at four observer calls within 450 ms, starting from an idle timer. *)
Lemma debounce_one_cycle_per_window_witness :
  cycles (runCalls [ (10000, SObserver); (10100, SObserver);
                     (10250, SObserver); (10450, SObserver) ] idle)
  = [ (10950, SObserver) ]
  /\ cycles (runCalls [ (10000, SInterval) ] idle) = [ (10000, SInterval) ].
Proof.
  apply (debounce_one_cycle_per_window 10000 [10100; 10250; 10450] idle).
  repeat constructor; lia.
Defined.

(** ** Reconciliation core *)

Import App.

Lemma in_broadcast (m : Message) (s : State) (c : Client) :
  In c (clients s) -> isOpen c = true ->
  In (Send (clientId c) m) (broadcast m s).
Proof.
  intros Hin Hopen. unfold broadcast.
  apply (in_map (fun c => Send (clientId c) m)).
  apply filter_In. split; assumption.
Qed.

Lemma filter_broadcast (f : Effect -> bool) (m : Message) (s : State) :
  (forall c, f (Send c m) = false) -> List.filter f (broadcast m s) = [].
Proof.
  intros Hf. unfold broadcast.
  induction (List.filter isOpen (clients s)) as [|c cs IH]; simpl;
    [reflexivity|].
  rewrite Hf. exact IH.
Qed.

Lemma filter_app_nil {A : Type} (f : A -> bool) (l1 l2 : list A) :
  List.filter f l1 = [] -> List.filter f l2 = [] ->
  List.filter f (l1 ++ l2) = [].
Proof. intros H1 H2. rewrite List.filter_app, H1, H2. reflexivity. Qed.

(** The three recording steps send neither LED commands nor status
    snapshots, and leave status, monitoring flag and connections alone. *)
Lemma recordDebugInfo_quiet (r : Result) (s : State) :
  List.filter isPost (snd (recordDebugInfo r s)) = []
  /\ List.filter isStatusUpdate (snd (recordDebugInfo r s)) = []
  /\ currentStatus (fst (recordDebugInfo r s)) = currentStatus s
  /\ isMonitoring (fst (recordDebugInfo r s)) = isMonitoring s
  /\ clients (fst (recordDebugInfo r s)) = clients s
  /\ teamStatus (fst (recordDebugInfo r s)) = teamStatus s
  /\ latestAgentStatuses (fst (recordDebugInfo r s)) = latestAgentStatuses s.
Proof.
  unfold recordDebugInfo, broadcastDebugInfo.
  destruct (debugInfo r); simpl; repeat split; try reflexivity;
    apply filter_broadcast; reflexivity.
Qed.

Lemma recordCallStats_quiet (r : Result) (s : State) :
  List.filter isPost (snd (recordCallStats r s)) = []
  /\ List.filter isStatusUpdate (snd (recordCallStats r s)) = []
  /\ currentStatus (fst (recordCallStats r s)) = currentStatus s
  /\ isMonitoring (fst (recordCallStats r s)) = isMonitoring s
  /\ clients (fst (recordCallStats r s)) = clients s
  /\ teamStatus (fst (recordCallStats r s)) = teamStatus s
  /\ latestAgentStatuses (fst (recordCallStats r s)) = latestAgentStatuses s.
Proof.
  unfold recordCallStats, broadcastCallStats.
  destruct (callStatsResult r); simpl; repeat split; try reflexivity;
    apply filter_broadcast; reflexivity.
Qed.

Lemma recordAgentStatuses_quiet (w : World) (r : Result) (s : State) :
  List.filter isPost (snd (recordAgentStatuses w r s)) = []
  /\ List.filter isStatusUpdate (snd (recordAgentStatuses w r s)) = []
  /\ currentStatus (fst (recordAgentStatuses w r s)) = currentStatus s
  /\ isMonitoring (fst (recordAgentStatuses w r s)) = isMonitoring s
  /\ clients (fst (recordAgentStatuses w r s)) = clients s
  /\ latestCallStats (fst (recordAgentStatuses w r s)) = latestCallStats s
  /\ latestDebugInfo (fst (recordAgentStatuses w r s)) = latestDebugInfo s.
Proof.
  unfold recordAgentStatuses, broadcastTeamStatus.
  destruct (agentStatusesResult r) as [| |agents]; simpl;
    repeat split; try reflexivity;
    destruct (clients s); try reflexivity;
    destruct agents; try reflexivity;
    apply filter_broadcast; reflexivity.
Qed.

(** [handleStatusChange] with the monitoring flag off: the three recording
    steps and nothing else. *)
Lemma handleStatusChange_monitoring_off_steps (w : World) (r : Result)
    (s : State) :
  isMonitoring s = false ->
  handleStatusChange w None (Some r) s
  = let s1 := fst (recordDebugInfo r s) in
    let s2 := fst (recordCallStats r s1) in
    let s3 := fst (recordAgentStatuses w r s2) in
    (s3, snd (recordDebugInfo r s) ++ snd (recordCallStats r s1)
         ++ snd (recordAgentStatuses w r s2)).
Proof.
  intros Hoff. unfold handleStatusChange. cbv beta iota zeta.
  destruct (recordDebugInfo r s) as [s1 e1] eqn:H1.
  destruct (recordCallStats r s1) as [s2 e2] eqn:H2.
  destruct (recordAgentStatuses w r s2) as [s3 e3] eqn:H3.
  cbv beta iota zeta. cbn [fst snd].
  assert (Hm : isMonitoring s3 = false).
  { pose proof (recordAgentStatuses_quiet w r s2) as (_ & _ & _ & Ha & _).
    pose proof (recordCallStats_quiet r s1) as (_ & _ & _ & Hc & _).
    pose proof (recordDebugInfo_quiet r s) as (_ & _ & _ & Hd & _).
    rewrite H3 in Ha. rewrite H2 in Hc. rewrite H1 in Hd. simpl in *.
    congruence. }
  rewrite Hm, H2. cbn [fst snd andb]. rewrite H3.
  destruct (statusResult r); reflexivity.
Qed.

(** C4, as stated, fails: with the monitoring flag off, a scraper result
    that reports ["available"] leaves [currentStatus] at ["offline"], and
    no status snapshot is broadcast. *)
Lemma handleStatusChange_monitoring_off_keeps_status :
  let w := {| wled := {| ipAddress := Some "192.168.111.50";
                         brightness := 128; transition := 1000 |};
              device := HttpOk; time := 1700000000000 |} in
  let s := setIsMonitoring false
             (initialState [ {| clientId := 1%nat; isOpen := true |} ]) in
  let r := {| statusResult :=
                Some {| status := "available"; source := "indicator-class" |};
              callStatsResult := None;
              agentStatusesResult := Null;
              debugInfo := None |} in
  currentStatus (fst (handleStatusChange w None (Some r) s)) = "offline"
  /\ currentStatus (fst (handleStatusChange w None (Some r) s))
     <> "available"
  /\ snd (handleStatusChange w None (Some r) s) = [].
Proof.
  intros w s r. split; [|split].
  - reflexivity.
  - vm_compute. discriminate.
  - reflexivity.
Qed.

(** C4 (amended): when the monitoring flag is false and a scraper result
    arrives, no LED command is issued, [currentStatus] is left as it was
    and no status snapshot is broadcast; the call statistics, the roster
    and the debug information of the result are still recorded in the
    application state, and the statistics are sent to every open
    connection. *)
Theorem handleStatusChange_monitoring_off (w : World) (r : Result)
    (s : State) :
  isMonitoring s = false ->
  List.filter isPost (snd (handleStatusChange w None (Some r) s)) = []
  /\ List.filter isStatusUpdate (snd (handleStatusChange w None (Some r) s))
     = []
  /\ currentStatus (fst (handleStatusChange w None (Some r) s))
     = currentStatus s
  /\ (forall c,
        callStatsResult r = Some c ->
        latestCallStats (fst (handleStatusChange w None (Some r) s)) = c
        /\ forall cl,
             In cl (clients s) -> isOpen cl = true ->
             In (Send (clientId cl) (CallStatsMessage c))
                (snd (handleStatusChange w None (Some r) s)))
  /\ (forall agents,
        agentStatusesResult r = Value agents ->
        teamStatus (fst (handleStatusChange w None (Some r) s)) = agents
        /\ latestAgentStatuses (fst (handleStatusChange w None (Some r) s))
           = agents)
  /\ (forall d,
        debugInfo r = Some d ->
        latestDebugInfo (fst (handleStatusChange w None (Some r) s))
        = Some d).
Proof.
  intros Hoff. rewrite (handleStatusChange_monitoring_off_steps w r s Hoff).
  cbv zeta. cbn [fst snd].
  set (s1 := fst (recordDebugInfo r s)).
  set (s2 := fst (recordCallStats r s1)).
  pose proof (recordDebugInfo_quiet r s)
    as (Hd1 & Hd2 & Hd3 & _ & Hd5 & _).
  pose proof (recordCallStats_quiet r s1)
    as (Hc1 & Hc2 & Hc3 & _ & Hc5 & _).
  pose proof (recordAgentStatuses_quiet w r s2)
    as (Ha1 & Ha2 & Ha3 & _ & Ha5 & Ha6 & Ha7).
  fold s1 in Hd3, Hd5. fold s2 in Hc3, Hc5.
  split; [|split; [|split; [|split; [|split]]]].
  - repeat apply filter_app_nil; assumption.
  - repeat apply filter_app_nil; assumption.
  - congruence.
  - intros c Hc. split.
    + rewrite Ha6. unfold s2, recordCallStats. rewrite Hc. reflexivity.
    + intros cl Hin Hopen. apply in_or_app. right. apply in_or_app. left.
      unfold recordCallStats. rewrite Hc. cbn [broadcastCallStats snd].
      apply in_broadcast; [|exact Hopen].
      change (In cl (clients s1)). rewrite Hd5. exact Hin.
  - intros agents Ha. unfold recordAgentStatuses. rewrite Ha.
    split; reflexivity.
  - intros d Hd. rewrite Ha7. unfold s2, recordCallStats.
    assert (Hs1 : latestDebugInfo s1 = Some d).
    { unfold s1, recordDebugInfo. rewrite Hd. reflexivity. }
    destruct (callStatsResult r); exact Hs1.
Qed.

(** The amended C4 at a result that carries statistics and one agent. *)
Lemma handleStatusChange_monitoring_off_witness :
  let w := {| wled := {| ipAddress := Some "192.168.111.50";
                         brightness := 128; transition := 1000 |};
              device := HttpOk; time := 1700000000000 |} in
  let s := setIsMonitoring false
             (initialState [ {| clientId := 1%nat; isOpen := true |} ]) in
  let stats := Scraper.zeroStats (Some "2024-01-01T00:00:00.000Z") "web" None in
  let agent := {| Scraper.id := "534"; Scraper.extension := "534";
                  Scraper.name := "Brett Healy"; Scraper.status := "away";
                  Scraper.queues := ""; Scraper.color := "orange" |} in
  let r := {| statusResult :=
                Some {| status := "available"; source := "indicator-class" |};
              callStatsResult := Some stats;
              agentStatusesResult := Value [agent];
              debugInfo := None |} in
  List.filter isPost (snd (handleStatusChange w None (Some r) s)) = []
  /\ currentStatus (fst (handleStatusChange w None (Some r) s)) = "offline"
  /\ latestCallStats (fst (handleStatusChange w None (Some r) s)) = stats
  /\ teamStatus (fst (handleStatusChange w None (Some r) s)) = [agent].
Proof.
  intros w s stats agent r.
  destruct (handleStatusChange_monitoring_off w r s eq_refl)
    as (Hled & _ & Hstatus & Hstats & Hroster & _).
  split; [exact Hled|]. split; [exact Hstatus|].
  split; [exact (proj1 (Hstats stats eq_refl))|].
  exact (proj1 (Hroster [agent] eq_refl)).
Defined.

(** [handleStatusChange] on the roster part of a result. *)
Lemma handleStatusChange_roster (w : World) (r : Result) (s : State) :
  let s' := fst (handleStatusChange w None (Some r) s) in
  match agentStatusesResult r with
  | Value agents => teamStatus s' = agents /\ latestAgentStatuses s' = agents
  | _ => teamStatus s' = teamStatus s
         /\ latestAgentStatuses s' = latestAgentStatuses s
  end.
Proof.
  unfold handleStatusChange. cbv beta iota zeta.
  pose proof (recordDebugInfo_quiet r s)
    as (_ & _ & _ & _ & _ & Hd6 & Hd7).
  destruct (recordDebugInfo r s) as [s1 e1]. cbn [fst] in Hd6, Hd7.
  pose proof (recordCallStats_quiet r s1)
    as (_ & _ & _ & _ & _ & Hc6 & Hc7).
  destruct (recordCallStats r s1) as [s2 e2]. cbn [fst] in Hc6, Hc7.
  assert (Hroster :
    match agentStatusesResult r with
    | Value agents =>
        teamStatus (fst (recordAgentStatuses w r s2)) = agents
        /\ latestAgentStatuses (fst (recordAgentStatuses w r s2)) = agents
    | _ => teamStatus (fst (recordAgentStatuses w r s2)) = teamStatus s
           /\ latestAgentStatuses (fst (recordAgentStatuses w r s2))
              = latestAgentStatuses s
    end).
  { unfold recordAgentStatuses.
    destruct (agentStatusesResult r); cbn [fst setRoster teamStatus
      latestAgentStatuses]; split; congruence. }
  destruct (recordAgentStatuses w r s2) as [s3 e3]. cbn [fst] in Hroster.
  destruct (statusResult r) as [detected|]; [|exact Hroster].
  destruct (isMonitoring s3 && _)%bool; exact Hroster.
Qed.

(** C5 (amended): [fetchAllAgentStatuses] returns [null] when the roster
    container is absent from the page, and otherwise only when the browser
    session is unavailable or the page evaluation rejects; it returns an
    empty array when the container is there and lists no agent item.  On a
    [null] result the core leaves the stored roster unchanged; on an empty
    array it overwrites the stored roster with the empty list. *)
Theorem roster_null_versus_empty (cfg : ScreenshotConfig) (session : Session)
    (shots : ScreenshotState) (w : World) (r : Result) (s : State) :
  (fst (fetchAllAgentStatuses cfg session shots) = None <->
   (pageAvailable session = None
    \/ exists p, pageAvailable session = Some p
                 /\ (evaluateRejects p = true
                     \/ agentContainer (document p) = None)))
  /\ (forall p,
        pageAvailable session = Some p ->
        evaluateRejects p = false ->
        agentContainer (document p) = Some [] ->
        fst (fetchAllAgentStatuses cfg session shots) = Some [])
  /\ (agentStatusesResult r = Null ->
      teamStatus (fst (handleStatusChange w None (Some r) s)) = teamStatus s
      /\ latestAgentStatuses (fst (handleStatusChange w None (Some r) s))
         = latestAgentStatuses s)
  /\ (agentStatusesResult r = Value [] ->
      teamStatus (fst (handleStatusChange w None (Some r) s)) = []
      /\ latestAgentStatuses (fst (handleStatusChange w None (Some r) s))
         = []).
Proof.
  split; [apply fetchAllAgentStatuses_null|].
  split; [|split].
  - intros p Hp He Hc. unfold fetchAllAgentStatuses, scrapeAgents.
    rewrite Hp, He, Hc. reflexivity.
  - intros Hnull. pose proof (handleStatusChange_roster w r s) as H.
    cbv zeta in H. rewrite Hnull in H. exact H.
  - intros Hempty. pose proof (handleStatusChange_roster w r s) as H.
    cbv zeta in H. rewrite Hempty in H. exact H.
Qed.

(** The amended C5 at a page whose container lists no agent, and at a core
    that holds one agent. *)
Lemma roster_null_versus_empty_witness :
  let p := {| isClosed := false; evaluateRejects := false;
              screenshotRejects := false;
              document := {| queueStat := None;
                             agentContainer := Some [] |} |} in
  let session := {| browser := true; page := Some p; now := 0;
                    timestamp := "2024-01-01T00:00:00.000Z";
                    mkdir := MkdirOk |} in
  let w := {| wled := {| ipAddress := Some "192.168.111.50";
                         brightness := 128; transition := 1000 |};
              device := HttpOk; time := 1700000000000 |} in
  let agent := {| Scraper.id := "534"; Scraper.extension := "534";
                  Scraper.name := "Brett Healy"; Scraper.status := "away";
                  Scraper.queues := ""; Scraper.color := "orange" |} in
  let s := setRoster [agent] 1699999990000 (initialState []) in
  let result agents :=
    {| statusResult := None; callStatsResult := None;
       agentStatusesResult := agents; debugInfo := None |} in
  fst (fetchAllAgentStatuses (defaultScreenshots false) session
         initialScreenshots) = Some []
  /\ teamStatus (fst (handleStatusChange w None (Some (result Null)) s))
     = [agent]
  /\ teamStatus (fst (handleStatusChange w None (Some (result (Value []))) s))
     = [].
Proof.
  intros p session w agent s result. split; [|split].
  - destruct (roster_null_versus_empty (defaultScreenshots false) session
                initialScreenshots w (result Null) s) as (_ & Hempty & _).
    exact (Hempty p eq_refl eq_refl eq_refl).
  - destruct (roster_null_versus_empty (defaultScreenshots false) session
                initialScreenshots w (result Null) s) as (_ & _ & Hnull & _).
    exact (proj1 (Hnull eq_refl)).
  - destruct (roster_null_versus_empty (defaultScreenshots false) session
                initialScreenshots w (result (Value [])) s)
      as (_ & _ & _ & Hoverwrite).
    exact (proj1 (Hoverwrite eq_refl)).
Defined.

(** ** Manual submissions *)

(** What a manual submission does bring about: the status is stored, the
    snapshot with the new status goes to every open connection, and the LED
    update runs with the new status. *)
Lemma postStatus_takes_effect (w : World) (r : StatusRequest) (s : State)
    (st : string) :
  submitted r = Some st ->
  currentStatus (fst (postStatus w r s)) = st
  /\ exists rest,
       snd (postStatus w r s)
       = broadcastStatus (setCurrentStatus st s)
         ++ issued (updateWLEDWithStatus w (setCurrentStatus st s) st)
         ++ rest.
Proof.
  intros Hsub. unfold postStatus. rewrite Hsub.
  destruct (reqMonitoring r) as [m|]; cbn [fst snd]; split;
    try reflexivity; rewrite <- !app_assoc; eexists; reflexivity.
Qed.

(** No handler of a manual submission touches the override: the debug
    information keeps reporting no override time left. *)
Lemma manual_status_reports_no_override (w : World) (r : StatusRequest)
    (s : State) (nowMs : Z) :
  manualStatusOverride s = false ->
  manualOverrideRemaining nowMs (fst (postStatus w r s)) = 0
  /\ manualOverrideRemaining nowMs (fst (wsStatus w r s)) = 0.
Proof.
  intros Hoff. unfold manualOverrideRemaining, postStatus, wsStatus.
  destruct (submitted r) as [st|], (reqMonitoring r) as [m|]; cbn;
    rewrite Hoff; split; reflexivity.
Qed.

(** C3: the code departs from the specification.  A manual submission stores the
    status (whatever the monitoring flag), but neither the [/api/status]
    handler nor the ['status'] message writes [manualStatusOverride]: the
    flag keeps its value, so after a submission made while the flag is
    [false] it is still [false]. *)
Theorem manual_status_leaves_override_unset (w : World) (r : StatusRequest)
    (s : State) (st : string) :
  submitted r = Some st ->
  manualStatusOverride s = false ->
  currentStatus (fst (postStatus w r s)) = st
  /\ manualStatusOverride (fst (postStatus w r s)) = false
  /\ currentStatus (fst (wsStatus w r s)) = st
  /\ manualStatusOverride (fst (wsStatus w r s)) = false.
Proof.
  intros Hsub Hoff. unfold postStatus, wsStatus. rewrite Hsub.
  destruct (reqMonitoring r) as [m|]; cbn; repeat split;
    try reflexivity; exact Hoff.
Qed.

(** C3 at the submission of ["dnd"] to a freshly started process. *)
Lemma manual_status_leaves_override_unset_witness :
  let w := {| wled := {| ipAddress := Some "192.168.111.50";
                         brightness := 128; transition := 1000 |};
              device := HttpOk; time := 1700000000000 |} in
  let s := initialState [ {| clientId := 1%nat; isOpen := true |} ] in
  let r := {| reqStatus := Some "dnd"; reqMonitoring := None |} in
  currentStatus (fst (postStatus w r s)) = "dnd"
  /\ manualStatusOverride (fst (postStatus w r s)) = false
  /\ currentStatus (fst (wsStatus w r s)) = "dnd"
  /\ manualStatusOverride (fst (wsStatus w r s)) = false.
Proof.
  intros w s r.
  apply (manual_status_leaves_override_unset w r s "dnd"); reflexivity.
Defined.

(** ** LED update by status *)

(** A status that is neither a key of [statusColors] nor the name of a
    member of [Object.prototype] has no colour: no request, no broadcast,
    and the promise resolves to [undefined]. *)
Lemma updateWLEDWithStatus_unrecognised (w : World) (s : State)
    (st : string) :
  assoc st statusColors = None -> inherited st = false ->
  updateWLEDWithStatus w s st
  = {| settled := Resolved None; issued := []; afterwards := [] |}.
Proof.
  intros Hown Hinh. unfold updateWLEDWithStatus.
  rewrite (get_Missing _ _ Hown Hinh). reflexivity.
Qed.

(** In particular for the normalizer's ["on-call"]. *)
Lemma updateWLEDWithStatus_on_call (w : World) (s : State) :
  updateWLEDWithStatus w s "on-call"
  = {| settled := Resolved None; issued := []; afterwards := [] |}.
Proof. apply updateWLEDWithStatus_unrecognised; reflexivity. Qed.

(** C10: the code departs from the specification.  ["constructor"] and
    ["__proto__"] are not keys of [statusColors], yet the lookup
    [statusColors[status]] finds the members inherited from
    [Object.prototype]: for ["constructor"] the LED update is attempted
    with a function, resolves to [false] and a WLED-status message is
    broadcast; for ["__proto__"], with a configured device, a request that
    sets the colour [0, 0, 0] is sent. *)
Theorem updateWLEDWithStatus_inherited_names (w : World) (s : State)
    (ip : string) :
  Wled.configured (wled w) = Some ip ->
  assoc "constructor" statusColors = None
  /\ settled (updateWLEDWithStatus w s "constructor") = Resolved (Some false)
  /\ afterwards (updateWLEDWithStatus w s "constructor")
     = broadcast (WledMessage false None) s
  /\ assoc "__proto__" statusColors = None
  /\ issued (updateWLEDWithStatus w s "__proto__")
     = [ Post {| url := "http://" +:+ ip +:+ "/json";
                 body := solidColor (wled w) 0 0 0 |} ].
Proof.
  intros Hip. unfold updateWLEDWithStatus, updateWLED, updateWLED_try.
  rewrite Hip. cbn.
  repeat split; try reflexivity.
  destruct (device w); reflexivity.
Qed.

(** C10 at a process with one open connection and a configured device. *)
Lemma updateWLEDWithStatus_inherited_names_witness :
  let w := {| wled := {| ipAddress := Some "192.168.111.50";
                         brightness := 128; transition := 1000 |};
              device := HttpOk; time := 1700000000000 |} in
  let s := initialState [ {| clientId := 1%nat; isOpen := true |} ] in
  afterwards (updateWLEDWithStatus w s "constructor")
  = [ Send 1%nat (WledMessage false None) ]
  /\ issued (updateWLEDWithStatus w s "__proto__")
     = [ Post {| url := "http://192.168.111.50/json";
                 body := solidColor (wled w) 0 0 0 |} ].
Proof.
  intros w s.
  destruct (updateWLEDWithStatus_inherited_names w s "192.168.111.50" eq_refl)
    as (_ & _ & Hbroadcast & _ & Hpost).
  split; [exact Hbroadcast | exact Hpost].
Defined.

(* ===================================================================== *)
(** * Further properties *)
(* ===================================================================== *)

(** ** LED device adapter: partial updates *)

Import WledOps.






(** X3: without a device address no operation of the adapter sends
    anything: each of the six resolves to [false] (or [null] for the status
    read) with no request made and the configuration as it was. *)
Theorem adapter_unconfigured_sends_nothing (cfg : Config) (color : Color)
    (n : Z) (net : HttpOutcome) (get : GetOutcome) :
  configured cfg = None ->
  updateWLED cfg color net = (Resolved false, [])
  /\ turnOffWLED cfg net
     = {| result := Resolved false; sent := []; after := cfg |}
  /\ setWLEDBrightness cfg n net
     = {| result := Resolved false; sent := []; after := cfg |}
  /\ setWLEDTransition cfg n net
     = {| result := Resolved false; sent := []; after := cfg |}
  /\ setWLEDEffect cfg n net
     = {| result := Resolved false; sent := []; after := cfg |}
  /\ getWLEDStatus cfg get = (None, []).
Proof.
  intros Hnone.
  unfold updateWLED, updateWLED_try, turnOffWLED, setWLEDBrightness,
    setWLEDTransition, setWLEDEffect, getWLEDStatus.
  rewrite Hnone. repeat split; reflexivity.
Qed.

(** X3 at a configuration whose address is the empty string. *)
Lemma adapter_unconfigured_sends_nothing_witness :
  let cfg := {| ipAddress := Some ""; brightness := 128;
                transition := 1000 |} in
  updateWLED cfg (ColorObject (CNumber 255) (CNumber 0) (CNumber 0)) HttpOk
  = (Resolved false, [])
  /\ sent (turnOffWLED cfg HttpOk) = [].
Proof.
  intros cfg.
  destruct (adapter_unconfigured_sends_nothing cfg
              (ColorObject (CNumber 255) (CNumber 0) (CNumber 0)) 0 HttpOk
              (GetError "") eq_refl) as (Hupdate & Hoff & _).
  split; [exact Hupdate|]. rewrite Hoff. reflexivity.
Defined.

(** X4: whatever colour argument [updateWLED] is given (numbers out of
    range, numeric strings, missing components), every channel of every
    request it sends lies between 0 and 255, and a request carries exactly
    one segment with one colour of three channels. *)
Theorem updateWLED_channels_in_range (cfg : Config) (color : Color)
    (net : HttpOutcome) (request : Request) :
  In request (snd (updateWLED cfg color net)) ->
  exists r g b,
    seg (body request)
    = [ {| col := [[r; g; b]]; fx := 0; sx := 128; ix := 128 |} ]
    /\ 0 <= r <= 255 /\ 0 <= g <= 255 /\ 0 <= b <= 255.
Proof.
  unfold updateWLED, updateWLED_try.
  destruct (configured cfg) as [ip|]; [|intros []].
  destruct color as [r g b|f| |]; try (intros []).
  intros Hin.
  assert (Hreq : request
                 = {| url := "http://" +:+ ip +:+ "/json";
                      body := solidColor cfg (channel r) (channel g)
                                (channel b) |}).
  { destruct net; cbn in Hin; destruct Hin as [<-|[]]; reflexivity. }
  subst request. exists (channel r), (channel g), (channel b).
  split; [reflexivity|].
  pose proof (channel_bounds r). pose proof (channel_bounds g).
  pose proof (channel_bounds b). tauto.
Qed.

(** X4 at a colour given as out-of-range numbers and a hexadecimal
    string. *)
Lemma updateWLED_channels_in_range_witness :
  let cfg := {| ipAddress := Some "192.168.111.50";
                brightness := 128; transition := 1000 |} in
  let color := ColorObject (CNumber 300) (CString "0x10") (CNumber (-7)) in
  exists request,
    snd (updateWLED cfg color HttpOk) = [request]
    /\ seg (body request)
       = [ {| col := [[255; 16; 0]]; fx := 0; sx := 128; ix := 128 |} ].
Proof.
  intros cfg color. eexists. split; [reflexivity|].
  destruct (updateWLED_channels_in_range cfg color HttpOk _
              (or_introl eq_refl)) as (r & g & b & Hseg & _).
  rewrite Hseg. vm_compute in Hseg. injection Hseg as <- <- <-. reflexivity.
Defined.

(** ** Status normalizer: range and precedence *)

Lemma partialMatch_In (lowerStatus : string)
    (entries : list (string * string)) (v : string) :
  partialMatch lowerStatus entries = NStatus v ->
  exists key, In (key, v) entries /\ includes lowerStatus key = true.
Proof.
  induction entries as [|[key value] rest IH]; simpl; [discriminate|].
  destruct (includes lowerStatus key) eqn:Hinc.
  - intros [= ->]. exists key. split; [left; reflexivity|exact Hinc].
  - intros H. destruct (IH H) as (k & Hin & Hk). exists k. tauto.
Qed.

Lemma statusMap_values :
  Forall (fun entry =>
            In (snd entry) ["available"; "away"; "dnd"; "offline"; "on-call"])
         statusMap.
Proof.
  unfold statusMap.
  repeat (apply List.Forall_cons; [simpl; tauto|]). apply List.Forall_nil.
Qed.

(** X5: every status [normalizeStatus] returns is the table value of a key
    that occurs in the lower-cased, trimmed input, and it is one of
    ["available"], ["away"], ["dnd"], ["offline"], ["on-call"]: the
    function never yields ["ringing"] or ["onCall"]. *)
Theorem normalizeStatus_range (raw v : string) :
  normalizeStatus raw = NStatus v ->
  (exists key,
      In (key, v) statusMap
      /\ includes (trim (toLowerCase raw)) key = true)
  /\ In v ["available"; "away"; "dnd"; "offline"; "on-call"]
  /\ v <> "ringing" /\ v <> "onCall".
Proof.
  intros Hn.
  assert (Hkey : exists key,
             In (key, v) statusMap
             /\ includes (trim (toLowerCase raw)) key = true).
  { unfold normalizeStatus in Hn.
    destruct (negb (truthy raw)); [discriminate|].
    unfold get in Hn.
    destruct (assoc (trim (toLowerCase raw)) statusMap) as [value|] eqn:Hown.
    - destruct (truthy value).
      + injection Hn as ->. exists (trim (toLowerCase raw)).
        split; [exact (assoc_Some_In _ _ _ Hown) | apply includes_refl].
      + exact (partialMatch_In _ _ _ Hn).
    - destruct (String.eqb _ "__proto__"); [discriminate|].
      destruct (inherited _); [discriminate|].
      exact (partialMatch_In _ _ _ Hn). }
  split; [exact Hkey|].
  destruct Hkey as (key & Hin & _).
  assert (Hv : In v ["available"; "away"; "dnd"; "offline"; "on-call"]).
  { pose proof statusMap_values as Hall.
    rewrite List.Forall_forall in Hall. exact (Hall _ Hin). }
  split; [exact Hv|].
  simpl in Hv. split; intros ->;
    repeat (destruct Hv as [Hv|Hv]; [discriminate Hv|]); exact Hv.
Qed.

(** X5 at an upper-case text with surrounding blanks. *)
Lemma normalizeStatus_range_witness :
  exists key,
    In (key, "on-call") statusMap
    /\ includes (trim (toLowerCase "  ON THE PHONE ")) key = true.
Proof.
  exact (proj1 (normalizeStatus_range "  ON THE PHONE " "on-call" eq_refl)).
Defined.

(** X6: in the partial match the table order decides: when the input is
    not itself a key, the first key of [statusMap] that occurs in it gives
    the result, whatever later keys occur as well.  So a text that contains
    "unavailable" (without being exactly that) contains the first key
    "available" and is normalized to ["available"], not ["offline"]. *)
Theorem normalizeStatus_first_key_wins (raw : string)
    (before : list (string * string)) (key value : string)
    (behind : list (string * string)) :
  statusMap = before ++ (key, value) :: behind ->
  truthy raw = true ->
  get statusMap (trim (toLowerCase raw)) = Missing ->
  includes (trim (toLowerCase raw)) key = true ->
  (forall k v, In (k, v) before -> includes (trim (toLowerCase raw)) k = false) ->
  normalizeStatus raw = NStatus value.
Proof.
  intros Hsplit Htruthy Hmiss Hkey Hbefore.
  unfold normalizeStatus. rewrite Htruthy, Hmiss. cbn [negb].
  rewrite Hsplit. clear Hsplit Hmiss.
  induction before as [|[k v] before IH]; simpl.
  - rewrite Hkey. reflexivity.
  - rewrite (Hbefore k v) by (left; reflexivity).
    apply IH. intros k' v' Hin. apply (Hbefore k' v'). right. exact Hin.
Qed.

(** X6 at a text that says the user is unavailable. *)
Lemma normalizeStatus_first_key_wins_witness :
  normalizeStatus "Currently unavailable" = NStatus "available".
Proof.
  apply (normalizeStatus_first_key_wins "Currently unavailable" []
           "available" "available" (tail statusMap)).
  - reflexivity.
  - reflexivity.
  - vm_compute. reflexivity.
  - vm_compute. reflexivity.
  - intros k v [].
Defined.

(** ** The status scan *)

Import Client.

Lemma scanClasses_sound (selector : string) (classes : list string)
    (s : Scan) :
  scanClasses selector classes = Some s ->
  exists className,
    In className classes /\ normalizeStatus className = scanStatus s
    /\ found (scanStatus s) = true.
Proof.
  induction classes as [|c rest IH]; simpl; [discriminate|].
  destruct (found (normalizeStatus c)) eqn:Hf.
  - intros [= <-]. exists c. simpl. tauto.
  - intros H. destruct (IH H) as (c' & Hin & Hn). exists c'. tauto.
Qed.

Lemma scanAttributes_sound (element : Element) (names : list string)
    (s : Scan) :
  scanAttributes element names = Some s ->
  exists attr attrValue,
    In attr names /\ assoc attr (attributes element) = Some attrValue
    /\ normalizeStatus attrValue = scanStatus s
    /\ found (scanStatus s) = true.
Proof.
  induction names as [|a rest IH]; simpl; [discriminate|].
  assert (Hrest : scanAttributes element rest = Some s ->
                  exists attr attrValue,
                    (a = attr \/ In attr rest)
                    /\ assoc attr (attributes element) = Some attrValue
                    /\ normalizeStatus attrValue = scanStatus s
                    /\ found (scanStatus s) = true).
  { intros H. destruct (IH H) as (attr & v & Hin & Hrest).
    exists attr, v. tauto. }
  destruct (assoc a (attributes element)) as [v|] eqn:Ha; [|exact Hrest].
  destruct (truthy v); [|exact Hrest].
  destruct (found (normalizeStatus v)) eqn:Hf; [|exact Hrest].
  intros [= <-]. exists a, v. simpl. tauto.
Qed.

Lemma scanElement_sound (selector : string) (element : Element) (s : Scan) :
  scanElement selector element = Some s ->
  exists candidate,
    carries element candidate
    /\ normalizeStatus candidate = scanStatus s
    /\ found (scanStatus s) = true.
Proof.
  unfold scanElement, carries.
  destruct (scanClasses selector (classList element)) as [s1|] eqn:H1.
  - intros [= <-]. destruct (scanClasses_sound _ _ _ H1) as (c & Hin & Hn).
    exists c. tauto.
  - destruct (scanAttributes element dataAttributes) as [s2|] eqn:H2.
    + intros [= <-].
      destruct (scanAttributes_sound _ _ _ H2) as (a & v & Hin & Ha & Hn).
      exists v. split; [right; left; exists a; tauto | exact Hn].
    + unfold scanText.
      destruct (truthy (trim (textContent element))); [|discriminate].
      destruct (found (normalizeStatus (trim (textContent element)))) eqn:Hf;
        [|discriminate].
      intros [= <-]. exists (trim (textContent element)). simpl. tauto.
Qed.

Lemma scanElements_sound (selector : string) (elements : list Element)
    (s : Scan) :
  scanElements selector elements = Some s ->
  exists element candidate,
    In element elements /\ carries element candidate
    /\ normalizeStatus candidate = scanStatus s
    /\ found (scanStatus s) = true.
Proof.
  induction elements as [|e rest IH]; simpl; [discriminate|].
  destruct (scanElement selector e) as [s1|] eqn:H1.
  - intros [= <-]. destruct (scanElement_sound _ _ _ H1) as (c & Hc).
    exists e, c. tauto.
  - intros H. destruct (IH H) as (e' & c & Hin & Hc). exists e', c. tauto.
Qed.

Lemma scanSelectors_sound (q : string -> list Element)
    (selectors : list string) (s : Scan) :
  scanSelectors q selectors = Some s ->
  exists selector element candidate,
    In selector selectors /\ In element (q selector)
    /\ carries element candidate
    /\ normalizeStatus candidate = scanStatus s
    /\ found (scanStatus s) = true.
Proof.
  induction selectors as [|sel rest IH]; simpl; [discriminate|].
  destruct (scanElements sel (q sel)) as [s1|] eqn:H1.
  - intros [= <-].
    destruct (scanElements_sound _ _ _ H1) as (e & c & Hin & Hc).
    exists sel, e, c. tauto.
  - intros H. destruct (IH H) as (sel' & e & c & Hin & Hc).
    exists sel', e, c. tauto.
Qed.

Lemma scanSelectors_empty (q : string -> list Element)
    (selectors : list string) :
  (forall selector, In selector selectors -> q selector = []) ->
  scanSelectors q selectors = None.
Proof.
  induction selectors as [|sel rest IH]; intros Hq; simpl; [reflexivity|].
  rewrite (Hq sel) by (left; reflexivity). simpl.
  apply IH. intros s Hin. apply Hq. right. exact Hin.
Qed.

(** X7: the status scan of [getStatus] reports a status only when some
    element matched by one of its selectors carries a string (a class, one
    of the four data attributes, or the trimmed text) that
    [normalizeStatus] maps to it; otherwise, and in particular when no
    selector matches any element, it returns [null] with source
    ["none"]. *)
Theorem scanPage_sound (q : string -> list Element) :
  (scanStatus (scanPage q) <> NNull ->
   exists selector element candidate,
     In selector statusSelectors /\ In element (q selector)
     /\ carries element candidate
     /\ normalizeStatus candidate = scanStatus (scanPage q))
  /\ ((forall selector, In selector statusSelectors -> q selector = []) ->
      scanPage q = {| scanStatus := NNull; scanSource := "none" |}).
Proof.
  unfold scanPage. split.
  - destruct (scanSelectors q statusSelectors) as [s|] eqn:Hs.
    + intros _.
      destruct (scanSelectors_sound _ _ _ Hs) as (sel & e & c & H).
      exists sel, e, c. tauto.
    + simpl. intros Hn. contradiction Hn. reflexivity.
  - intros Hq. rewrite (scanSelectors_empty _ _ Hq). reflexivity.
Qed.

(** X7 at a page whose only status element is a presence dot of class
    [busy]. *)
Lemma scanPage_sound_witness :
  let dot := {| textContent := ""; classList := ["presence"; "busy"];
                attributes := [] |} in
  let q := fun selector =>
             if String.eqb selector ".presence" then [dot] else [] in
  scanPage q = {| scanStatus := NStatus "dnd";
                  scanSource := "indicator-class:.presence" |}
  /\ exists selector element candidate,
       In selector statusSelectors /\ In element (q selector)
       /\ carries element candidate
       /\ normalizeStatus candidate = scanStatus (scanPage q).
Proof.
  intros dot q. split; [vm_compute; reflexivity|].
  apply (proj1 (scanPage_sound q)). vm_compute. discriminate.
Defined.

(** ** Roster entries *)

Lemma takeDigits_allDigits (s : string) : allDigits (takeDigits s) = true.
Proof.
  unfold allDigits. induction s as [|c s IH]; [reflexivity|].
  cbn [takeDigits]. destruct (is_digit c) eqn:Hc; [|reflexivity].
  cbn [list_ascii_of_string forallb].
  apply andb_true_intro. split; [exact Hc | exact IH].
Qed.

Lemma firstDigits_digits (s e : string) :
  firstDigits s = Some e -> e <> "" /\ allDigits e = true.
Proof.
  induction s as [|c s IH]; [discriminate|].
  cbn [firstDigits]. destruct (is_digit c) eqn:Hc; [|exact IH].
  intros [= <-]. cbn [takeDigits]. rewrite Hc. split; [discriminate|].
  unfold allDigits. cbn [list_ascii_of_string forallb].
  apply andb_true_intro. split; [exact Hc | apply takeDigits_allDigits].
Qed.

Lemma mapStatus_known (m : string) :
  In m knownStatuses -> In (mapStatus m) rosterStatuses.
Proof.
  unfold knownStatuses. simpl.
  intros H.
  repeat (destruct H as [<-|H]; [vm_compute; tauto|]). contradiction.
Qed.

Lemma classStatus_range (classes : list string) :
  In (classStatus classes) rosterStatuses.
Proof.
  induction classes as [|c rest IH]; cbn [classStatus].
  - vm_compute. tauto.
  - match goal with
    | |- context [List.find ?f knownStatuses] =>
        destruct (List.find f knownStatuses) as [m|] eqn:Hfind
    end; [|exact IH].
    apply mapStatus_known. apply List.find_some in Hfind. tauto.
Qed.

Lemma truthy_nonempty (s : string) : truthy s = true -> s <> "".
Proof. unfold truthy. intros H ->. discriminate. Qed.

Lemma orElse_truthy (a : option string) (b : string) :
  truthy (orElse a b) = true -> orElse a b <> "".
Proof. apply truthy_nonempty. Qed.

(** What every published roster entry satisfies. *)
Lemma agentOf_wellformed (item : AgentItem) (a : Agent) :
  agentOf item = Some a ->
  Scraper.id a = extension a
  /\ Scraper.id a <> "" /\ allDigits (Scraper.id a) = true
  /\ name a <> ""
  /\ In (Scraper.status a) rosterStatuses
  /\ color a = rosterColor (Scraper.status a).
Proof.
  unfold agentOf.
  destruct (numberEl item) as [number|]; [|discriminate].
  destruct (nameEl item) as [nameElement|]; [|discriminate].
  destruct (firstDigits (trim (numberText number))) as [e|] eqn:He;
    [|discriminate].
  destruct (truthy e && truthy _)%bool eqn:Ht; [|discriminate].
  apply andb_prop in Ht as [_ Hname].
  apply firstDigits_digits in He as [Hne Hdigits].
  intros [= <-]. cbn [Scraper.id extension name Scraper.status color].
  repeat split; try assumption.
  - apply truthy_nonempty. exact Hname.
  - destruct (statusIndicator number); [apply classStatus_range|].
    vm_compute. tauto.
Qed.

(** X8: every roster [fetchAllAgentStatuses] returns has at most one entry
    per agent item, and each entry has a non-empty all-digit id equal to
    its extension, a non-empty name, a status among available, away, dnd,
    lunch, business-trip, onCall, ringing and offline, and the display
    colour of that status: items without a number or a name are left
    out. *)
Theorem fetchAllAgentStatuses_wellformed (cfg : ScreenshotConfig)
    (s : Session) (st : ScreenshotState) (roster : list Agent) :
  fst (fetchAllAgentStatuses cfg s st) = Some roster ->
  (exists p items,
      pageAvailable s = Some p
      /\ agentContainer (document p) = Some items
      /\ (length roster <= length items)%nat)
  /\ forall a,
       In a roster ->
       Scraper.id a = extension a
       /\ Scraper.id a <> "" /\ allDigits (Scraper.id a) = true
       /\ name a <> ""
       /\ In (Scraper.status a) rosterStatuses
       /\ color a = rosterColor (Scraper.status a).
Proof.
  unfold fetchAllAgentStatuses, scrapeAgents.
  destruct (pageAvailable s) as [p|] eqn:Hp; [|discriminate].
  destruct (evaluateRejects p); [discriminate|]. cbn [fst].
  destruct (agentContainer (document p)) as [items|] eqn:Hitems;
    [|discriminate].
  intros [= <-]. split.
  - exists p, items. split; [reflexivity|]. split; [exact Hitems|].
    clear Hitems. induction items as [|item rest IH]; [apply le_n|].
    cbn [omap list_omap]. destruct (agentOf item); simpl; lia.
  - intros a Hin. apply list_elem_of_In in Hin.
    apply list_elem_of_omap in Hin as (item & _ & Hitem).
    exact (agentOf_wellformed item a Hitem).
Qed.

(** X8 at a container with one complete item and one item without a
    name. *)
Lemma fetchAllAgentStatuses_wellformed_witness :
  let complete :=
    {| numberEl :=
         Some {| numberText := " 534 ";
                 statusIndicator := Some "status-indicator On-Call" |};
       nameEl := Some {| nameTitle := None; nameText := " Brett Healy " |};
       queuesEl := Some " Support " |} in
  let nameless :=
    {| numberEl := Some {| numberText := "535"; statusIndicator := None |};
       nameEl := Some {| nameTitle := Some ""; nameText := "  " |};
       queuesEl := None |} in
  let p := {| isClosed := false; evaluateRejects := false;
              screenshotRejects := false;
              document := {| queueStat := None;
                             agentContainer := Some [complete; nameless] |} |} in
  let s := {| browser := true; page := Some p; now := 0;
              timestamp := "2024-01-01T00:00:00.000Z"; mkdir := MkdirOk |} in
  let roster :=
    [ {| Scraper.id := "534"; extension := "534"; name := "Brett Healy";
         Scraper.status := "onCall"; queues := "Support";
         color := "red" |} ] in
  fst (fetchAllAgentStatuses (defaultScreenshots false) s initialScreenshots)
  = Some roster
  /\ forall a,
       In a roster -> name a <> "" /\ allDigits (Scraper.id a) = true.
Proof.
  intros complete nameless p s roster.
  assert (Hfetch :
    fst (fetchAllAgentStatuses (defaultScreenshots false) s
           initialScreenshots) = Some roster) by (vm_compute; reflexivity).
  split; [exact Hfetch|].
  intros a Hin.
  destruct (fetchAllAgentStatuses_wellformed (defaultScreenshots false) s
              initialScreenshots roster Hfetch) as (_ & Hall).
  destruct (Hall a Hin) as (_ & _ & Hdigits & Hname & _). tauto.
Defined.

(** ** Screenshot requests in sequence *)

(** One request without [force] either leaves the counters alone or takes
    one unit of the quota that was still free. *)
Lemma takeScreenshot_unforced_step (cfg : ScreenshotConfig) (s : Session)
    (st : ScreenshotState) (pre : string) :
  (takeScreenshot cfg s st pre false = (None, st))
  \/ (screenshotCount st < maxPerSession cfg
      /\ screenshotCount (snd (takeScreenshot cfg s st pre false))
         = screenshotCount st + 1).
Proof.
  unfold takeScreenshot.
  destruct (enabled cfg); cbn [negb andb]; [|left; reflexivity].
  rewrite !andb_true_r.
  destruct (maxPerSession cfg <=? screenshotCount st) eqn:Hcount;
    [left; reflexivity|].
  destruct (now s - lastScreenshotTime st <? minInterval cfg);
    [left; reflexivity|].
  right. apply Z.leb_gt in Hcount. split; [exact Hcount|].
  destruct (page s) as [p|]; [|reflexivity].
  destruct (mkdir s); try reflexivity;
    destruct (screenshotRejects p); reflexivity.
Qed.

Lemma taken_cons (path : option string) (paths : list (option string)) :
  taken (path :: paths)
  = match path with
    | Some _ => S (taken paths)
    | None => taken paths
    end.
Proof. destruct path; reflexivity. Qed.

(** X9: however many requests without [force] are made, and whenever they
    are made, the number of screenshots taken never exceeds what was left
    of the per-session quota at the start. *)
Theorem takeAll_unforced_within_quota (cfg : ScreenshotConfig)
    (requests : list (Session * string * bool)) :
  forall st,
    (forall s pre force, In (s, pre, force) requests -> force = false) ->
    Z.of_nat (taken (fst (takeAll cfg requests st)))
    <= Z.max 0 (maxPerSession cfg - screenshotCount st).
Proof.
  induction requests as [|[[s pre] force] rest IH]; intros st Hunforced.
  - change (taken (fst (takeAll cfg [] st))) with 0%nat. lia.
  - assert (Hf : force = false)
      by (apply (Hunforced s pre force); left; reflexivity).
    subst force. cbn [takeAll].
    assert (Hrest : forall s' pre' force',
               In (s', pre', force') rest -> force' = false).
    { intros s' pre' force' Hin. apply (Hunforced s' pre' force').
      right. exact Hin. }
    destruct (takeScreenshot_unforced_step cfg s st pre) as [Hnone|[Hlt Hinc]].
    + rewrite Hnone. specialize (IH st Hrest).
      destruct (takeAll cfg rest st) as [paths st2]. cbn [fst] in *.
      rewrite taken_cons. exact IH.
    + destruct (takeScreenshot cfg s st pre false) as [path st1].
      cbn [snd] in Hinc. specialize (IH st1 Hrest).
      destruct (takeAll cfg rest st1) as [paths st2]. cbn [fst] in *.
      rewrite taken_cons. destruct path; lia.
Qed.

(** X9 at twenty-five well-spaced requests against the default quota of
    twenty. *)
Lemma takeAll_unforced_within_quota_witness :
  let p := {| isClosed := false; evaluateRejects := false;
              screenshotRejects := false;
              document := {| queueStat := None; agentContainer := None |} |} in
  let at_ n := {| browser := true; page := Some p;
                  now := 60000 * Z.of_nat n;
                  timestamp := ""; mkdir := MkdirOk |} in
  let requests := map (fun n => (at_ n, "3cx", false)) (seq 1 25) in
  taken (fst (takeAll (defaultScreenshots true) requests initialScreenshots))
  = 20%nat
  /\ Z.of_nat
       (taken (fst (takeAll (defaultScreenshots true) requests
                      initialScreenshots))) <= 20.
Proof.
  intros p at_ requests. split; [vm_compute; reflexivity|].
  apply (takeAll_unforced_within_quota (defaultScreenshots true) requests
           initialScreenshots).
  intros s pre force Hin. unfold requests in Hin.
  apply in_map_iff in Hin as (n & [= _ _ <-] & _). reflexivity.
Defined.

(** X10: a request that passes the three caps but cannot be captured (no
    page, the directory cannot be made, or [page.screenshot] rejects)
    returns [null] and is still charged: the count goes up by one and the
    spacing clock restarts. *)
Theorem takeScreenshot_failure_is_charged (cfg : ScreenshotConfig)
    (s : Session) (st : ScreenshotState) (pre : string) :
  enabled cfg = true ->
  screenshotCount st < maxPerSession cfg ->
  minInterval cfg <= now s - lastScreenshotTime st ->
  canCapture s = false ->
  takeScreenshot cfg s st pre false
  = (None, {| lastScreenshotTime := now s;
              screenshotCount := screenshotCount st + 1 |}).
Proof.
  intros Hen Hcount Hgap Hcap. unfold takeScreenshot, canCapture in *.
  rewrite Hen. cbn [negb andb].
  apply Z.leb_gt in Hcount. rewrite Hcount.
  apply Z.ltb_ge in Hgap. rewrite Hgap. cbn [andb].
  destruct (page s) as [p|]; [|reflexivity].
  destruct (mkdir s); try reflexivity;
    destruct (screenshotRejects p); try reflexivity; discriminate.
Qed.

(** X10 at a session whose page is gone, on the last free unit of the
    quota. *)
Lemma takeScreenshot_failure_is_charged_witness :
  let s := {| browser := true; page := None; now := 90000;
              timestamp := ""; mkdir := MkdirOk |} in
  let st := {| lastScreenshotTime := 0; screenshotCount := 19 |} in
  takeScreenshot (defaultScreenshots true) s st "status-detection" false
  = (None, {| lastScreenshotTime := 90000; screenshotCount := 20 |}).
Proof.
  intros s st.
  apply (takeScreenshot_failure_is_charged (defaultScreenshots true) s st);
    [reflexivity | simpl; lia | simpl; lia | reflexivity].
Defined.

(** ** The login wait *)

Lemma elapsedBefore_step (latency : nat -> nat) (i : nat) :
  elapsedBefore latency i + 5000 <= elapsedBefore latency (S i).
Proof. cbn [elapsedBefore]. lia. Qed.

Lemma elapsedBefore_mono (latency : nat -> nat) (i k : nat) :
  (i <= k)%nat -> elapsedBefore latency i <= elapsedBefore latency k.
Proof.
  induction 1 as [|k Hle IH]; [lia|].
  pose proof (elapsedBefore_step latency k). lia.
Qed.

Lemma elapsedBefore_lower (latency : nat -> nat) (i : nat) :
  5000 * Z.of_nat i <= elapsedBefore latency i.
Proof.
  induction i as [|i IH]; [simpl; lia|].
  pose proof (elapsedBefore_step latency i). lia.
Qed.

Lemma waitLoop_true_iff (polls : nat -> Poll) (latency : nat -> nat)
    (fuel : nat) :
  forall i,
    (1 <= fuel)%nat ->
    maxWaitTime <= elapsedBefore latency i + 5000 * (Z.of_nat fuel - 1) ->
    (waitLoop polls latency fuel (elapsedBefore latency i) i = Some true
     <-> exists k,
           (i <= k)%nat
           /\ loginDetected (polls k) = true
           /\ (forall j, (i <= j < k)%nat -> loginDetected (polls j) = false)
           /\ elapsedBefore latency k < maxWaitTime).
Proof.
  induction fuel as [|fuel IH]; intros i Hfuel Hbound; [lia|].
  cbn [waitLoop].
  destruct (elapsedBefore latency i <? maxWaitTime) eqn:Hlt.
  - apply Z.ltb_lt in Hlt.
    destruct (loginDetected (polls i)) eqn:Hi.
    + split; [|reflexivity]. intros _. exists i.
      repeat split; try lia; try assumption.
    + change (elapsedBefore latency i + Z.of_nat (latency i) + 5000)
        with (elapsedBefore latency (S i)).
      pose proof (elapsedBefore_step latency i) as Hstep.
      rewrite IH by lia. split.
      * intros (k & Hk & Hd & Hbefore & Ht). exists k.
        repeat split; try lia; try assumption.
        intros j Hj. destruct (Nat.eq_dec j i) as [->|Hne]; [exact Hi|].
        apply Hbefore. lia.
      * intros (k & Hk & Hd & Hbefore & Ht).
        assert (k <> i) by (intros ->; congruence).
        exists k. repeat split; try lia; try assumption.
        intros j Hj. apply Hbefore. lia.
  - apply Z.ltb_ge in Hlt. split; [discriminate|].
    intros (k & Hk & _ & _ & Ht).
    pose proof (elapsedBefore_mono latency i k Hk). lia.
Qed.

(** X11: [waitForLogin] returns [true] exactly when some poll detects the
    login, no earlier poll did, and that poll starts before the ten minutes
    are over (each earlier round having taken its own time plus the 5 s
    pause); such a poll is one of the first 120. *)
Theorem waitForLogin_true_iff (polls : nat -> Poll) (latency : nat -> nat) :
  waitForLogin polls latency = Some true
  <-> exists k,
        loginDetected (polls k) = true
        /\ (forall j, (j < k)%nat -> loginDetected (polls j) = false)
        /\ elapsedBefore latency k < maxWaitTime
        /\ (k < 120)%nat.
Proof.
  unfold waitForLogin.
  change 0 with (elapsedBefore latency 0) at 1.
  rewrite waitLoop_true_iff by (cbn [elapsedBefore]; unfold maxWaitTime; lia).
  split.
  - intros (k & _ & Hd & Hbefore & Ht). exists k.
    repeat split; try assumption.
    + intros j Hj. apply Hbefore. lia.
    + pose proof (elapsedBefore_lower latency k).
      unfold maxWaitTime in Ht. lia.
  - intros (k & Hd & Hbefore & Ht & _). exists k.
    repeat split; try lia; try assumption.
    intros j Hj. apply Hbefore. lia.
Qed.

(** X11 at a user who is logged in when the fourth poll looks. *)
Lemma waitForLogin_true_iff_witness :
  let loggedIn :=
    {| is3CXUrl := true; loginFormPresent := false; userMenu := true;
       switchboard := false; presenceIndicator := false;
       hasAuthToken := false |} in
  let onForm :=
    {| is3CXUrl := true; loginFormPresent := true; userMenu := false;
       switchboard := false; presenceIndicator := false;
       hasAuthToken := false |} in
  let polls := fun i => if (i <? 3)%nat then PollInfo onForm true
                        else PollInfo loggedIn true in
  waitForLogin polls (fun _ => 40%nat) = Some true.
Proof.
  intros loggedIn onForm polls.
  apply (proj2 (waitForLogin_true_iff polls (fun _ => 40%nat))).
  exists 3%nat. split; [reflexivity|]. split; [|split; [|lia]].
  - intros j Hj. unfold polls.
    destruct (j <? 3)%nat eqn:E; [reflexivity|].
    apply Nat.ltb_ge in E. lia.
  - vm_compute. reflexivity.
Defined.

(** ** Initialization *)



(** ** Navigation to the switchboard *)

(** X13: in a page that offers no [logger] to the evaluated function,
    [navigateToSwitchboard] never clicks anything: it returns [true] exactly
    when the page can be evaluated and either already shows the switchboard
    or offers no navigation element at all, and it returns [false] whenever
    an element to click was found. *)
Theorem navigateToSwitchboard_never_clicks (cfg : ScreenshotConfig)
    (s : Session) (nav : NavPage) (st : ScreenshotState) :
  pageLogger nav = false ->
  clicked (navigateToSwitchboard cfg s nav st) = None
  /\ (navigated (navigateToSwitchboard cfg s nav st) = true
      <-> exists p,
            pageAvailable s = Some p
            /\ evaluateRejects p = false
            /\ (alreadyOnSwitchboard nav = true \/ navTarget nav = None)).
Proof.
  intros Hlogger. unfold navigateToSwitchboard. rewrite Hlogger.
  destruct (pageAvailable s) as [p|].
  - destruct (evaluateRejects p) eqn:He.
    + split; [reflexivity|]. split; [discriminate|].
      intros (p' & [= <-] & He' & _). congruence.
    + destruct (alreadyOnSwitchboard nav) eqn:Ha.
      * split; [reflexivity|]. split; [|reflexivity].
        intros _. exists p. tauto.
      * destruct (navTarget nav) as [target|] eqn:Ht.
        -- split; [reflexivity|]. split; [discriminate|].
           intros (p' & _ & _ & [Hc|Hc]); discriminate.
        -- split; [reflexivity|]. split; [|reflexivity].
           intros _. exists p. tauto.
  - split; [reflexivity|]. split; [discriminate|].
    intros (p' & Hp & _). discriminate.
Qed.

(** X13 at a page that shows a link to the switchboard. *)
Lemma navigateToSwitchboard_never_clicks_witness :
  let p := {| isClosed := false; evaluateRejects := false;
              screenshotRejects := false;
              document := {| queueStat := None; agentContainer := None |} |} in
  let s := {| browser := true; page := Some p; now := 0;
              timestamp := ""; mkdir := MkdirOk |} in
  let nav := {| alreadyOnSwitchboard := false;
                navTarget := Some StandardLink;
                pageLogger := false; verifyRejects := false |} in
  clicked (navigateToSwitchboard (defaultScreenshots false) s nav
             initialScreenshots) = None
  /\ navigated (navigateToSwitchboard (defaultScreenshots false) s nav
                  initialScreenshots) = false.
Proof.
  intros p s nav.
  destruct (navigateToSwitchboard_never_clicks (defaultScreenshots false) s
              nav initialScreenshots eq_refl) as (Hclick & Hiff).
  split; [exact Hclick|].
  destruct (navigated _) eqn:Hn; [|reflexivity].
  destruct (proj1 Hiff eq_refl) as (p' & _ & _ & [Hc|Hc]); discriminate.
Defined.

(** ** The collection cycle *)


(** X15: [fetchCallStats] returns [null] exactly when the page is there
    and its evaluation rejects; without a browser or page it returns zeroed
    statistics tagged ["default"], and on a page without the table zeroed
    statistics tagged ["web"]; whatever it returns, [activeCalls] is 0: the
    scrape never fills it. *)
Theorem fetchCallStats_null_iff_rejects (cfg : ScreenshotConfig)
    (s : Session) (st : ScreenshotState) :
  (fst (fetchCallStats cfg s st) = None
   <-> exists p, pageAvailable s = Some p /\ evaluateRejects p = true)
  /\ (pageAvailable s = None ->
      fst (fetchCallStats cfg s st)
      = Some (zeroStats (Some (timestamp s)) "default" None)
      /\ snd (fetchCallStats cfg s st) = st)
  /\ (forall c,
        fst (fetchCallStats cfg s st) = Some c ->
        activeCalls c = 0
        /\ In (Scraper.source c) ["default"; "web"; "queue-stat-element"]).
Proof.
  unfold fetchCallStats. split; [|split].
  - destruct (pageAvailable s) as [p|].
    + destruct (evaluateRejects p) eqn:He; cbn [fst].
      * split; [|reflexivity]. intros _. exists p. tauto.
      * split.
        -- destruct (scrapeQueueStat (document p)); discriminate.
        -- intros (p' & [= <-] & He'). congruence.
    + split; [discriminate|]. intros (p' & Hp & _). discriminate.
  - intros ->. split; reflexivity.
  - intros c. destruct (pageAvailable s) as [p|].
    + destruct (evaluateRejects p); [discriminate|]. cbn [fst].
      destruct (scrapeQueueStat (document p)) as [found|] eqn:Hfound.
      * intros [= <-]. unfold scrapeQueueStat in Hfound.
        destruct (queueStat (document p)) as [q|]; [|discriminate].
        destruct (headerRow q); [|discriminate].
        destruct (dataRow q); [|discriminate].
        match type of Hfound with (if ?b then _ else _) = _ =>
          destruct b end; [|discriminate].
        injection Hfound as <-. cbn. tauto.
      * intros [= <-]. cbn. tauto.
    + intros [= <-]. cbn. tauto.
Qed.

(** X15 at a page that is closed and at one whose evaluation rejects. *)
Lemma fetchCallStats_null_iff_rejects_witness :
  let page_ closed rejects :=
    {| isClosed := closed; evaluateRejects := rejects;
       screenshotRejects := false;
       document := {| queueStat := None; agentContainer := None |} |} in
  let session p := {| browser := true; page := Some p; now := 0;
                      timestamp := "2024-01-01T00:00:00.000Z";
                      mkdir := MkdirOk |} in
  fst (fetchCallStats (defaultScreenshots false)
         (session (page_ false true)) initialScreenshots) = None
  /\ fst (fetchCallStats (defaultScreenshots false)
            (session (page_ true false)) initialScreenshots)
     = Some (zeroStats (Some "2024-01-01T00:00:00.000Z") "default" None).
Proof.
  intros page_ session. split.
  - destruct (fetchCallStats_null_iff_rejects (defaultScreenshots false)
                (session (page_ false true)) initialScreenshots)
      as (Hnull & _).
    apply (proj2 Hnull). exists (page_ false true). split; reflexivity.
  - destruct (fetchCallStats_null_iff_rejects (defaultScreenshots false)
                (session (page_ true false)) initialScreenshots)
      as (_ & Hdefault & _).
    exact (proj1 (Hdefault eq_refl)).
Defined.



(** A snapshot equal to the previous one is handed to the callback
    when the interval triggered the cycle, and dropped when a mutation
    signal or the initial collection did; in both cases the stored
    snapshot stays the same. *)
Theorem collectCycle_unchanged_snapshot
    {Reading : Type} `{EqDecision Reading}
    (data : StatusData (Reading := Reading)) (src : Source)
    (observerReady active : bool) :
  let st := {| lastStatusData := Some data; observerActive := active |} in
  lastStatusData (fst (collectCycle src data observerReady st)) = Some data
  /\ snd (collectCycle src data observerReady st)
     = match src with
       | SInterval => Some data
       | _ => None
       end.
Proof.
  intros st. unfold collectCycle, hasChanged, st. cbn [lastStatusData].
  rewrite bool_decide_eq_true_2 by reflexivity.
  destruct src; split; reflexivity.
Qed.

(** ** The refresh interval *)

Lemma clearRefreshInterval_single (m : Intervals) :
  running m = option_list (refreshIntervalId m) ->
  running (clearRefreshInterval m) = []
  /\ refreshIntervalId (clearRefreshInterval m) = None
  /\ nextHandle (clearRefreshInterval m) = nextHandle m.
Proof.
  unfold clearRefreshInterval.
  destruct (refreshIntervalId m) as [h|] eqn:Hid; simpl; intros Hrun.
  - rewrite Hrun. simpl. rewrite Nat.eqb_refl. simpl. tauto.
  - rewrite Hid. tauto.
Qed.

Lemma monitorCall_single (c : MonitorCall) (m : Intervals) :
  running m = option_list (refreshIntervalId m) ->
  running (monitorCall c m) = option_list (refreshIntervalId (monitorCall c m)).
Proof.
  intros Hrun.
  destruct (clearRefreshInterval_single m Hrun) as (Hr & Hi & _).
  destruct c; cbn [monitorCall]; unfold startRefreshInterval;
    cbn [running refreshIntervalId]; rewrite ?Hr, ?Hi; reflexivity.
Qed.

(** X16: however [startMonitoring], [stopMonitoring] and [close] are
    called one after the other, at most one refresh interval is running,
    it is the one [refreshIntervalId] holds, and none is running when the
    last call was a stop or a close. *)
Theorem monitorCalls_single_interval (cs : list MonitorCall) :
  let m := monitorCalls cs noIntervals in
  running m = option_list (refreshIntervalId m)
  /\ (length (running m) <= 1)%nat
  /\ (forall before c,
        cs = before ++ [c] -> c <> StartMonitoring -> running m = []).
Proof.
  cbv zeta.
  assert (Hinv : forall m0,
             running m0 = option_list (refreshIntervalId m0) ->
             running (monitorCalls cs m0)
             = option_list (refreshIntervalId (monitorCalls cs m0))).
  { unfold monitorCalls. induction cs as [|c cs IH]; intros m0 H0;
      [exact H0|].
    cbn [fold_left]. apply IH. apply monitorCall_single. exact H0. }
  split; [apply Hinv; reflexivity|]. split.
  - rewrite Hinv by reflexivity.
    destruct (refreshIntervalId _); simpl; lia.
  - intros before c -> Hc. unfold monitorCalls. rewrite fold_left_app.
    cbn [fold_left].
    assert (Hb : running (monitorCalls before noIntervals)
                 = option_list
                     (refreshIntervalId (monitorCalls before noIntervals))).
    { clear Hinv. unfold monitorCalls.
      assert (Hgen : forall m0,
                 running m0 = option_list (refreshIntervalId m0) ->
                 running (fold_left (fun acc c => monitorCall c acc) before m0)
                 = option_list
                     (refreshIntervalId
                        (fold_left (fun acc c => monitorCall c acc) before m0))).
      { induction before as [|b before IH]; intros m0 H0; [exact H0|].
        cbn [fold_left]. apply IH. apply monitorCall_single. exact H0. }
      apply Hgen. reflexivity. }
    destruct (clearRefreshInterval_single _ Hb) as (Hr & _).
    destruct c; [contradiction Hc; reflexivity | exact Hr | exact Hr].
Qed.

(** X16 at a restart followed by a stop. *)
Lemma monitorCalls_single_interval_witness :
  running (monitorCalls [StartMonitoring; StartMonitoring; StopMonitoring]
             noIntervals) = []
  /\ running (monitorCalls [StartMonitoring; StartMonitoring] noIntervals)
     = [1%nat].
Proof.
  split; [|reflexivity].
  destruct (monitorCalls_single_interval
              [StartMonitoring; StartMonitoring; StopMonitoring])
    as (_ & _ & Hlast).
  apply (Hlast [StartMonitoring; StartMonitoring] StopMonitoring);
    [reflexivity | discriminate].
Defined.

(** ** Debounced collection: chains of calls *)

Lemma runCalls_observer_chain (later : list Z) :
  forall (current : Z) (done : list (Z * Source)),
    closelySpaced current later ->
    cycles (runCalls (map (fun t => (t, SObserver)) later)
              {| debounceTimer := Some (current + 500, SObserver);
                 cycles := done |})
    = (List.last later current + 500, SObserver) :: done.
Proof.
  induction later as [|t later IH]; intros current done Hclose.
  - reflexivity.
  - destruct Hclose as [Ht Hrest].
    cbn [map runCalls]. unfold elapse. cbn [debounceTimer].
    replace (current + 500 <? t) with false by (symmetry; apply Z.ltb_ge; lia).
    unfold collectAndSendStatusData. cbn [cycles debounceDelay].
    rewrite (IH t done Hrest). rewrite last_cons. reflexivity.
Qed.

(** X17: while observer-sourced calls keep arriving less than 500 ms after
    one another, no collection cycle runs at all, however long the chain
    lasts; a single cycle runs 500 ms after the last call of the chain. *)
Theorem debounce_chain_runs_once (t1 : Z) (later : list Z) (tm : Timers) :
  closelySpaced t1 later ->
  cycles (runCalls (map (fun t => (t, SObserver)) (t1 :: later)) tm)
  = (List.last later t1 + 500, SObserver) :: cycles (elapse t1 tm).
Proof.
  intros Hclose. cbn [map runCalls].
  unfold collectAndSendStatusData. cbn [debounceDelay].
  apply runCalls_observer_chain. exact Hclose.
Qed.

(** X17 at five calls 400 ms apart: 1.6 s of signals, one cycle at the
    end. *)
Lemma debounce_chain_runs_once_witness :
  cycles (runCalls [ (0, SObserver); (400, SObserver); (800, SObserver);
                     (1200, SObserver); (1600, SObserver) ] idle)
  = [ (2100, SObserver) ].
Proof.
  apply (debounce_chain_runs_once 0 [400; 800; 1200; 1600] idle).
  simpl. lia.
Defined.

Lemma runCalls_length (calls : list (Z * Source)) :
  forall tm,
    (length (cycles (runCalls calls tm))
     <= length calls + length (cycles (settle tm)))%nat.
Proof.
  induction calls as [|[t src] rest IH]; intros tm.
  - simpl. lia.
  - cbn [runCalls]. specialize (IH (collectAndSendStatusData t src (elapse t tm))).
    assert (Hs : (length (cycles (settle
                     (collectAndSendStatusData t src (elapse t tm))))
                  <= S (length (cycles (settle tm))))%nat).
    { unfold settle, collectAndSendStatusData, elapse.
      destruct (debounceTimer tm) as [[due s0]|]; cbn;
        try destruct (due <? t); cbn; lia. }
    cbn [length]. lia.
Qed.

Lemma runCalls_last (calls : list (Z * Source)) :
  forall tm t src,
    exists earlier,
      cycles (runCalls (calls ++ [(t, src)]) tm)
      = (t + debounceDelay src, src) :: earlier.
Proof.
  induction calls as [|[t0 src0] rest IH]; intros tm t src.
  - cbn. eexists. reflexivity.
  - cbn [app runCalls]. apply IH.
Qed.

(** X18: a call to [collectAndSendStatusData] never adds more than one
    collection cycle, and the cycle of the last call always runs, with the
    delay of its source: the most recent cycle is that of the last call,
    whatever was pending before. *)
Theorem debounce_last_call_runs (calls : list (Z * Source)) (t : Z)
    (src : Source) (tm : Timers) :
  (length (cycles (runCalls (calls ++ [(t, src)]) tm))
   <= length (calls ++ [(t, src)]) + length (cycles (settle tm)))%nat
  /\ exists earlier,
       cycles (runCalls (calls ++ [(t, src)]) tm)
       = (t + debounceDelay src, src) :: earlier.
Proof. split; [apply runCalls_length | apply runCalls_last]. Qed.

(** ** Reconciliation core: one scraper result *)

Import Core.

Lemma statusColors_in_range (st : string) (r g b : Z) :
  assoc st statusColors = Some (r, g, b) ->
  0 <= r <= 255 /\ 0 <= g <= 255 /\ 0 <= b <= 255.
Proof.
  intros H. apply assoc_Some_In in H. unfold statusColors in H. simpl in H.
  repeat (destruct H as [[= <- <- <- <-]|H]; [lia|]). contradiction.
Qed.

(** The LED update for a status that has a colour, on a configured
    device. *)
Lemma updateWLEDWithStatus_known (w : World) (s : State) (st ip : string)
    (r g b : Z) :
  assoc st statusColors = Some (r, g, b) ->
  Wled.configured (wled w) = Some ip ->
  issued (updateWLEDWithStatus w s st)
  = [ Post {| url := "http://" +:+ ip +:+ "/json";
              body := solidColor (wled w) r g b |} ]
  /\ afterwards (updateWLEDWithStatus w s st)
     = broadcast
         (WledMessage
            (match device w with HttpOk => true | HttpError _ => false end)
            None) s.
Proof.
  intros Hcolor Hip.
  destruct (statusColors_in_range st r g b Hcolor) as (Hr & Hg & Hb).
  unfold updateWLEDWithStatus, get. rewrite Hcolor. cbn [colorArgument].
  unfold updateWLED, updateWLED_try. rewrite Hip.
  rewrite !channel_in_range by assumption.
  destruct (device w); split; reflexivity.
Qed.

(** The state and the effects of [handleStatusChange] when the monitoring
    flag is on and the result reports a status other than the current
    one. *)
Lemma handleStatusChange_change_steps (w : World) (r : Result) (s : State)
    (detected : StatusResult) :
  isMonitoring s = true ->
  statusResult r = Some detected ->
  status detected <> currentStatus s ->
  exists s3 recorded,
    List.filter isPost recorded = []
    /\ clients s3 = clients s
    /\ handleStatusChange w None (Some r) s
       = (setCurrentStatus (status detected) s3,
          recorded
          ++ broadcastStatus (setCurrentStatus (status detected) s3)
          ++ issued (updateWLEDWithStatus w
                       (setCurrentStatus (status detected) s3)
                       (status detected))
          ++ afterwards (updateWLEDWithStatus w
                           (setCurrentStatus (status detected) s3)
                           (status detected))).
Proof.
  intros Hon Hres Hne. unfold handleStatusChange. cbv beta iota zeta.
  pose proof (recordDebugInfo_quiet r s)
    as (Hd1 & _ & Hd3 & Hd4 & Hd5 & _).
  destruct (recordDebugInfo r s) as [s1 e1]. cbn [fst snd] in *.
  pose proof (recordCallStats_quiet r s1)
    as (Hc1 & _ & Hc3 & Hc4 & Hc5 & _).
  destruct (recordCallStats r s1) as [s2 e2]. cbn [fst snd] in *.
  pose proof (recordAgentStatuses_quiet w r s2)
    as (Ha1 & _ & Ha3 & Ha4 & Ha5 & _).
  destruct (recordAgentStatuses w r s2) as [s3 e3]. cbn [fst snd] in *.
  rewrite Hres.
  assert (Hm : isMonitoring s3 = true) by congruence.
  assert (Hcur : currentStatus s3 = currentStatus s) by congruence.
  rewrite Hm, Hcur.
  replace (String.eqb (status detected) (currentStatus s)) with false
    by (symmetry; apply String.eqb_neq; exact Hne).
  cbn [andb negb].
  exists s3, (e1 ++ e2 ++ e3). split; [|split].
  - repeat apply filter_app_nil; assumption.
  - congruence.
  - rewrite <- !app_assoc. reflexivity.
Qed.

(** X19: with monitoring on, a scraper result whose status differs from
    the current one and has a colour in [statusColors] makes that status
    current, sends the snapshot with the new status to every open
    connection, and sends the configured device exactly one request, which
    carries that status's colour. *)
Theorem handleStatusChange_led_follows_status (w : World) (r : Result)
    (s : State) (detected : StatusResult) (ip : string) (cr cg cb : Z) :
  isMonitoring s = true ->
  statusResult r = Some detected ->
  status detected <> currentStatus s ->
  assoc (status detected) statusColors = Some (cr, cg, cb) ->
  Wled.configured (wled w) = Some ip ->
  currentStatus (fst (handleStatusChange w None (Some r) s))
  = status detected
  /\ List.filter isPost (snd (handleStatusChange w None (Some r) s))
     = [ Post {| url := "http://" +:+ ip +:+ "/json";
                 body := solidColor (wled w) cr cg cb |} ]
  /\ forall c,
       In c (clients s) -> isOpen c = true ->
       In (Send (clientId c)
             (statusSnapshot (fst (handleStatusChange w None (Some r) s))))
          (snd (handleStatusChange w None (Some r) s)).
Proof.
  intros Hon Hres Hne Hcolor Hip.
  destruct (handleStatusChange_change_steps w r s detected Hon Hres Hne)
    as (s3 & recorded & Hquiet & Hclients & ->).
  cbn [fst snd].
  destruct (updateWLEDWithStatus_known w
              (setCurrentStatus (status detected) s3) (status detected) ip
              cr cg cb Hcolor Hip) as (-> & ->).
  split; [reflexivity|]. split.
  - rewrite !List.filter_app, Hquiet.
    unfold broadcastStatus.
    rewrite (filter_broadcast isPost) by reflexivity.
    rewrite (filter_broadcast isPost) by reflexivity.
    reflexivity.
  - intros c Hin Hopen. apply in_or_app. right. apply in_or_app. left.
    apply in_broadcast; [|exact Hopen]. cbn [setCurrentStatus clients].
    rewrite Hclients. exact Hin.
Qed.

(** X19 at the change from available to onCall. *)
Lemma handleStatusChange_led_follows_status_witness :
  let w := {| wled := {| ipAddress := Some "192.168.111.50";
                         brightness := 128; transition := 1000 |};
              device := HttpOk; time := 1700000000000 |} in
  let s := setCurrentStatus "available"
             (initialState [ {| clientId := 1%nat; isOpen := true |} ]) in
  let r := {| statusResult :=
                Some {| status := "onCall"; source := "indicator-class" |};
              callStatsResult := None; agentStatusesResult := Null;
              debugInfo := None |} in
  currentStatus (fst (handleStatusChange w None (Some r) s)) = "onCall"
  /\ List.filter isPost (snd (handleStatusChange w None (Some r) s))
     = [ Post {| url := "http://192.168.111.50/json";
                 body := solidColor (wled w) 255 0 0 |} ].
Proof.
  intros w s r.
  destruct (handleStatusChange_led_follows_status w r s
              {| status := "onCall"; source := "indicator-class" |}
              "192.168.111.50" 255 0 0 eq_refl eq_refl)
    as (Hstatus & Hpost & _); try reflexivity.
  - discriminate.
  - split; [exact Hstatus | exact Hpost].
Defined.

(** X20: an unreachable LED device does not stop status tracking: the new
    status still becomes current and is broadcast, and every open
    connection is told that the LED update failed. *)
Theorem handleStatusChange_survives_device_failure (w : World) (r : Result)
    (s : State) (detected : StatusResult) (ip message : string)
    (cr cg cb : Z) :
  isMonitoring s = true ->
  statusResult r = Some detected ->
  status detected <> currentStatus s ->
  assoc (status detected) statusColors = Some (cr, cg, cb) ->
  Wled.configured (wled w) = Some ip ->
  device w = HttpError message ->
  currentStatus (fst (handleStatusChange w None (Some r) s))
  = status detected
  /\ forall c,
       In c (clients s) -> isOpen c = true ->
       In (Send (clientId c)
             (statusSnapshot (fst (handleStatusChange w None (Some r) s))))
          (snd (handleStatusChange w None (Some r) s))
       /\ In (Send (clientId c) (WledMessage false None))
             (snd (handleStatusChange w None (Some r) s)).
Proof.
  intros Hon Hres Hne Hcolor Hip Hdev.
  destruct (handleStatusChange_change_steps w r s detected Hon Hres Hne)
    as (s3 & recorded & Hquiet & Hclients & ->).
  cbn [fst snd].
  destruct (updateWLEDWithStatus_known w
              (setCurrentStatus (status detected) s3) (status detected) ip
              cr cg cb Hcolor Hip) as (-> & ->).
  rewrite Hdev. split; [reflexivity|].
  intros c Hin Hopen.
  assert (Hin' : In c (clients (setCurrentStatus (status detected) s3))).
  { cbn [setCurrentStatus clients]. rewrite Hclients. exact Hin. }
  split.
  - apply in_or_app. right. apply in_or_app. left.
    apply in_broadcast; assumption.
  - apply in_or_app. right. apply in_or_app. right.
    apply in_or_app. right. apply in_broadcast; assumption.
Qed.

(** X20 at a device that refuses the connection. *)
Lemma handleStatusChange_survives_device_failure_witness :
  let w := {| wled := {| ipAddress := Some "192.168.111.50";
                         brightness := 128; transition := 1000 |};
              device := HttpError "ECONNREFUSED"; time := 1700000000000 |} in
  let s := initialState [ {| clientId := 1%nat; isOpen := true |} ] in
  let r := {| statusResult :=
                Some {| status := "ringing"; source := "indicator-text" |};
              callStatsResult := None; agentStatusesResult := Null;
              debugInfo := None |} in
  currentStatus (fst (handleStatusChange w None (Some r) s)) = "ringing"
  /\ In (Send 1%nat (WledMessage false None))
        (snd (handleStatusChange w None (Some r) s)).
Proof.
  intros w s r.
  destruct (handleStatusChange_survives_device_failure w r s
              {| status := "ringing"; source := "indicator-text" |}
              "192.168.111.50" "ECONNREFUSED" 255 255 0 eq_refl eq_refl)
    as (Hstatus & Hsent); try reflexivity.
  - discriminate.
  - split; [exact Hstatus|].
    exact (proj2 (Hsent {| clientId := 1%nat; isOpen := true |}
                    (or_introl eq_refl) eq_refl)).
Defined.

(** X21: a scraper result that repeats the current status sends nothing to
    the LED device and no status snapshot, whatever else it carries;
    call statistics and roster are still taken over. *)
Theorem handleStatusChange_same_status_is_silent (w : World) (r : Result)
    (s : State) (detected : StatusResult) :
  statusResult r = Some detected ->
  status detected = currentStatus s ->
  List.filter isPost (snd (handleStatusChange w None (Some r) s)) = []
  /\ List.filter isStatusUpdate (snd (handleStatusChange w None (Some r) s))
     = []
  /\ currentStatus (fst (handleStatusChange w None (Some r) s))
     = currentStatus s
  /\ (forall c, callStatsResult r = Some c ->
        latestCallStats (fst (handleStatusChange w None (Some r) s)) = c).
Proof.
  intros Hres Hsame. unfold handleStatusChange. cbv beta iota zeta.
  pose proof (recordDebugInfo_quiet r s)
    as (Hd1 & Hd2 & Hd3 & _).
  destruct (recordDebugInfo r s) as [s1 e1]. cbn [fst snd] in *.
  pose proof (recordCallStats_quiet r s1)
    as (Hc1 & Hc2 & Hc3 & _).
  assert (Hstats : forall c, callStatsResult r = Some c ->
                     latestCallStats (fst (recordCallStats r s1)) = c).
  { intros c Hc. unfold recordCallStats. rewrite Hc. reflexivity. }
  destruct (recordCallStats r s1) as [s2 e2]. cbn [fst snd] in *.
  pose proof (recordAgentStatuses_quiet w r s2)
    as (Ha1 & Ha2 & Ha3 & _ & _ & Ha6 & _).
  destruct (recordAgentStatuses w r s2) as [s3 e3]. cbn [fst snd] in *.
  rewrite Hres.
  replace (String.eqb (status detected) (currentStatus s3)) with true
    by (symmetry; apply String.eqb_eq; congruence).
  rewrite andb_false_r. cbn [fst snd].
  split; [repeat apply filter_app_nil; assumption|].
  split; [repeat apply filter_app_nil; assumption|].
  split; [congruence|].
  intros c Hc. rewrite Ha6. exact (Hstats c Hc).
Qed.

(** X21 at a heartbeat result on an unchanged page. *)
Lemma handleStatusChange_same_status_is_silent_witness :
  let w := {| wled := {| ipAddress := Some "192.168.111.50";
                         brightness := 128; transition := 1000 |};
              device := HttpOk; time := 1700000000000 |} in
  let s := setCurrentStatus "available"
             (initialState [ {| clientId := 1%nat; isOpen := true |} ]) in
  let r := {| statusResult :=
                Some {| status := "available"; source := "default" |};
              callStatsResult := None; agentStatusesResult := Null;
              debugInfo := None |} in
  List.filter isPost (snd (handleStatusChange w None (Some r) s)) = []
  /\ List.filter isStatusUpdate (snd (handleStatusChange w None (Some r) s))
     = [].
Proof.
  intros w s r.
  destruct (handleStatusChange_same_status_is_silent w r s
              {| status := "available"; source := "default" |}
              eq_refl eq_refl) as (Hpost & Hstatus & _).
  split; [exact Hpost | exact Hstatus].
Defined.

(** ** Reconciliation core: runs of commands *)

(** What one command keeps when it is not a manual status submission and
    the monitoring flag is off. *)
Lemma command_monitoring_off (w : World) (c : Command) (s : State) :
  isMonitoring s = false ->
  isManualStatus c = false ->
  List.filter isPost (snd (command w c s)) = []
  /\ isMonitoring (fst (command w c s)) = false
  /\ currentStatus (fst (command w c s)) = currentStatus s.
Proof.
  intros Hoff Hc. destruct c as [error result|r|r| |stamp u|memberId st];
    try discriminate; cbn [command].
  - destruct error as [message|].
    + unfold handleStatusChange. tauto.
    + destruct result as [r|].
      * rewrite (handleStatusChange_monitoring_off_steps w r s Hoff).
        cbv zeta. cbn [fst snd].
        pose proof (recordDebugInfo_quiet r s)
          as (P1 & _ & C1 & H1 & _).
        pose proof (recordCallStats_quiet r (fst (recordDebugInfo r s)))
          as (P2 & _ & C2 & H2 & _).
        pose proof (recordAgentStatuses_quiet w r
                      (fst (recordCallStats r (fst (recordDebugInfo r s)))))
          as (P3 & _ & C3 & H3 & _).
        split; [repeat apply filter_app_nil; assumption|].
        split; congruence.
      * unfold handleStatusChange. cbv beta iota zeta.
        cbn. rewrite Hoff. tauto.
  - cbn. tauto.
  - unfold postCallStats, broadcastCallStats. cbn [fst snd].
    split; [apply filter_broadcast; reflexivity|]. tauto.
  - unfold postTeamStatus.
    destruct (updateMember memberId st (teamStatus s)); cbn [fst snd];
      [|tauto].
    split; [|tauto]. unfold broadcastTeamStatus.
    cbn [setTeam clients teamStatus].
    destruct (clients s); [reflexivity|]. destruct l; [reflexivity|].
    apply filter_broadcast. reflexivity.
Qed.

(** X22: while the monitoring flag is off, no run of scraper results,
    manual call statistics, team-member changes and override resets sends
    anything to the LED device or changes the status shown: only a manual
    status submission can. *)
Theorem commands_monitoring_off_no_led (cs : list (World * Command)) :
  forall s,
    isMonitoring s = false ->
    (forall w c, In (w, c) cs -> isManualStatus c = false) ->
    List.filter isPost (snd (commands cs s)) = []
    /\ isMonitoring (fst (commands cs s)) = false
    /\ currentStatus (fst (commands cs s)) = currentStatus s.
Proof.
  induction cs as [|[w c] rest IH]; intros s Hoff Hmanual.
  - cbn. tauto.
  - cbn [commands].
    destruct (command_monitoring_off w c s Hoff
                (Hmanual w c (or_introl eq_refl))) as (Hpost & Hm & Hcur).
    destruct (command w c s) as [s1 e1]. cbn [fst snd] in *.
    destruct (IH s1 Hm (fun w' c' Hin => Hmanual w' c' (or_intror Hin)))
      as (Hpost' & Hm' & Hcur').
    destruct (commands rest s1) as [s2 e2]. cbn [fst snd] in *.
    split; [apply filter_app_nil; assumption|].
    split; [exact Hm' | congruence].
Qed.

(** X22 at two scraper results that report a call while monitoring is
    off. *)
Lemma commands_monitoring_off_no_led_witness :
  let w := {| wled := {| ipAddress := Some "192.168.111.50";
                         brightness := 128; transition := 1000 |};
              device := HttpOk; time := 1700000000000 |} in
  let s := setIsMonitoring false
             (initialState [ {| clientId := 1%nat; isOpen := true |} ]) in
  let reports st :=
    ScraperUpdate None
      (Some {| statusResult := Some {| status := st; source := "text" |};
               callStatsResult := None; agentStatusesResult := Null;
               debugInfo := None |}) in
  let cs := [ (w, reports "onCall"); (w, ClearManualOverride);
              (w, reports "available") ] in
  List.filter isPost (snd (commands cs s)) = []
  /\ isMonitoring (fst (commands cs s)) = false
  /\ currentStatus (fst (commands cs s)) = "offline".
Proof.
  intros w s reports cs.
  apply (commands_monitoring_off_no_led cs s eq_refl).
  intros w' c' Hin. unfold cs in Hin. simpl in Hin.
  repeat (destruct Hin as [[= <- <-]|Hin]; [reflexivity|]). contradiction.
Defined.

Lemma updateMember_same (memberId st : string) (team : list Scraper.Agent) :
  from_option Datatypes.id team (updateMember memberId st team)
  = match updateMember memberId st team with
    | Some team' => team'
    | None => team
    end.
Proof. destruct (updateMember memberId st team); reflexivity. Qed.

(** What every command keeps. *)
Lemma command_invariant (w : World) (c : Command) (s : State) :
  manualStatusOverride s = false ->
  teamStatus s = latestAgentStatuses s ->
  manualStatusOverride (fst (command w c s)) = false
  /\ teamStatus (fst (command w c s)) = latestAgentStatuses (fst (command w c s))
  /\ clients (fst (command w c s)) = clients s.
Proof.
  intros Hoff Halias.
  destruct c as [error result|r|r| |stamp u|memberId st]; cbn [command].
  - unfold handleStatusChange. destruct error; [tauto|].
    cbv beta iota zeta.
    set (r := match result with Some r => r | None => emptyResult end).
    unfold recordDebugInfo, recordCallStats, recordAgentStatuses,
      broadcastDebugInfo, broadcastCallStats.
    destruct (debugInfo r), (callStatsResult r),
      (agentStatusesResult r) as [| |agents], (statusResult r) as [d|];
      cbn; try (destruct (isMonitoring s && _)%bool; cbn); tauto.
  - unfold postStatus.
    destruct (submitted r), (reqMonitoring r); cbn; tauto.
  - unfold wsStatus.
    destruct (submitted r), (reqMonitoring r); cbn; tauto.
  - cbn. tauto.
  - cbn. tauto.
  - unfold postTeamStatus. rewrite <- Halias.
    destruct (updateMember memberId st (teamStatus s)); cbn; tauto.
Qed.

(** X23: in every state the process reaches from its start through scraper
    results, manual status submissions, override resets, manual call
    statistics and team-member changes, the manual-override flag is still
    [false] (so the dashboard is always told that no override is active),
    and [teamStatus] and [latestAgentStatuses] hold the same roster. *)
Theorem commands_invariants (cs : list (World * Command))
    (connections : list Client) (nowMs : Z) :
  let s := fst (commands cs (initialState connections)) in
  manualStatusOverride s = false
  /\ manualOverrideRemaining nowMs s = 0
  /\ teamStatus s = latestAgentStatuses s
  /\ clients s = connections.
Proof.
  cbv zeta.
  assert (Hgen : forall s0,
             manualStatusOverride s0 = false ->
             teamStatus s0 = latestAgentStatuses s0 ->
             manualStatusOverride (fst (commands cs s0)) = false
             /\ teamStatus (fst (commands cs s0))
                = latestAgentStatuses (fst (commands cs s0))
             /\ clients (fst (commands cs s0)) = clients s0).
  { induction cs as [|[w c] rest IH]; intros s0 Hoff Halias.
    - cbn. tauto.
    - cbn [commands].
      destruct (command_invariant w c s0 Hoff Halias) as (H1 & H2 & H3).
      destruct (command w c s0) as [s1 e1]. cbn [fst] in *.
      destruct (IH s1 H1 H2) as (H1' & H2' & H3').
      destruct (commands rest s1) as [s2 e2]. cbn [fst] in *.
      split; [exact H1'|]. split; [exact H2' | congruence]. }
  destruct (Hgen (initialState connections) eq_refl eq_refl)
    as (Hoff & Halias & Hclients).
  split; [exact Hoff|]. split; [|split; [exact Halias | exact Hclients]].
  unfold manualOverrideRemaining. rewrite Hoff. reflexivity.
Qed.

Lemma broadcast_toOpen (m : Message) (s s' : State) :
  clients s' = clients s ->
  List.Forall (toOpenConnection s) (broadcast m s').
Proof.
  intros Hc. unfold broadcast. rewrite Hc. apply List.Forall_forall.
  intros e Hin. apply in_map_iff in Hin as (c & <- & Hin).
  apply filter_In in Hin as [Hin Hopen]. exists c. tauto.
Qed.

Lemma broadcastTeamStatus_toOpen (s s' : State) :
  clients s' = clients s ->
  List.Forall (toOpenConnection s) (broadcastTeamStatus s').
Proof.
  intros Hc. unfold broadcastTeamStatus.
  destruct (clients s') eqn:Hcs; [constructor|].
  destruct (teamStatus s'); [constructor|].
  apply broadcast_toOpen. congruence.
Qed.

Lemma updateWLEDWithStatus_toOpen (w : World) (s s' : State) (st : string) :
  clients s' = clients s ->
  List.Forall (toOpenConnection s) (issued (updateWLEDWithStatus w s' st))
  /\ List.Forall (toOpenConnection s)
       (afterwards (updateWLEDWithStatus w s' st)).
Proof.
  intros Hc. unfold updateWLEDWithStatus.
  destruct (colorArgument _) as [color|]; [|split; constructor].
  destruct (updateWLED (wled w) color (device w)) as [[success|message] reqs];
    cbn [issued afterwards]; (split;
      [apply List.Forall_forall; intros e Hin;
       apply in_map_iff in Hin as (q & <- & _); exact I
      |apply broadcast_toOpen; exact Hc]).
Qed.

Ltac to_open :=
  repeat first
    [ apply List.Forall_nil
    | apply List.Forall_app; split
    | apply broadcast_toOpen; reflexivity
    | apply broadcastTeamStatus_toOpen; reflexivity
    | apply updateWLEDWithStatus_toOpen; reflexivity ].

Lemma command_toOpen (w : World) (c : Command) (s : State) :
  List.Forall (toOpenConnection s) (snd (command w c s)).
Proof.
  destruct c as [error result|r|r| |stamp u|memberId st]; cbn [command].
  - unfold handleStatusChange. destruct error; [constructor|].
    cbv beta iota zeta.
    set (r := match result with Some r => r | None => emptyResult end).
    unfold recordDebugInfo, recordCallStats, recordAgentStatuses,
      broadcastDebugInfo, broadcastCallStats, broadcastStatus.
    destruct (debugInfo r), (callStatsResult r),
      (agentStatusesResult r) as [| |agents], (statusResult r) as [d|];
      cbn [fst snd];
      try (match goal with |- context [if ?b then _ else _] =>
             destruct b end);
      cbn [fst snd]; to_open.
  - unfold postStatus, broadcastStatus.
    destruct (submitted r), (reqMonitoring r); cbn [fst snd]; to_open.
  - unfold wsStatus, broadcastStatus.
    destruct (submitted r), (reqMonitoring r); cbn [fst snd from_option];
      to_open.
  - constructor.
  - unfold postCallStats, broadcastCallStats. cbn [snd]. to_open.
  - unfold postTeamStatus.
    destruct (updateMember memberId st (teamStatus s)); cbn [snd]; to_open.
Qed.

(** X24: whatever commands the core handles, every message it sends is
    addressed to a connection that is open; no command sends to a closed
    connection, and none changes the set of connections. *)
Theorem commands_send_to_open_connections (cs : list (World * Command)) :
  forall s target m,
    In (Send target m) (snd (commands cs s)) ->
    exists c, In c (clients s) /\ clientId c = target /\ isOpen c = true.
Proof.
  induction cs as [|[w c] rest IH]; intros s target m Hin.
  - destruct Hin.
  - cbn [commands] in Hin.
    pose proof (command_toOpen w c s) as Hfirst.
    assert (Hclients : clients (fst (command w c s)) = clients s).
    { destruct c as [error result|r|r| |stamp u|memberId st];
        cbn [command].
      - unfold handleStatusChange. destruct error; [reflexivity|].
        cbv beta iota zeta.
        set (r := match result with Some r => r | None => emptyResult end).
        unfold recordDebugInfo, recordCallStats, recordAgentStatuses,
          broadcastDebugInfo, broadcastCallStats.
        destruct (debugInfo r), (callStatsResult r),
          (agentStatusesResult r) as [| |agents], (statusResult r) as [d|];
          cbn; try (match goal with |- context [if ?b then _ else _] =>
                      destruct b end); reflexivity.
      - unfold postStatus.
        destruct (submitted r), (reqMonitoring r); reflexivity.
      - unfold wsStatus.
        destruct (submitted r), (reqMonitoring r); reflexivity.
      - reflexivity.
      - reflexivity.
      - unfold postTeamStatus.
        destruct (updateMember memberId st (teamStatus s)); reflexivity. }
    destruct (command w c s) as [s1 e1]. cbn [fst snd] in *.
    specialize (IH s1 target m).
    destruct (commands rest s1) as [s2 e2]. cbn [fst snd] in *.
    apply in_app_or in Hin as [Hin|Hin].
    + rewrite List.Forall_forall in Hfirst. exact (Hfirst _ Hin).
    + rewrite <- Hclients. exact (IH Hin).
Qed.

(** X24 at a status submitted while one of two connections is closed. *)
Lemma commands_send_to_open_connections_witness :
  let w := {| wled := {| ipAddress := Some "192.168.111.50";
                         brightness := 128; transition := 1000 |};
              device := HttpOk; time := 1700000000000 |} in
  let s := initialState [ {| clientId := 1%nat; isOpen := true |};
                          {| clientId := 2%nat; isOpen := false |} ] in
  let cs := [ (w, PostStatus {| reqStatus := Some "dnd";
                                reqMonitoring := None |}) ] in
  In (Send 1%nat (WledMessage true None)) (snd (commands cs s))
  /\ exists c, In c (clients s) /\ clientId c = 1%nat /\ isOpen c = true.
Proof.
  intros w s cs.
  assert (Hin : In (Send 1%nat (WledMessage true None))
                   (snd (commands cs s))).
  { vm_compute. tauto. }
  split; [exact Hin|].
  exact (commands_send_to_open_connections cs s _ _ Hin).
Defined.



(** ** Connection liveness *)

(** X26: a connection that lets two ticks of the ping interval pass without
    a pong in between is terminated at the second tick; a connection that
    answers every ping stays up, however long it lasts; and once
    terminated, a connection stays terminated. *)
Theorem heartbeat_detects_silence (h : Heartbeat) (ok1 ok2 : bool)
    (n : nat) (later : list Beat) :
  terminated (beat (Tick ok2) (beat (Tick ok1) h)) = true
  /\ beats (concat (repeat [Tick true; Pong] n)) connected
     = {| isAlive := true; terminated := false; pingsSent := n |}
  /\ (terminated h = true -> beats later h = h).
Proof.
  split; [|split].
  - unfold beat. destruct (terminated h) eqn:Ht; [rewrite Ht; exact Ht|].
    destruct (isAlive h), ok1; cbn; try reflexivity.
  - assert (Hgen : forall k,
               beats (concat (repeat [Tick true; Pong] n))
                 {| isAlive := true; terminated := false; pingsSent := k |}
               = {| isAlive := true; terminated := false;
                    pingsSent := (k + n)%nat |}).
    { induction n as [|n IH]; intros k.
      - cbn. rewrite Nat.add_0_r. reflexivity.
      - cbn [repeat concat app]. unfold beats in *. cbn [fold_left beat
          terminated isAlive pingsSent].
        rewrite IH. f_equal. lia. }
    exact (Hgen 0%nat).
  - intros Ht. unfold beats. induction later as [|b later IH];
      [reflexivity|].
    cbn [fold_left]. unfold beat at 2. rewrite Ht. exact IH.
Qed.

(** X26 at a connection that answered three pings and then fell
    silent. *)
Lemma heartbeat_detects_silence_witness :
  let answered := beats (concat (repeat [Tick true; Pong] 3)) connected in
  terminated answered = false
  /\ terminated (beat (Tick true) (beat (Tick true) answered)) = true
  /\ beats [Pong; Tick true]
       (beat (Tick true) (beat (Tick true) answered))
     = beat (Tick true) (beat (Tick true) answered).
Proof.
  intros answered.
  destruct (heartbeat_detects_silence answered true true 3 [Pong; Tick true])
    as (Hsilent & Hanswered & _).
  split; [unfold answered; rewrite Hanswered; reflexivity|].
  split; [exact Hsilent|].
  destruct (heartbeat_detects_silence
              (beat (Tick true) (beat (Tick true) answered)) true true 0
              [Pong; Tick true]) as (_ & _ & Hstays).
  exact (Hstays Hsilent).
Defined.

(** ** Manual status of one team member *)





(** ** The two palettes *)

Lemma rosterColor_agrees (st : string) :
  st <> "offline" -> rosterColor st = getColorForStatus st.
Proof.
  intros Hne. unfold rosterColor, getColorForStatus.
  destruct (String.eqb_spec st "available") as [->|_]; [reflexivity|].
  destruct (String.eqb_spec st "onCall") as [->|_]; [reflexivity|].
  destruct (String.eqb_spec st "ringing") as [->|_]; [reflexivity|].
  destruct (String.eqb_spec st "dnd") as [->|_]; [reflexivity|].
  destruct (String.eqb_spec st "away") as [->|_]; [reflexivity|].
  destruct (String.eqb_spec st "offline") as [->|_];
    [contradiction Hne; reflexivity | reflexivity].
Qed.

(** X28: [getColorForStatus] names a colour other than gray exactly for
    the six statuses that have an LED colour in [statusColors]; and it
    agrees with the colour the scraper gives a roster entry for every
    status except ["offline"], which the scraper paints gray and the core
    blue. *)
Theorem palettes_agree (st : string) :
  (getColorForStatus st = "gray" <-> assoc st statusColors = None)
  /\ (st <> "offline" -> rosterColor st = getColorForStatus st)
  /\ rosterColor "offline" = "gray"
  /\ getColorForStatus "offline" = "blue".
Proof.
  split; [|split; [|split; reflexivity]].
  - unfold getColorForStatus, statusColors. cbn [assoc].
    repeat (destruct (String.eqb st _);
            [split; intros; discriminate|]).
    split; reflexivity.
  - apply rosterColor_agrees.
Qed.

(** X28 at the status lunch, which only the roster knows. *)
Lemma palettes_agree_witness :
  assoc "lunch" statusColors = None
  /\ rosterColor "lunch" = getColorForStatus "lunch".
Proof.
  destruct (palettes_agree "lunch") as (Hgray & Hagree & _).
  split; [apply (proj1 Hgray); reflexivity | apply Hagree; discriminate].
Defined.

(** X29: the status snapshot repaints the roster with the core's palette;
    for an entry as the scraper produced it this changes nothing unless
    the agent is offline. *)
Theorem recolor_changes_offline_only (item : AgentItem)
    (a : Scraper.Agent) :
  agentOf item = Some a ->
  (recolor a = a <-> Scraper.status a <> "offline").
Proof.
  intros Hitem.
  destruct (agentOf_wellformed item a Hitem) as (_ & _ & _ & _ & _ & Hcolor).
  destruct a as [i e n st q c]. cbn [Scraper.status Scraper.color] in *.
  unfold recolor. cbn [Scraper.id Scraper.extension Scraper.name
                        Scraper.status Scraper.queues].
  split.
  - intros Heq Hoff. subst st c. injection Heq as Heq. discriminate Heq.
  - intros Hne. rewrite <- (rosterColor_agrees st Hne), <- Hcolor.
    reflexivity.
Qed.

(** X29 at an available agent. *)
Lemma recolor_changes_offline_only_witness :
  let item :=
    {| numberEl :=
         Some {| numberText := "534";
                 statusIndicator := Some "status-indicator available" |};
       nameEl := Some {| nameTitle := Some "Brett Healy"; nameText := "" |};
       queuesEl := None |} in
  exists a, agentOf item = Some a /\ recolor a = a.
Proof.
  intros item. eexists. split; [reflexivity|].
  apply (proj2 (recolor_changes_offline_only item _ eq_refl)).
  vm_compute. discriminate.
Defined.

(** ** The first integration script *)

Lemma legacy_repeat_silent (cfg : Wled.Config) (st : string) (n : nat) :
  Legacy.handleAll cfg (repeat st n) (Some st) = (Some st, []).
Proof.
  induction n as [|n IH]; [reflexivity|].
  cbn [repeat Legacy.handleAll]. unfold Legacy.handleStatusChange.
  rewrite String.eqb_refl. rewrite IH. reflexivity.
Qed.

(** X30: in the first integration script a status that is repeated, any
    number of times, makes one request in all: the first occurrence sends
    the colour, the repetitions send nothing, also when that first request
    failed. *)
Theorem legacy_repeated_status_sends_once (cfg : Wled.Config)
    (st : string) (lastStatus : option string) (n : nat) :
  lastStatus <> Some st ->
  Legacy.handleAll cfg (repeat st (S n)) lastStatus
  = (Some st, Legacy.updateWLED cfg (Legacy.colorFor st)).
Proof.
  intros Hne. cbn [repeat Legacy.handleAll].
  unfold Legacy.handleStatusChange.
  destruct lastStatus as [previous|].
  - destruct (String.eqb_spec st previous) as [->|_];
      [contradiction Hne; reflexivity|].
    rewrite legacy_repeat_silent. rewrite app_nil_r. reflexivity.
  - rewrite legacy_repeat_silent. rewrite app_nil_r. reflexivity.
Qed.

(** X30 at a feed that says "busy" four times. *)
Lemma legacy_repeated_status_sends_once_witness :
  let cfg := {| ipAddress := Some "192.168.111.50";
                brightness := 128; transition := 1000 |} in
  Legacy.handleAll cfg ["busy"; "busy"; "busy"; "busy"] None
  = (Some "busy",
     [ {| url := "http://192.168.111.50/json";
          body := solidColor cfg 255 0 0 |} ]).
Proof.
  intros cfg.
  apply (legacy_repeated_status_sends_once cfg "busy" None 3). discriminate.
Defined.
